(** * oscar2ics: schedule rows to recurring calendar events

    A shallow embedding of the two observed variants of the application
    module (the positional parser that exports UTC components, and the
    classifier-based parser that exports local wall-clock components),
    together with the properties of the layout reconstruction, the
    course/meeting assembly and the temporal resolution.

    Conventions of the embedding:
    - text is a [string] whose characters are 8-bit code units;
    - JavaScript numbers that the code computes with are [JSNumber]
      (an integer, [+Infinity] or [NaN]); page coordinates are rationals;
    - an exception that escapes a handler is the [Thrown] completion;
    - the date library is modelled in [Module Luxon] on the wall clock
      of the fixed zone, with the zone's rules for daylight time. *)

From Stdlib Require Import ZArith List String Ascii Bool Lia Permutation.
From Stdlib Require Import QArith Qround Sorted.
Import ListNotations.

Local Open Scope string_scope.
Local Open Scope list_scope.
Local Open Scope Z_scope.

(** ** JavaScript values and completions *)

Inductive JSNumber : Type :=
| Fin (z : Z)
| PosInf
| NaN.

(** [a < b] on numbers, as used by the minimum search ([NaN] compares
    false with everything). *)
Definition js_lt (a b : JSNumber) : bool :=
  match a, b with
  | Fin x, Fin y => x <? y
  | Fin _, PosInf => true
  | _, _ => false
  end.

Inductive Completion (A : Type) : Type :=
| Normal (a : A)
| Thrown.
Arguments Normal {A} a.
Arguments Thrown {A}.

Definition bindC {A B : Type} (c : Completion A) (k : A -> Completion B)
  : Completion B :=
  match c with
  | Normal a => k a
  | Thrown => Thrown
  end.

Notation "x <- c ;; k" := (bindC c (fun x => k))
  (at level 61, c at next level, right associativity).

(** ** Strings as the code uses them *)

Module JS.

Definition code (c : ascii) : nat := nat_of_ascii c.

(** White space of [String.prototype.trim] and of the regular-expression
    class [\s], within the 8-bit range. *)
Definition isSpace (c : ascii) : bool :=
  let n := code c in
  (((9 <=? n) && (n <=? 13)) || (n =? 32) || (n =? 160))%nat.

Definition isDigit (c : ascii) : bool :=
  let n := code c in ((48 <=? n) && (n <=? 57))%nat.

Definition isEmpty (s : string) : bool :=
  match s with EmptyString => true | String _ _ => false end.

(** Truthiness of a string: [Boolean(s)]. *)
Definition truthy (s : string) : bool := negb (isEmpty s).

Definition truthyOpt (o : option string) : bool :=
  match o with Some s => truthy s | None => false end.

Fixpoint trimStart (s : string) : string :=
  match s with
  | EmptyString => EmptyString
  | String c s' => if isSpace c then trimStart s' else s
  end.

Fixpoint trimEnd (s : string) : string :=
  match s with
  | EmptyString => EmptyString
  | String c s' =>
      let r := trimEnd s' in
      if isSpace c && isEmpty r then EmptyString else String c r
  end.

Definition trim (s : string) : string := trimEnd (trimStart s).

(** [s.split(sep)] for a one-character separator. *)
Fixpoint split (sep : ascii) (s : string) : list string :=
  match s with
  | EmptyString => [EmptyString]
  | String c s' =>
      if Ascii.eqb c sep then EmptyString :: split sep s'
      else match split sep s' with
           | [] => [String c EmptyString]
           | p :: ps => String c p :: ps
           end
  end.

(** [s.split(sep, limit)]: the first [limit] pieces of the full split. *)
Definition splitLimit (sep : ascii) (limit : nat) (s : string) : list string :=
  firstn limit (split sep s).

(** [parts.join(sep)]. *)
Definition join (sep : string) (parts : list string) : string :=
  String.concat sep parts.

(** [s.includes(c)] for a one-character needle. *)
Fixpoint includes (c : ascii) (s : string) : bool :=
  match s with
  | EmptyString => false
  | String d s' => Ascii.eqb d c || includes c s'
  end.

(** [`${v}`] for a possibly undefined string. *)
Definition template (o : option string) : string :=
  match o with Some s => s | None => "undefined" end.

(** [s.replace(/\s+/g, "")]. *)
Fixpoint removeSpaces (s : string) : string :=
  match s with
  | EmptyString => EmptyString
  | String c s' => if isSpace c then removeSpaces s' else String c (removeSpaces s')
  end.

(** *** Deterministic matchers for the regular expressions of the code

    A matcher consumes a prefix and returns the rest.  Every pattern of
    the code alternates classes that exclude one another (white space,
    digits, punctuation, letters), so greedy matching needs no
    backtracking. *)

Definition Matcher : Type := string -> option string.

Definition lit (c : ascii) : Matcher := fun s =>
  match s with
  | String d s' => if Ascii.eqb d c then Some s' else None
  | EmptyString => None
  end.

Definition lower (c : ascii) : ascii :=
  let n := code c in
  if ((65 <=? n) && (n <=? 90))%nat then ascii_of_nat (n + 32) else c.

(** A letter under the [i] flag. *)
Definition liti (c : ascii) : Matcher := fun s =>
  match s with
  | String d s' => if Ascii.eqb (lower d) (lower c) then Some s' else None
  | EmptyString => None
  end.

Definition digit : Matcher := fun s =>
  match s with
  | String d s' => if isDigit d then Some s' else None
  | EmptyString => None
  end.

Definition spaces : Matcher := fun s => Some (trimStart s).

Definition seqM (p q : Matcher) : Matcher := fun s =>
  match p s with
  | Some r => q r
  | None => None
  end.

Definition altM (p q : Matcher) : Matcher := fun s =>
  match p s with
  | Some r => Some r
  | None => q s
  end.

Fixpoint seqAll (ps : list Matcher) : Matcher :=
  match ps with
  | [] => fun s => Some s
  | p :: ps' => seqM p (seqAll ps')
  end.

Definition matchesAt (p : Matcher) (s : string) : bool :=
  match p s with Some _ => true | None => false end.

(** [re.test(s)] for an unanchored pattern. *)
Fixpoint test (p : Matcher) (s : string) : bool :=
  matchesAt p s ||
  match s with
  | EmptyString => false
  | String _ s' => test p s'
  end.

(** [/\d{2}\/\d{2}\/\d{4}/] *)
Definition datePattern : Matcher :=
  seqAll [digit; digit; lit "/"; digit; digit; lit "/"; digit; digit; digit; digit].

(** [/\d{2}\/\d{2}\/\d{4}\s*-\s*\d{2}\/\d{2}\/\d{4}/] *)
Definition dateRangeRegex : Matcher :=
  seqAll [datePattern; spaces; lit "-"; spaces; datePattern].

(** [/:\s*\d{2}\s*[AP]M/i] *)
Definition timeRegex : Matcher :=
  seqAll [lit ":"; spaces; digit; digit; spaces; altM (liti "A") (liti "P"); liti "M"].

(** [/,\s*\d+/] *)
Definition roomNumberRegex : Matcher :=
  seqAll [lit ","; spaces; digit].

(** [/Schedule$/i]: the text ends with the word, in any letter case. *)
Fixpoint endsWithSchedule (s : string) : bool :=
  match s with
  | EmptyString => false
  | String _ s' =>
      (match seqAll (map liti (list_ascii_of_string "Schedule")) s with
       | Some EmptyString => true
       | _ => false
       end) || endsWithSchedule s'
  end.

(** Reading [n] decimal digits as a number. *)
Definition digitVal (c : ascii) : Z := Z.of_nat (code c) - 48.

Fixpoint digitsN (n : nat) (acc : Z) (s : string) : option (Z * string) :=
  match n with
  | O => Some (acc, s)
  | S n' =>
      match s with
      | String d s' =>
          if isDigit d then digitsN n' (10 * acc + digitVal d) s' else None
      | EmptyString => None
      end
  end.

End JS.

(** ** The date library, on the wall clock of the zone

    The application reads every printed date and time in the fixed zone
    America/New_York.  An instant is kept as its civil local timestamp:
    the milliseconds elapsed since 1970-01-01T00:00 on the wall clock of
    the zone.  The zone enters in two places.  A wall-clock time inside
    the hour that the change to daylight time skips does not exist:
    whenever the library makes an instant from wall-clock fields (reading
    a text, shifting by days) it moves such a time one hour on.  And the
    offset of the zone is subtracted when an instant is rendered in UTC.
    The rules of the zone are those of the tz database, from local mean
    time before 18 November 1883 to the rule in force since 2007.  A
    wall-clock time that occurs twice (in the hour repeated at the end of
    daylight time) is read as its earlier occurrence, as the library
    reads it after a shift by days from an earlier date and, for a
    printed time, while the clock of the machine is itself on daylight
    time.  The model follows the documented behaviour of the library in
    an English locale. *)

Module Luxon.

Definition msPerMinute : Z := 60000.
Definition msPerHour : Z := 3600000.
Definition msPerDay : Z := 86400000.

(** A [DateTime] object; [Invalid] is the library's invalid instance,
    which is still an object (and so truthy). *)
Inductive DateTime : Type :=
| Valid (lts : Z)
| Invalid.

Definition isValid (d : DateTime) : bool :=
  match d with Valid _ => true | Invalid => false end.

(** *** Proleptic Gregorian calendar *)

Definition isLeapYear (y : Z) : bool :=
  (y mod 4 =? 0) && (negb (y mod 100 =? 0) || (y mod 400 =? 0)).

Definition daysInMonth (y m : Z) : Z :=
  if m =? 2 then (if isLeapYear y then 29 else 28)
  else if (m =? 4) || (m =? 6) || (m =? 9) || (m =? 11) then 30
  else 31.

(** Day number of a civil date, counted from 1970-01-01. *)
Definition daysFromCivil (y m d : Z) : Z :=
  let y' := if m <=? 2 then y - 1 else y in
  let era := y' / 400 in
  let yoe := y' - era * 400 in
  let mp := if 2 <? m then m - 3 else m + 9 in
  let doy := (153 * mp + 2) / 5 + d - 1 in
  let doe := yoe * 365 + yoe / 4 - yoe / 100 + doy in
  era * 146097 + doe - 719468.

(** Civil date (year, month, day) of a day number. *)
Definition civilFromDays (dn : Z) : Z * Z * Z :=
  let z := dn + 719468 in
  let era := z / 146097 in
  let doe := z - era * 146097 in
  let yoe := (doe - doe / 1460 + doe / 36524 - doe / 146096) / 365 in
  let doy := doe - (365 * yoe + yoe / 4 - yoe / 100) in
  let mp := (5 * doy + 2) / 153 in
  let d := doy - (153 * mp + 2) / 5 + 1 in
  let m := if mp <? 10 then mp + 3 else mp - 9 in
  let y := yoe + era * 400 in
  ((if m <=? 2 then y + 1 else y), m, d).

Definition dayNumber (lts : Z) : Z := lts / msPerDay.
Definition msOfDay (lts : Z) : Z := lts mod msPerDay.

(** The year of a wall-clock timestamp. *)
Definition yearOf (lts : Z) : Z :=
  let '(y, _, _) := civilFromDays (dayNumber lts) in y.

(** ISO weekday of a day number: 1 is Monday, 7 is Sunday
    (1970-01-01 was a Thursday). *)
Definition weekdayOfDay (dn : Z) : Z := (dn + 3) mod 7 + 1.

(** [dt.weekday] *)
Definition weekday (d : DateTime) : JSNumber :=
  match d with
  | Valid lts => Fin (weekdayOfDay (dayNumber lts))
  | Invalid => NaN
  end.

(** *** The zone America/New_York *)

(** First day number on or after [dn] that is a Sunday. *)
Definition sundayOnOrAfter (dn : Z) : Z := dn + (7 - weekdayOfDay dn) mod 7.

(** The first Sunday on or after day [d] of month [m], and the last
    Sunday of month [m]. *)
Definition sundayFrom (y m d : Z) : Z := sundayOnOrAfter (daysFromCivil y m d).

Definition lastSunday (y m : Z) : Z :=
  sundayOnOrAfter (daysFromCivil y m (daysInMonth y m - 6)).

(** The daylight period that year [y] lies in or holds, as the tz
    database has it for the zone: the day it starts on and the day it
    ends on, both at 02:00 on the wall clock.  From 1918 to 1920 the
    last Sunday of March to the last of October; from 1921 the last
    Sunday of April to the last of September (of October from 1955);
    war time from 9 February 1942 to 30 September 1945; in 1974 from
    6 January and in 1975 from 23 February; from 1987 the first Sunday
    of April; since 2007 the second Sunday of March to the first of
    November.  No daylight time before 1918. *)
Definition daylightPeriod (y : Z) : option (Z * Z) :=
  if 2007 <=? y then Some (sundayFrom y 3 8, sundayFrom y 11 1)
  else if 1987 <=? y then Some (sundayFrom y 4 1, lastSunday y 10)
  else if 1976 <=? y then Some (lastSunday y 4, lastSunday y 10)
  else if 1975 <=? y then Some (daysFromCivil 1975 2 23, lastSunday y 10)
  else if 1974 <=? y then Some (daysFromCivil 1974 1 6, lastSunday y 10)
  else if 1955 <=? y then Some (lastSunday y 4, lastSunday y 10)
  else if 1946 <=? y then Some (lastSunday y 4, lastSunday y 9)
  else if 1942 <=? y then Some (daysFromCivil 1942 2 9, daysFromCivil 1945 9 30)
  else if 1921 <=? y then Some (lastSunday y 4, lastSunday y 9)
  else if 1918 <=? y then Some (lastSunday y 3, lastSunday y 10)
  else None.

(** Whether a wall-clock time lies in the hour that the change to
    daylight time skips: from 02:00 to 03:00 on the day a daylight
    period starts. *)
Definition inSkippedHour (lts : Z) : bool :=
  match daylightPeriod (yearOf lts) with
  | Some (a, _) =>
      (a * msPerDay + 2 * msPerHour <=? lts) && (lts <? a * msPerDay + 3 * msPerHour)
  | None => false
  end.

(** The wall-clock time of the instant the library makes from wall-clock
    fields: a time in a skipped hour is moved one hour on. *)
Definition skipGap (lts : Z) : Z :=
  if inSkippedHour lts then lts + msPerHour else lts.

(** The three times the zone has kept. *)
Inductive ZoneTime : Type := LocalMean | Standard | Daylight.

(** 18 November 1883, 12:03:58 on the clock of local mean time, when
    standard time began (at 12:00:00 on its own clock). *)
Definition standardTimeStart : Z :=
  daysFromCivil 1883 11 18 * msPerDay + 12 * msPerHour + 3 * msPerMinute + 58000.

(** The time in force at a wall-clock time (at its earlier occurrence,
    for a time that occurs twice). *)
Definition zoneTime (lts : Z) : ZoneTime :=
  if lts <? standardTimeStart then LocalMean
  else match daylightPeriod (yearOf lts) with
       | Some (a, b) =>
           if (a * msPerDay + 2 * msPerHour <=? lts)
              && (lts <? b * msPerDay + 2 * msPerHour)
           then Daylight else Standard
       | None => Standard
       end.

(** Whether a wall-clock time occurs twice: in the hour from 01:00 to
    02:00 on the day a daylight period ends, and in the 3 minutes 58
    seconds that the start of standard time repeated. *)
Definition inRepeatedHour (lts : Z) : bool :=
  ((standardTimeStart - 238000 <=? lts) && (lts <? standardTimeStart))
  || match daylightPeriod (yearOf lts) with
     | Some (_, b) =>
         (b * msPerDay + msPerHour <=? lts) && (lts <? b * msPerDay + 2 * msPerHour)
     | None => false
     end.

(** Offset from UTC in milliseconds: 4:56:02, five hours and four
    hours behind. *)
Definition offsetOf (z : ZoneTime) : Z :=
  match z with
  | LocalMean => - 17762000
  | Standard => - 5 * msPerHour
  | Daylight => - 4 * msPerHour
  end.

Definition zoneOffset (lts : Z) : Z := offsetOf (zoneTime lts).

(** Timestamp on the UTC wall clock: [dt.toUTC()]. *)
Definition utcTimestamp (lts : Z) : Z := lts - zoneOffset lts.

(** *** Parsing *)

Definition obind {A B : Type} (o : option A) (k : A -> option B) : option B :=
  match o with Some a => k a | None => None end.

(** Tokens [MM/dd/yyyy]: month, day and year as printed. *)
Definition parseDateTokens (s : string) : option (Z * Z * Z * string) :=
  obind (JS.digitsN 2 0 s) (fun '(mo, s1) =>
  obind (JS.lit "/" s1) (fun s2 =>
  obind (JS.digitsN 2 0 s2) (fun '(dd, s3) =>
  obind (JS.lit "/" s3) (fun s4 =>
  obind (JS.digitsN 4 0 s4) (fun '(yy, s5) =>
  Some (mo, dd, yy, s5)))))).

(** Tokens [hh:mma]: hour, minute and whether the meridiem is PM. *)
Definition parseTimeTokens (s : string) : option (Z * Z * bool * string) :=
  obind (JS.digitsN 2 0 s) (fun '(hh, s1) =>
  obind (JS.lit ":" s1) (fun s2 =>
  obind (JS.digitsN 2 0 s2) (fun '(mi, s3) =>
  match JS.seqM (JS.liti "A") (JS.liti "M") s3 with
  | Some s4 => Some (hh, mi, false, s4)
  | None =>
      obind (JS.seqM (JS.liti "P") (JS.liti "M") s3) (fun s4 =>
      Some (hh, mi, true, s4))
  end))).

Definition validDate (y m d : Z) : bool :=
  (1 <=? m) && (m <=? 12) && (1 <=? d) && (d <=? daysInMonth y m).

(** The 24-hour value of a 12-hour reading with its meridiem. *)
Definition hour24 (hh : Z) (pm : bool) : Z :=
  if pm then (if hh <? 12 then hh + 12 else hh)
  else (if hh =? 12 then 0 else hh).

Definition validTime (h mi : Z) : bool :=
  ((0 <=? h) && (h <=? 23) || ((h =? 24) && (mi =? 0))) &&
  (0 <=? mi) && (mi <=? 59).

(** [DateTime.fromFormat(s, "MM/dd/yyyy", { zone })]: civil midnight,
    which no change of the zone's clock skips. *)
Definition fromDate (s : string) : DateTime :=
  match parseDateTokens s with
  | Some (mo, dd, yy, EmptyString) =>
      if validDate yy mo dd then Valid (daysFromCivil yy mo dd * msPerDay)
      else Invalid
  | _ => Invalid
  end.

(** [DateTime.fromFormat(s, "MM/dd/yyyy hh:mma", { zone })]: the printed
    wall-clock time, moved one hour on when it lies in a skipped hour. *)
Definition fromDateTime (s : string) : DateTime :=
  match parseDateTokens s with
  | Some (mo, dd, yy, s1) =>
      match obind (JS.lit " " s1) parseTimeTokens with
      | Some (hh, mi, pm, EmptyString) =>
          let h := hour24 hh pm in
          if validDate yy mo dd && validTime h mi
          then Valid (skipGap (daysFromCivil yy mo dd * msPerDay
                               + h * msPerHour + mi * msPerMinute))
          else Invalid
      | _ => Invalid
      end
  | None => Invalid
  end.

(** [DateTime.fromFormat(s, fmt, { zone: "America/New_York" })] for the
    two formats the application uses. *)
Definition fromFormat (s fmt : string) : DateTime :=
  if String.eqb fmt "MM/dd/yyyy hh:mma" then fromDateTime s
  else if String.eqb fmt "MM/dd/yyyy" then fromDate s
  else Invalid.

(** *** Arithmetic *)

(** [dt.plus({ days: n })]: the wall-clock fields with [n] added to the
    day, made into an instant again (so that a time landing in a skipped
    hour is moved one hour on).  An invalid instance is returned as it
    is, before the amount is looked at.  On a valid instance a [NaN]
    amount is rejected with an exception; an infinite amount is rejected
    in the same way (releases that accept it return an invalid instance,
    whose day difference is [NaN] and is rejected by the next shift of
    the caller, so the handler is aborted either way). *)
Definition plusDays (d : DateTime) (n : JSNumber) : Completion DateTime :=
  match d with
  | Invalid => Normal Invalid
  | Valid lts =>
      match n with
      | Fin k => Normal (Valid (skipGap (lts + k * msPerDay)))
      | PosInf => Thrown
      | NaN => Thrown
      end
  end.

(** [dt.minus({ milliseconds: n })], as the application uses it: on a
    civil midnight, which no change of the zone's clock touches. *)
Definition minusMillis (d : DateTime) (n : Z) : DateTime :=
  match d with
  | Valid lts => Valid (lts - n)
  | Invalid => Invalid
  end.

(** [dt.startOf("day")] *)
Definition startOfDay (d : DateTime) : DateTime :=
  match d with
  | Valid lts => Valid (dayNumber lts * msPerDay)
  | Invalid => Invalid
  end.

(** [a.diff(b, "days").days] for two day-aligned instants: the number
    of calendar days from [b] to [a]; [NaN] when either is invalid. *)
Definition diffDays (a b : DateTime) : JSNumber :=
  match a, b with
  | Valid x, Valid y => Fin (dayNumber x - dayNumber y)
  | _, _ => NaN
  end.

(** *** Rendering *)

(** Components [year, month, day, hour, minute] of a wall-clock
    timestamp. *)
Definition components (ts : Z) : list JSNumber :=
  let '(y, m, d) := civilFromDays (dayNumber ts) in
  let ms := msOfDay ts in
  [Fin y; Fin m; Fin d; Fin (ms / msPerHour); Fin ((ms mod msPerHour) / msPerMinute)].

Definition nanComponents : list JSNumber := [NaN; NaN; NaN; NaN; NaN].

Definition digitChar (z : Z) : ascii := ascii_of_nat (48 + Z.to_nat (z mod 10)).

(** The last [n] decimal digits of a non-negative number. *)
Fixpoint padDigits (n : nat) (z : Z) : string :=
  match n with
  | O => EmptyString
  | S n' => (padDigits n' (z / 10) ++ String (digitChar z) EmptyString)%string
  end.

(** The decimal digits of a non-negative number. *)
Fixpoint digitsOf (fuel : nat) (z : Z) : string :=
  match fuel with
  | O => EmptyString
  | S fuel' =>
      if z <? 10 then String (digitChar z) EmptyString
      else (digitsOf fuel' (z / 10) ++ String (digitChar z) EmptyString)%string
  end.

Definition decimal (z : Z) : string := digitsOf (S (Z.to_nat (Z.log2 z))) z.

(** The library's padding of a number to at least [n] digits: zeros on
    the left of the decimal digits, all digits of a longer number, and
    the sign before those of a negative one. *)
Definition padStart (n : nat) (z : Z) : string :=
  let digits (a : Z) :=
    if a <? 10 ^ Z.of_nat n then padDigits n a else decimal a in
  if z <? 0 then ("-" ++ digits (- z))%string else digits z.

(** [dt.toFormat("yyyyMMdd'T'HHmmss'Z'")] on a wall-clock timestamp. *)
Definition formatBasic (ts : Z) : string :=
  let '(y, m, d) := civilFromDays (dayNumber ts) in
  let ms := msOfDay ts in
  (padStart 4 y ++ padStart 2 m ++ padStart 2 d ++ "T"
   ++ padStart 2 (ms / msPerHour)
   ++ padStart 2 ((ms mod msPerHour) / msPerMinute)
   ++ padStart 2 ((ms mod msPerMinute) / 1000) ++ "Z")%string.

End Luxon.

(** ** Definitions shared by the two variants *)

(** The result of reading a member of an object literal: one of its own
    entries, a member inherited from [Object.prototype] (a function or an
    object: truthy, neither a string nor a number), or [undefined]. *)
Inductive Member (A : Type) : Type :=
| Own (a : A)
| Inherited
| Absent.
Arguments Own {A} a.
Arguments Inherited {A}.
Arguments Absent {A}.

(** The member names every object inherits. *)
Definition objectPrototypeKeys : list string :=
  ["constructor"; "toString"; "toLocaleString"; "valueOf"; "hasOwnProperty";
   "isPrototypeOf"; "propertyIsEnumerable"; "__proto__";
   "__defineGetter__"; "__defineSetter__"; "__lookupGetter__"; "__lookupSetter__"].

(** [obj[k]] on an object literal with the entries [own]. *)
Definition member {A : Type} (own : list (string * A)) (k : string) : Member A :=
  match find (fun p => String.eqb (fst p) k) own with
  | Some (_, v) => Own v
  | None => if existsb (String.eqb k) objectPrototypeKeys then Inherited else Absent
  end.

(** Text of an inherited member when an array that holds it is joined
    (the rendering of native functions by the common engines). *)
Definition inheritedText (k : string) : string :=
  if String.eqb k "__proto__" then "[object Object]"
  else ("function " ++ (if String.eqb k "constructor" then "Object" else k)
        ++ "() { [native code] }")%string.

(** Text of [obj[k]] as an element of a joined array ([undefined] gives
    the empty text). *)
Definition memberText (k : string) (m : Member string) : string :=
  match m with
  | Own s => s
  | Inherited => inheritedText k
  | Absent => EmptyString
  end.

(** Truthiness of [obj[k]]. *)
Definition memberTruthy (m : Member string) : bool :=
  match m with
  | Own s => JS.truthy s
  | Inherited => true
  | Absent => false
  end.

(** The three-way split: the first piece, the pieces between rejoined
    with the separator, and the last piece; an exception when the text
    has fewer than three pieces. *)
Definition split3 (str : string) (sep : ascii)
  : Completion (string * string * string) :=
  let parts := JS.split sep str in
  if (List.length parts <? 3)%nat then Thrown
  else match parts with
       | first :: rest =>
           Normal (first, JS.join (String sep EmptyString) (removelast rest),
                   last rest EmptyString)
       | [] => Thrown
       end.

(** [year, month, day, hour, minute] of the instant moved to UTC. *)
Definition toICSArrayUTC (dt : Luxon.DateTime) : list JSNumber :=
  match dt with
  | Luxon.Valid lts => Luxon.components (Luxon.utcTimestamp lts)
  | Luxon.Invalid => Luxon.nanComponents
  end.

(** [year, month, day, hour, minute] of the instant on the wall clock
    of its zone. *)
Definition toICSArrayLocal (dt : Luxon.DateTime) : list JSNumber :=
  match dt with
  | Luxon.Valid lts => Luxon.components lts
  | Luxon.Invalid => Luxon.nanComponents
  end.

(** [dt.toUTC().toFormat("yyyyMMdd'T'HHmmss'Z'")]; an invalid instance
    formats as the library's fixed text. *)
Definition toRRuleUntilUTC (dt : Luxon.DateTime) : string :=
  match dt with
  | Luxon.Valid lts => Luxon.formatBasic (Luxon.utcTimestamp lts)
  | Luxon.Invalid => "Invalid DateTime"
  end.

Definition dayToByday : list (string * string) :=
  [("Sunday", "SU"); ("Monday", "MO"); ("Tuesday", "TU"); ("Wednesday", "WE");
   ("Thursday", "TH"); ("Friday", "FR"); ("Saturday", "SA")].

Definition dayToNumber : list (string * Z) :=
  [("Monday", 1); ("Tuesday", 2); ("Wednesday", 3); ("Thursday", 4);
   ("Friday", 5); ("Saturday", 6); ("Sunday", 7)].

(** [days.map(d => dayToNumber[d]).filter(n => typeof n === "number")] *)
Definition targetWeekdays (days : list string) : list Z :=
  flat_map (fun d => match member dayToNumber d with
                     | Own n => [n]
                     | _ => []
                     end) days.

(** [(target - startLocal.weekday + 7) % 7] *)
Definition deltaTo (wd : JSNumber) (target : Z) : JSNumber :=
  match wd with
  | Fin w => Fin (Z.rem (target - w + 7) 7)
  | _ => NaN
  end.

(** The loop that keeps the smallest delta, from [+Infinity]. *)
Definition minDeltaFrom (wd : JSNumber) (targets : list Z) : JSNumber :=
  fold_left (fun minDelta target =>
               let delta := deltaTo wd target in
               if js_lt delta minDelta then delta else minDelta)
            targets PosInf.

Definition alignToFirstMatchingWeekday
  (startLocal : Luxon.DateTime) (days : list string)
  : Completion Luxon.DateTime :=
  match days with
  | [] => Normal startLocal
  | _ :: _ =>
      Luxon.plusDays startLocal
        (minDeltaFrom (Luxon.weekday startLocal) (targetWeekdays days))
  end.

(** [Number(cell)] is kept by the cell it coerces; [CrnLit] is a
    numeric literal. *)
Inductive Crn : Type :=
| NumberOf (cell : string)
| CrnLit (z : Z).

Record Course : Type := mkCourse {
  crn : Crn;
  title : string;
  details : string;
  start : option Luxon.DateTime;
  end_ : option Luxon.DateTime;
  until : option Luxon.DateTime;
  day : option (list string);
  campus : option string;
  location : option string;
  room : option string
}.

Definition initialData : list Course :=
  [mkCourse (CrnLit (-1)) "Please upload a schedule" "-"
            None None None None None None None].

(** [enableRowSelection] of the table: the selection precondition. *)
Definition enableRowSelection (course : Course) : bool :=
  match day course, start course, end_ course with
  | Some d, Some _, Some _ => (0 <? List.length d)%nat
  | _, _, _ => false
  end.

(** *** Layout reconstruction (the same text in both variants) *)

Inductive Item : Type :=
| TextItem (x y : Q) (str : string)
| MarkedContent.

Definition isTextItem (item : Item) : bool :=
  match item with TextItem _ _ _ => true | MarkedContent => false end.

Record Cell : Type := mkCell { cx : Q; cstr : string }.

(** [Math.round]: the nearest integer, halves towards [+Infinity]. *)
Definition mathRound (y : Q) : Z := Qfloor (y + (1 # 2))%Q.
Arguments mathRound : simpl never.

(** [rowsMap]: the groups by rounded baseline, each in arrival order. *)
Definition RowsMap : Type := list (Z * list Cell).

(** [(rowsMap[y] ??= []).push(cell)] *)
Fixpoint pushCell (y : Z) (c : Cell) (m : RowsMap) : RowsMap :=
  match m with
  | [] => [(y, [c])]
  | (k, cs) :: m' =>
      if k =? y then (k, cs ++ [c]) :: m' else (k, cs) :: pushCell y c m'
  end.

Definition addItem (m : RowsMap) (item : Item) : RowsMap :=
  match item with
  | TextItem x y s => pushCell (mathRound y) (mkCell x s) m
  | MarkedContent => m
  end.

Definition buildRowsMap (items : list Item) : RowsMap :=
  fold_left addItem items [].

(** [rowsMap[y]] *)
Fixpoint rowAt (y : Z) (m : RowsMap) : list Cell :=
  match m with
  | [] => []
  | (k, cs) :: m' => if k =? y then cs else rowAt y m'
  end.

(** [keys.sort((a, b) => b - a)], as a stable insertion sort. *)
Fixpoint insertDesc (a : Z) (l : list Z) : list Z :=
  match l with
  | [] => [a]
  | b :: l' => if b <=? a then a :: l else b :: insertDesc a l'
  end.

Definition sortDesc (l : list Z) : list Z := fold_right insertDesc [] l.

(** [cells.sort((a, b) => a.x - b.x)], as a stable insertion sort:
    cells with equal [x] keep their arrival order. *)
Fixpoint insertCell (a : Cell) (l : list Cell) : list Cell :=
  match l with
  | [] => [a]
  | b :: l' => if Qle_bool (cx a) (cx b) then a :: l else b :: insertCell a l'
  end.

Definition sortCells (l : list Cell) : list Cell := fold_right insertCell [] l.

(** The groups of a page, top of the page first, each ordered left to
    right. *)
Definition pageGroups (items : list Item) : list (Z * list Cell) :=
  let rowsMap := buildRowsMap items in
  map (fun y => (y, sortCells (rowAt y rowsMap))) (sortDesc (map fst rowsMap)).

(** [.map(cell => cell.str.trim()).filter(Boolean)] *)
Definition rowOfCells (cells : list Cell) : list string :=
  filter JS.truthy (map (fun c => JS.trim (cstr c)) cells).

Definition nonEmptyRow (row : list string) : bool := (0 <? List.length row)%nat.

(** The rows one page contributes to [allRows]. *)
Definition pageRows (items : list Item) : list (list string) :=
  filter nonEmptyRow (map (fun g => rowOfCells (snd g)) (pageGroups items)).

(** [allRows] of a document: the rows of its pages, in page order. *)
Definition allRowsOf (pages : list (list Item)) : list (list string) :=
  flat_map pageRows pages.

(** *** Table boundaries *)

Fixpoint findIndex {A : Type} (p : A -> bool) (l : list A) : option nat :=
  match l with
  | [] => None
  | a :: l' => if p a then Some O
               else match findIndex p l' with
                    | Some n => Some (S n)
                    | None => None
                    end
  end.

(** [row[0] === label] *)
Definition firstCellIs (label : string) (row : list string) : bool :=
  match row with
  | c :: _ => String.eqb c label
  | [] => false
  end.

(** [allRows.slice(from, to)] *)
Definition slice {A : Type} (from to : nat) (l : list A) : list A :=
  firstn (to - from) (skipn from l).

(** The title line found by scanning upwards from the header row: the
    first cell of the nearest row above it that ends with [Schedule]. *)
Definition scheduleLine (headIdx : nat) (allRows : list (list string))
  : option string :=
  match find (fun row => match row with
                         | c :: _ => JS.endsWithSchedule c
                         | [] => false
                         end) (rev (firstn headIdx allRows)) with
  | Some (c :: _) => Some c
  | _ => None
  end.

(** The state the handlers read and replace. *)
Record App : Type := mkApp {
  courses : list Course;
  filename : string;
  selectedCourses : list Course
}.

Definition setFilename (line : option string) (app : App) : App :=
  match line with
  | Some l => mkApp (courses app) l (selectedCourses app)
  | None => app
  end.

Definition setCourses (cs : list Course) (app : App) : App :=
  mkApp cs (filename app) (selectedCourses app).

(** What a run of the upload handler leaves: the state, and whether the
    handler ended by an exception. *)
Record Outcome : Type := mkOutcome { after : App; rejected : bool }.

(** *** Event payloads *)

Inductive TimeType : Type := utc | local.

Record Event : Type := mkEvent {
  ev_title : string;
  ev_description : string;
  ev_start : list JSNumber;
  ev_startInputType : TimeType;
  ev_startOutputType : TimeType;
  ev_end : list JSNumber;
  ev_endInputType : TimeType;
  ev_endOutputType : TimeType;
  ev_location : option string;
  ev_recurrenceRule : string;
  ev_transp : string
}.

Record HeaderAttributes : Type := mkHeader {
  productId : string;
  method : string;
  calName : string
}.

(** [course.day.map(day => dayToByday[day]).join(",")] *)
Definition byDays (days : list string) : string :=
  JS.join "," (map (fun d => memberText d (member dayToByday d)) days).

(** [[course.location, course.room].filter(Boolean).join(", ") || undefined] *)
Definition eventLocation (course : Course) : option string :=
  let parts := flat_map (fun o => match o with
                                  | Some s => if JS.truthy s then [s] else []
                                  | None => []
                                  end) [location course; room course] in
  let joined := JS.join ", " parts in
  if JS.truthy joined then Some joined else None.

Definition rruleString (days : list string) (u : Luxon.DateTime) : string :=
  ("FREQ=WEEKLY;BYDAY=" ++ byDays days ++ ";INTERVAL=1;UNTIL="
   ++ toRRuleUntilUTC u)%string.

Definition headerAttributes (app : App) : HeaderAttributes :=
  mkHeader "OSCAR to ICS//EN" "PUBLISH"
           (if JS.truthy (filename app) then filename app else "Schedule").

(** *** Temporal resolution (the same text in both variants) *)

(** [DateTime.fromFormat(`${date} ${time}`, "MM/dd/yyyy hh:mma", { zone })] *)
Definition parseLocal (date time : option string) : Luxon.DateTime :=
  Luxon.fromFormat (JS.template date ++ " " ++ JS.template time)%string
                   "MM/dd/yyyy hh:mma".

(** [DateTime.fromFormat(date, "MM/dd/yyyy", { zone })
      .plus({ days: 1 }).minus({ milliseconds: 1 })] *)
Definition recurrenceBoundary (date : option string)
  : Completion Luxon.DateTime :=
  nextDay <- Luxon.plusDays (Luxon.fromFormat (JS.template date) "MM/dd/yyyy")
                            (Fin 1) ;;
  Normal (Luxon.minusMillis nextDay 1).

(** The weekday-alignment step: the aligned start, its distance in
    days from the start, and both instants moved by that distance. *)
Definition alignBoth (startLocal endLocal : Luxon.DateTime) (days : list string)
  : Completion (Luxon.DateTime * Luxon.DateTime) :=
  alignedStart <- alignToFirstMatchingWeekday startLocal days ;;
  let diffDays :=
    Luxon.diffDays (Luxon.startOfDay alignedStart) (Luxon.startOfDay startLocal) in
  startLocal' <- Luxon.plusDays startLocal diffDays ;;
  endLocal' <- Luxon.plusDays endLocal diffDays ;;
  Normal (startLocal', endLocal').

(** ** The classifier-based variant (local wall-clock export) *)

Module Meeting.
Record t : Type := mk {
  day : option (list string);
  timeStrings : option (list string);
  campus : option string;
  location : option string;
  room : option string;
  dateStrings : option (list string)
}.
Definition empty : t := mk None None None None None None.
End Meeting.

Module LocalVariant.

Record Base : Type := mkBase {
  b_crn : Crn;
  b_title : string;
  b_details : string
}.

(** The variables the row loop and [finalizeMeeting] share. *)
Record ParseState : Type := mkState {
  currentDateStrings : list string;
  parsedCourses : list Course;
  baseCourse : option Base;
  pendingMeeting : option Meeting.t
}.

Definition initialState : ParseState := mkState [] [] None None.

(** [{ ...pendingMeeting }] *)
Definition spread (pm : option Meeting.t) : Meeting.t :=
  match pm with Some m => m | None => Meeting.empty end.

(** The date-range strings a meeting is resolved with: its own when they
    have two entries, else the carried ones when they have, else none. *)
Definition chosenDateStrings (m : Meeting.t) (current : list string)
  : list string :=
  let carried := if (2 <=? List.length current)%nat then current else [] in
  match Meeting.dateStrings m with
  | Some ds => if (2 <=? List.length ds)%nat then ds else carried
  | None => carried
  end.

(** The instants of a meeting: [startLocal], [endLocal] and [until],
    after the weekday alignment. *)
Definition resolveMeeting (days timeStrings dateStrings : list string)
  : Completion (Luxon.DateTime * Luxon.DateTime * Luxon.DateTime) :=
  let startStr := nth_error timeStrings 0 in
  let endStr := nth_error timeStrings 1 in
  let startLocal := parseLocal (nth_error dateStrings 0) startStr in
  let endLocal := parseLocal (nth_error dateStrings 0) endStr in
  until <- recurrenceBoundary (nth_error dateStrings 1) ;;
  aligned <- alignBoth startLocal endLocal days ;;
  Normal (fst aligned, snd aligned, until).

Definition finalizeMeeting (st : ParseState) : Completion ParseState :=
  match baseCourse st, pendingMeeting st with
  | Some base, Some pm =>
      match Meeting.day pm with
      | None => Normal st
      | Some days =>
          let dateStrings := chosenDateStrings pm (currentDateStrings st) in
          match Meeting.timeStrings pm with
          | None => Normal st
          | Some timeStrings =>
              if (List.length dateStrings <? 2)%nat then Normal st
              else
                r <- resolveMeeting days timeStrings dateStrings ;;
                let '(startLocal, endLocal, until) := r in
                Normal (mkState (currentDateStrings st)
                          (parsedCourses st ++
                           [mkCourse (b_crn base) (b_title base) (b_details base)
                                     (Some startLocal) (Some endLocal) (Some until)
                                     (Some days)
                                     (Meeting.campus pm) (Meeting.location pm)
                                     (Meeting.room pm)])
                          (baseCourse st) None)
          end
      end
  | _, _ => Normal st
  end.

Definition isDayRow (text : string) : bool :=
  forallb (fun d => memberTruthy (member dayToByday d))
          (map JS.trim (JS.split "," text)).

Definition isTimeRow (text : string) : bool := JS.test JS.timeRegex text.

(** A row that starts a course: five or six cells, the first of which
    is not the header label. *)
Definition isHeaderRow (row : list string) : bool :=
  ((List.length row =? 5)%nat || (List.length row =? 6)%nat)
  && negb (firstCellIs "Title" row).

(** The date-range cell of a header row: cell 5, with cell 6 appended
    when the row has six cells. *)
Definition dateRangeCell (row : list string) : string :=
  if (List.length row =? 6)%nat
  then (nth 4 row EmptyString ++ nth 5 row EmptyString)%string
  else nth 4 row EmptyString.

(** [cell.split("-", 2).map(s => s.trim())] *)
Definition dateStringsOf (cell : string) : list string :=
  map JS.trim (JS.splitLimit "-" 2 cell).

(** The condition under which a row is tried as a location row, once it
    is none of header, date-range, day or time row. *)
Definition locationCandidate (row : list string) (text : string)
  (pm : option Meeting.t) : bool :=
  (List.length row =? 1)%nat && JS.includes "," text
  && negb (JS.truthyOpt (match pm with
                         | Some m => Meeting.room m
                         | None => None
                         end)).

Definition hasAsterisk (text : string) : bool := JS.includes "*" text.
Definition hasRoomNumber (text : string) : bool := JS.test JS.roomNumberRegex text.

(** The meeting draft a location row leaves. *)
Definition locationDraft (pm : option Meeting.t) (text : string) : Meeting.t :=
  let meetingDraft := spread pm in
  match split3 text "," with
  | Normal (l, m, r) =>
      Meeting.mk (Meeting.day meetingDraft) (Meeting.timeStrings meetingDraft)
                 (Some (JS.trim l)) (Some (JS.trim m)) (Some (JS.trim r))
                 (Meeting.dateStrings meetingDraft)
  | Thrown =>
      Meeting.mk (Meeting.day meetingDraft) (Meeting.timeStrings meetingDraft)
                 (Meeting.campus meetingDraft) (Some text) (Meeting.room meetingDraft)
                 (Meeting.dateStrings meetingDraft)
  end.

Definition setPending (pm : option Meeting.t) (st : ParseState) : ParseState :=
  mkState (currentDateStrings st) (parsedCourses st) (baseCourse st) pm.

(** One turn of the loop over [validRows]. *)
Definition processRow (st : ParseState) (row : list string)
  : Completion ParseState :=
  if isHeaderRow row then
    st1 <- finalizeMeeting st ;;
    Normal (mkState (dateStringsOf (dateRangeCell row))
                    (parsedCourses st1)
                    (Some (mkBase (NumberOf (nth 3 row EmptyString))
                                  (nth 0 row EmptyString)
                                  (nth 1 row EmptyString)))
                    None)
  else
    let text := JS.trim (JS.join " " row) in
    if JS.isEmpty text then Normal st
    else if JS.test JS.dateRangeRegex text then
      st1 <- finalizeMeeting st ;;
      let ds := dateStringsOf text in
      let m := spread (pendingMeeting st1) in
      Normal (mkState ds (parsedCourses st1) (baseCourse st1)
                (Some (Meeting.mk (Meeting.day m) (Meeting.timeStrings m)
                         (Meeting.campus m) (Meeting.location m) (Meeting.room m)
                         (Some ds))))
    else if isDayRow text then
      st1 <- (match pendingMeeting st with
              | Some pm =>
                  match Meeting.day pm, Meeting.timeStrings pm with
                  | Some _, Some _ => finalizeMeeting st
                  | _, _ => Normal st
                  end
              | None => Normal st
              end) ;;
      let m := spread (pendingMeeting st1) in
      Normal (setPending
                (Some (Meeting.mk (Some (map JS.trim (JS.split "," text)))
                         (Meeting.timeStrings m)
                         (Meeting.campus m) (Meeting.location m) (Meeting.room m)
                         (Meeting.dateStrings m)))
                st1)
    else if isTimeRow text then
      let timeStrings := map JS.trim (JS.splitLimit "-" 2 (JS.removeSpaces text)) in
      let m := spread (pendingMeeting st) in
      Normal (setPending
                (Some (Meeting.mk (Meeting.day m) (Some timeStrings)
                         (Meeting.campus m) (Meeting.location m) (Meeting.room m)
                         (Meeting.dateStrings m)))
                st)
    else if locationCandidate row text (pendingMeeting st) then
      if hasAsterisk text || hasRoomNumber text
      then Normal (setPending (Some (locationDraft (pendingMeeting st) text)) st)
      else Normal st
    else Normal st.

(** The loop over [validRows]. *)
Fixpoint processRows (st : ParseState) (rows : list (list string))
  : Completion ParseState :=
  match rows with
  | [] => Normal st
  | row :: rows' => st1 <- processRow st row ;; processRows st1 rows'
  end.

(** The courses of a table body: the loop, then the last
    [finalizeMeeting]. *)
Definition parseBody (validRows : list (list string))
  : Completion (list Course) :=
  st <- processRows initialState validRows ;;
  st' <- finalizeMeeting st ;;
  Normal (parsedCourses st').

(** [handleExtractPDF], from the reconstructed rows on. *)
Definition handleRows (app : App) (allRows : list (list string)) : Outcome :=
  match findIndex (firstCellIs "Title") allRows,
        findIndex (firstCellIs "Total Hours") allRows with
  | Some headIdx, Some tailIdx =>
      if (tailIdx <=? headIdx)%nat then mkOutcome app false
      else
        let app1 := setFilename (scheduleLine headIdx allRows) app in
        let validRows := slice (headIdx + 1) tailIdx allRows in
        match validRows with
        | [] => mkOutcome app1 false
        | _ :: _ =>
            match parseBody validRows with
            | Normal cs => mkOutcome (setCourses cs app1) false
            | Thrown => mkOutcome app1 true
            end
        end
  | _, _ => mkOutcome app false
  end.

Definition handleExtractPDF (app : App) (pages : list (list Item)) : Outcome :=
  handleRows app (allRowsOf pages).

(** The event of one selected course, or [null]. *)
Definition eventOf (course : Course) : option Event :=
  match day course, start course, end_ course, until course with
  | Some days, Some s, Some e, Some u =>
      Some (mkEvent (details course) (title course)
                    (toICSArrayLocal s) local local
                    (toICSArrayLocal e) local local
                    (eventLocation course)
                    (rruleString days u)
                    "OPAQUE")
  | _, _, _, _ => None
  end.

(** [selectedCourses.map(...).filter(e => e !== null)] *)
Definition events (selected : list Course) : list Event :=
  flat_map (fun c => match eventOf c with Some e => [e] | None => [] end) selected.

(** [handleDownload]: what is handed to the serializer, or nothing when
    no course is selected. *)
Definition handleDownload (app : App) : option (list Event * HeaderAttributes) :=
  match selectedCourses app with
  | [] => None
  | _ :: _ => Some (events (selectedCourses app), headerAttributes app)
  end.

End LocalVariant.

(** ** The positional variant (UTC export) *)

Module UtcVariant.

Record ParseState : Type := mkState {
  currentCourse : option Course;
  currentDateStrings : list string;
  parsedCourses : list Course;
  i : nat
}.

Definition initialState : ParseState := mkState None [] [] O.

Definition isHeaderRow (row : list string) : bool :=
  ((List.length row =? 5)%nat || (List.length row =? 6)%nat)
  && negb (firstCellIs "Title" row).

(** The cells of a header row after the in-place update of the six-cell
    case, [row[5] = `${row[5]}${row[6]}`]: cell 6 takes the text of the
    absent cell 7 appended; cell 5 is left as it is. *)
Definition headerCells (row : list string) : list string :=
  if (List.length row =? 6)%nat
  then firstn 5 row
       ++ [(JS.template (nth_error row 5) ++ JS.template (nth_error row 6))%string]
  else row.

Definition dateStringsOf (cell : string) : list string :=
  map JS.trim (JS.splitLimit "-" 2 cell).

Definition pushCurrent (st : ParseState) : list Course :=
  match currentCourse st with
  | Some c => parsedCourses st ++ [c]
  | None => parsedCourses st
  end.

(** The time row of a course: start, end and until, with the alignment
    when the course has a non-empty day-set. *)
Definition timeRow (c : Course) (current : list string) (row : list string)
  : Completion Course :=
  let timeStrings := map JS.trim (JS.splitLimit "-" 2 (JS.join EmptyString row)) in
  let startLocal := parseLocal (nth_error current 0) (nth_error timeStrings 0) in
  let endLocal := parseLocal (nth_error current 0) (nth_error timeStrings 1) in
  until <- recurrenceBoundary (nth_error current 1) ;;
  r <- (match day c with
        | Some (d :: ds) => alignBoth startLocal endLocal (d :: ds)
        | _ => Normal (startLocal, endLocal)
        end) ;;
  Normal (mkCourse (crn c) (title c) (details c)
                   (Some (fst r)) (Some (snd r)) (Some until)
                   (day c) (campus c) (location c) (room c)).

(** One turn of the loop over [validRows]. *)
Definition processRow (st : ParseState) (row : list string)
  : Completion ParseState :=
  if isHeaderRow row then
    let cells := headerCells row in
    Normal (mkState
              (Some (mkCourse (NumberOf (nth 3 cells EmptyString))
                              (nth 0 cells EmptyString) (nth 1 cells EmptyString)
                              None None None None None None None))
              (dateStringsOf (nth 4 cells EmptyString))
              (pushCurrent st)
              O)
  else
    let next := S (i st) in
    match i st, currentCourse st with
    | O, Some c =>
        match row with
        | [] => Thrown
        | c0 :: _ =>
            Normal (mkState
                      (Some (mkCourse (crn c) (title c) (details c)
                                      (start c) (end_ c) (until c)
                                      (Some (map JS.trim (JS.split "," c0)))
                                      (campus c) (location c) (room c)))
                      (currentDateStrings st) (parsedCourses st) next)
        end
    | S O, Some c =>
        c' <- timeRow c (currentDateStrings st) row ;;
        Normal (mkState (Some c') (currentDateStrings st) (parsedCourses st) next)
    | S (S O), Some c =>
        match row with
        | c0 :: _ =>
            match split3 c0 "," with
            | Normal (l, m, r) =>
                Normal (mkState
                          (Some (mkCourse (crn c) (title c) (details c)
                                          (start c) (end_ c) (until c) (day c)
                                          (Some (JS.trim l)) (Some (JS.trim m))
                                          (Some (JS.trim r))))
                          (currentDateStrings st) (parsedCourses st) next)
            | Thrown =>
                Normal (mkState (currentCourse st) (currentDateStrings st)
                                (parsedCourses st) next)
            end
        | [] =>
            Normal (mkState (currentCourse st) (currentDateStrings st)
                            (parsedCourses st) next)
        end
    | _, _ =>
        Normal (mkState (currentCourse st) (currentDateStrings st)
                        (parsedCourses st) next)
    end.

Fixpoint processRows (st : ParseState) (rows : list (list string))
  : Completion ParseState :=
  match rows with
  | [] => Normal st
  | row :: rows' => st1 <- processRow st row ;; processRows st1 rows'
  end.

Definition parseBody (validRows : list (list string))
  : Completion (list Course) :=
  st <- processRows initialState validRows ;;
  Normal (pushCurrent st).

Definition handleRows (app : App) (allRows : list (list string)) : Outcome :=
  match findIndex (firstCellIs "Title") allRows,
        findIndex (firstCellIs "Total Hours") allRows with
  | Some headIdx, Some tailIdx =>
      if (tailIdx <=? headIdx)%nat then mkOutcome app false
      else
        let app1 := setFilename (scheduleLine headIdx allRows) app in
        let validRows := slice (headIdx + 1) tailIdx allRows in
        match validRows with
        | [] => mkOutcome app1 false
        | _ :: _ =>
            match parseBody validRows with
            | Normal cs => mkOutcome (setCourses cs app1) false
            | Thrown => mkOutcome app1 true
            end
        end
  | _, _ => mkOutcome app false
  end.

Definition handleExtractPDF (app : App) (pages : list (list Item)) : Outcome :=
  handleRows app (allRowsOf pages).

Definition eventOf (course : Course) : option Event :=
  match day course, start course, end_ course, until course with
  | Some days, Some s, Some e, Some u =>
      Some (mkEvent (details course) (title course)
                    (toICSArrayUTC s) utc utc
                    (toICSArrayUTC e) utc utc
                    (eventLocation course)
                    (rruleString days u)
                    "OPAQUE")
  | _, _, _, _ => None
  end.

Definition events (selected : list Course) : list Event :=
  flat_map (fun c => match eventOf c with Some e => [e] | None => [] end) selected.

Definition handleDownload (app : App) : option (list Event * HeaderAttributes) :=
  match selectedCourses app with
  | [] => None
  | _ :: _ => Some (events (selectedCourses app), headerAttributes app)
  end.

End UtcVariant.

(** * Vocabulary of the properties *)

(** ** Rows and their classification *)

(** No row of the sequence has [label] as its first cell. *)
Definition noRowStartsWith (label : string) (rows : list (list string)) : Prop :=
  Forall (fun row => firstCellIs label row = false) rows.

(** The room of the meeting in progress, if any. *)
Definition pendingRoom (st : LocalVariant.ParseState) : option string :=
  match LocalVariant.pendingMeeting st with
  | Some m => Meeting.room m
  | None => None
  end.

(** A row that reaches the location test: it is none of header,
    date-range, day or time row, and its text is not empty. *)
Definition reachesLocationTest (row : list string) : Prop :=
  let text := JS.trim (JS.join " " row) in
  LocalVariant.isHeaderRow row = false /\ JS.isEmpty text = false /\
  JS.test JS.dateRangeRegex text = false /\
  LocalVariant.isDayRow text = false /\ LocalVariant.isTimeRow text = false.

(** ** Weekdays and shifts *)

(** The seven weekday names. *)
Definition weekdayNames : list string :=
  ["Sunday"; "Monday"; "Tuesday"; "Wednesday"; "Thursday"; "Friday"; "Saturday"].

(** Whether a text is one of the seven weekday names. *)
Definition isWeekdayName (d : string) : bool := existsb (String.eqb d) weekdayNames.

(** The two-letter recurrence code of a weekday name, as the interface
    description lists them: Sunday to Saturday map to SU, MO, TU, WE, TH,
    FR, SA. *)
Definition twoLetterCode (d : string) : string :=
  if String.eqb d "Sunday" then "SU"
  else if String.eqb d "Monday" then "MO"
  else if String.eqb d "Tuesday" then "TU"
  else if String.eqb d "Wednesday" then "WE"
  else if String.eqb d "Thursday" then "TH"
  else if String.eqb d "Friday" then "FR"
  else if String.eqb d "Saturday" then "SA"
  else EmptyString.

(** The ISO number of a weekday name: 1 for Monday to 7 for Sunday. *)
Definition weekdayNumberOf (d : string) : Z :=
  if String.eqb d "Monday" then 1
  else if String.eqb d "Tuesday" then 2
  else if String.eqb d "Wednesday" then 3
  else if String.eqb d "Thursday" then 4
  else if String.eqb d "Friday" then 5
  else if String.eqb d "Saturday" then 6
  else if String.eqb d "Sunday" then 7
  else 0.

(** The least element of a list of numbers (0 for the empty list). *)
Definition minimum (l : list Z) : Z :=
  match l with
  | [] => 0
  | x :: xs => fold_left Z.min xs x
  end.

(** Days forward from weekday [w] to weekday [t]. *)
Definition daysForward (w t : Z) : Z := (t - w) mod 7.

(** An instant moved by [k] calendar days, as the library moves it:
    the wall-clock time [k] days on, taken out of a skipped hour. *)
Definition shiftDays (k : Z) (dt : Luxon.DateTime) : Luxon.DateTime :=
  match dt with
  | Luxon.Valid t => Luxon.Valid (Luxon.skipGap (t + k * Luxon.msPerDay))
  | Luxon.Invalid => Luxon.Invalid
  end.

(** ** Meeting finalization *)

(** The course [finalizeMeeting] appends for a meeting and its
    resolved instants. *)
Definition emittedCourse (base : LocalVariant.Base) (pm : Meeting.t)
  (days : list string)
  (r : Luxon.DateTime * Luxon.DateTime * Luxon.DateTime) : Course :=
  let '(startLocal, endLocal, u) := r in
  mkCourse (LocalVariant.b_crn base) (LocalVariant.b_title base)
           (LocalVariant.b_details base)
           (Some startLocal) (Some endLocal) (Some u) (Some days)
           (Meeting.campus pm) (Meeting.location pm) (Meeting.room pm).

(** Time strings that are a pair, when the meeting has any (a time row
    gives two when its text has a dash). *)
Definition timePairIfAny (pm : Meeting.t) : Prop :=
  forall timeStrings,
    Meeting.timeStrings pm = Some timeStrings -> List.length timeStrings = 2%nat.

(** The conditions under which a meeting is resolved: a current base
    course, a day-set that is not empty, a time pair, and two date-range
    strings to resolve it with. *)
Definition readyToEmit (st : LocalVariant.ParseState) (pm : Meeting.t) : Prop :=
  LocalVariant.baseCourse st <> None /\
  (exists days, Meeting.day pm = Some days /\ days <> []) /\
  (exists timeStrings,
     Meeting.timeStrings pm = Some timeStrings /\
     List.length timeStrings = 2%nat) /\
  (2 <= List.length
          (LocalVariant.chosenDateStrings pm (LocalVariant.currentDateStrings st)))%nat.

(** When the date library raises an exception while a meeting is
    resolved: the start is valid and no name of the day-set is a
    weekday's, or the start is invalid and the end is valid. *)
Definition resolutionRaises (days timeStrings dateStrings : list string) : Prop :=
  let startLocal := parseLocal (nth_error dateStrings 0) (nth_error timeStrings 0) in
  let endLocal := parseLocal (nth_error dateStrings 0) (nth_error timeStrings 1) in
  (Luxon.isValid startLocal = true /\ days <> [] /\ targetWeekdays days = []) \/
  (Luxon.isValid startLocal = false /\ Luxon.isValid endLocal = true).

(** A course with its temporal fields all present and a non-empty
    day-set. *)
Definition complete (c : Course) : Prop :=
  (exists d ds, day c = Some (d :: ds)) /\
  start c <> None /\ end_ c <> None /\ until c <> None.

(** The invariant of the row loop. *)
Definition loopInvariant (st : LocalVariant.ParseState) : Prop :=
  Forall complete (LocalVariant.parsedCourses st) /\
  (forall pm, LocalVariant.pendingMeeting st = Some pm ->
              Meeting.day pm <> Some []).

(** ** The recurrence boundary in UTC *)

(** Reading a text in UTC basic format with a four-digit year: the
    numbers of year, month, day, hour, minute and second. *)
Definition readBasic (s : string) : option (Z * Z * Z * Z * Z * Z) :=
  Luxon.obind (JS.digitsN 4 0 s) (fun '(y, s1) =>
  Luxon.obind (JS.digitsN 2 0 s1) (fun '(mo, s2) =>
  Luxon.obind (JS.digitsN 2 0 s2) (fun '(d, s3) =>
  Luxon.obind (JS.lit "T" s3) (fun s4 =>
  Luxon.obind (JS.digitsN 2 0 s4) (fun '(h, s5) =>
  Luxon.obind (JS.digitsN 2 0 s5) (fun '(mi, s6) =>
  Luxon.obind (JS.digitsN 2 0 s6) (fun '(sec, s7) =>
  if String.eqb s7 "Z" then Some (y, mo, d, h, mi, sec) else None))))))).

(** The last millisecond of a day on the wall clock. *)
Definition endOfDay (dn : Z) : Z := dn * Luxon.msPerDay + Luxon.msPerDay - 1.

(** The digits of a calendar date in basic format. *)
Definition basicDate (dn : Z) : string :=
  let '(y, m, d) := Luxon.civilFromDays dn in
  (Luxon.padStart 4 y ++ Luxon.padStart 2 m ++ Luxon.padStart 2 d)%string.

(** The UTC clock at the last millisecond of a day of the zone, by the
    time in force. *)
Definition boundaryClock (z : Luxon.ZoneTime) : string :=
  match z with
  | Luxon.Daylight => "T035959Z"
  | Luxon.Standard => "T045959Z"
  | Luxon.LocalMean => "T045601Z"
  end.

(** ** Export with an output mode *)

(** The output mode: how an instant is rendered and how the payload
    flags it. *)
Inductive OutputMode : Type := UtcMode | LocalMode.

(** How a mode renders an instant. *)
Definition renderInstant (mode : OutputMode) : Luxon.DateTime -> list JSNumber :=
  match mode with
  | UtcMode => toICSArrayUTC
  | LocalMode => toICSArrayLocal
  end.

(** The input and output type flag of a mode. *)
Definition flagOf (mode : OutputMode) : TimeType :=
  match mode with UtcMode => utc | LocalMode => local end.

(** The event builder with the output mode as its one parameter. *)
Definition eventWith (mode : OutputMode) (course : Course) : option Event :=
  match day course, start course, end_ course, until course with
  | Some days, Some s, Some e, Some u =>
      Some (mkEvent (details course) (title course)
                    (renderInstant mode s) (flagOf mode) (flagOf mode)
                    (renderInstant mode e) (flagOf mode) (flagOf mode)
                    (eventLocation course)
                    (rruleString days u)
                    "OPAQUE")
  | _, _, _, _ => None
  end.

(** The export stage with the output mode as its one parameter. *)
Definition downloadWith (mode : OutputMode) (app : App)
  : option (list Event * HeaderAttributes) :=
  match selectedCourses app with
  | [] => None
  | _ :: _ =>
      Some (flat_map (fun c => match eventWith mode c with
                               | Some e => [e]
                               | None => []
                               end) (selectedCourses app),
            headerAttributes app)
  end.

(** Two payloads that agree in every field but the rendered instants
    and their type flags. *)
Definition sameButInstants (a b : Event) : Prop :=
  ev_title a = ev_title b /\ ev_description a = ev_description b /\
  ev_location a = ev_location b /\
  ev_recurrenceRule a = ev_recurrenceRule b /\ ev_transp a = ev_transp b.

(** ** Layout *)

(** The cells of the text fragments of a page whose rounded baseline is
    [k], in the order of arrival. *)
Definition cellsAt (k : Z) (items : list Item) : list Cell :=
  flat_map (fun item => match item with
                        | TextItem x y s =>
                            if mathRound y =? k then [mkCell x s] else []
                        | MarkedContent => []
                        end) items.

(** The rounded baselines of the rows of a document, page after page. *)
Definition documentKeys (pages : list (list Item)) : list Z :=
  flat_map (fun items => map fst (pageGroups items)) pages.

(** ** Inputs of the examples *)

(** The table of the end-to-end example, with zero-padded times. *)
Definition exampleRows : list (list string) :=
  [["Title"];
   ["Intro to X"; "Lecture"; "3.0"; "12345"; "01/06/2025 - 04/25/2025"];
   ["Monday, Wednesday"];
   ["09:00 AM - 09:50 AM"];
   ["Main Campus, Bldg 1, Room 101"];
   ["Total Hours"]].

(** The state of the application before any upload. *)
Definition freshApp : App := mkApp initialData "" [].

(** A resolved course of the example table, its day-set in another
    order. *)
Definition exampleCourse : Course :=
  mkCourse (NumberOf "12345") "Intro to X" "Lecture"
           (Some (Luxon.Valid 1736154000000)) (Some (Luxon.Valid 1736157000000))
           (Some (Luxon.Valid 1745625599999))
           (Some ["Wednesday"; "Monday"]) None None None.

(** The meeting and the state after the header, day and time rows of
    the example table. *)
Definition exampleMeeting : Meeting.t :=
  Meeting.mk (Some ["Monday"; "Wednesday"]) (Some ["09:00AM"; "09:50AM"])
             None None None None.

Definition exampleState : LocalVariant.ParseState :=
  LocalVariant.mkState ["01/06/2025"; "04/25/2025"] []
    (Some (LocalVariant.mkBase (NumberOf "12345") "Intro to X" "Lecture"))
    (Some exampleMeeting).

(** Rows in which a date range, a day row and a time row come before
    any course header. *)
Definition orphanRows : list (list string) :=
  [["01/06/2025 - 04/25/2025"]; ["Monday"]; ["09:00 AM - 09:50 AM"]].

(** A course block whose carried date strings are one text, followed by
    a date-range row. *)
Definition lateDateRows : list (list string) :=
  [["Intro to X"; "Lecture"; "3.0"; "12345"; "TBA"];
   ["Monday"]; ["09:00 AM - 09:50 AM"]; ["01/06/2025 - 04/25/2025"]].

(** A course block whose second date is not a date. *)
Definition invalidBoundaryRows : list (list string) :=
  [["Intro to X"; "Lecture"; "3.0"; "12345"; "01/06/2025 - TBA"];
   ["Monday"]; ["09:00AM - 09:50AM"]].

(** A course block with a location row that ends in a comma, followed
    by a location row with a single comma. *)
Definition emptyRoomRows : list (list string) :=
  [["Intro to X"; "Lecture"; "3.0"; "12345"; "01/06/2025 - 04/25/2025"];
   ["Monday"]; ["09:00 AM - 09:50 AM"]; ["Main*, Hall,"]].

Definition secondLocationRow : list string := ["Annex, 12"].

(** Two pages with a fragment on the same baseline, and a page with two
    fragments at the same place. *)
Definition twoPages : list (list Item) :=
  [[TextItem 72 700 "Fall Schedule"]; [TextItem 72 700 "Total Hours"]].

Definition overlappingPage : list Item :=
  [TextItem 72 700 "Title"; TextItem 72 700 "CRN"].

(** ** Vocabulary of the further properties *)

(** The number of occurrences of a character in a text. *)
Fixpoint countChar (c : ascii) (s : string) : nat :=
  match s with
  | EmptyString => O
  | String d s' => (if Ascii.eqb d c then 1 else 0) + countChar c s'
  end.

(** A text made of white space only. *)
Fixpoint allSpaces (s : string) : bool :=
  match s with
  | EmptyString => true
  | String c s' => JS.isSpace c && allSpaces s'
  end.

(** A text that does not begin with white space. *)
Definition noLeadingSpace (s : string) : Prop :=
  match s with
  | EmptyString => True
  | String c _ => JS.isSpace c = false
  end.

(** The texts of the text fragments of a page, in the order of arrival. *)
Definition fragmentTexts (items : list Item) : list string :=
  flat_map (fun item => match item with
                        | TextItem _ _ s => [s]
                        | MarkedContent => []
                        end) items.

(** The cells of the text fragments of a page, in the order of arrival. *)
Definition allCells (items : list Item) : list Cell :=
  flat_map (fun item => match item with
                        | TextItem x _ s => [mkCell x s]
                        | MarkedContent => []
                        end) items.

(** A row whose first cell ends with [Schedule], in any letter case. *)
Definition endsScheduleRow (row : list string) : bool :=
  match row with
  | c :: _ => JS.endsWithSchedule c
  | [] => false
  end.

(** The kinds of row the classifier-based loop tells apart, in the
    order in which it tests for them; whether a row of the last kind is
    read as a location row depends on the meeting in progress. *)
Inductive RowKind : Type :=
| HeaderRow | BlankRow | DateRangeRow | DayRow | TimeRow | OtherRow.

Definition rowText (row : list string) : string := JS.trim (JS.join " " row).

Definition classify (row : list string) : RowKind :=
  if LocalVariant.isHeaderRow row then HeaderRow
  else if JS.isEmpty (rowText row) then BlankRow
  else if JS.test JS.dateRangeRegex (rowText row) then DateRangeRow
  else if LocalVariant.isDayRow (rowText row) then DayRow
  else if LocalVariant.isTimeRow (rowText row) then TimeRow
  else OtherRow.

Definition isKind (k : RowKind) (row : list string) : bool :=
  match k, classify row with
  | HeaderRow, HeaderRow | BlankRow, BlankRow | DateRangeRow, DateRangeRow
  | DayRow, DayRow | TimeRow, TimeRow | OtherRow, OtherRow => true
  | _, _ => false
  end.

(** The base fields a header row gives a course. *)
Definition fromHeader (row : list string) (c : Course) : Prop :=
  crn c = NumberOf (nth 3 row EmptyString) /\
  title c = nth 0 row EmptyString /\
  details c = nth 1 row EmptyString.

(** 1 when the meeting in progress has a day-set, else 0. *)
Definition pendingDay (st : LocalVariant.ParseState) : nat :=
  match LocalVariant.pendingMeeting st with
  | Some m => match Meeting.day m with Some _ => 1 | None => 0 end
  | None => 0
  end.

(** The base course a header row starts. *)
Definition baseOfHeader (row : list string) : LocalVariant.Base :=
  LocalVariant.mkBase (NumberOf (nth 3 row EmptyString))
                      (nth 0 row EmptyString) (nth 1 row EmptyString).

(** A course that carries the fields of a base course. *)
Definition carriesBase (base : LocalVariant.Base) (c : Course) : Prop :=
  crn c = LocalVariant.b_crn base /\ title c = LocalVariant.b_title base /\
  details c = LocalVariant.b_details base.

(** The fields a course takes from its header row, and the cells of a
    header row they are read from. *)
Definition baseFields (c : Course) : Crn * string * string :=
  (crn c, title c, details c).

Definition headerFields (row : list string) : Crn * string * string :=
  (NumberOf (nth 3 row EmptyString), nth 0 row EmptyString, nth 1 row EmptyString).

(** A course with none of its three instants, and one with its day-set
    and all three. *)
Definition unresolved (c : Course) : Prop :=
  start c = None /\ end_ c = None /\ until c = None.

Definition resolved (c : Course) : Prop :=
  day c <> None /\ start c <> None /\ end_ c <> None /\ until c <> None.

(** A loop state with courses put before the ones it has parsed. *)
Definition withEarlier (pre : list Course) (st : LocalVariant.ParseState)
  : LocalVariant.ParseState :=
  LocalVariant.mkState (LocalVariant.currentDateStrings st)
                       (pre ++ LocalVariant.parsedCourses st)
                       (LocalVariant.baseCourse st) (LocalVariant.pendingMeeting st).

Definition withEarlierPositional (pre : list Course) (st : UtcVariant.ParseState)
  : UtcVariant.ParseState :=
  UtcVariant.mkState (UtcVariant.currentCourse st) (UtcVariant.currentDateStrings st)
                     (pre ++ UtcVariant.parsedCourses st) (UtcVariant.i st).

(** The day-set a day row gives, the time strings a time row gives and
    the date-range strings a header row gives, in the classifier-based
    variant. *)
Definition daysOfRow (row : list string) : list string :=
  map JS.trim (JS.split "," (rowText row)).

Definition timesOfRow (row : list string) : list string :=
  map JS.trim (JS.splitLimit "-" 2 (JS.removeSpaces (rowText row))).

Definition datesOfHeader (row : list string) : list string :=
  LocalVariant.dateStringsOf (LocalVariant.dateRangeCell row).

(** The rows the classifier-based loop does not skip as blank. *)
Definition notBlank (row : list string) : bool := negb (isKind BlankRow row).

(** The time strings the positional variant reads from the row at
    position 1. *)
Definition positionalTimes (row : list string) : list string :=
  map JS.trim (JS.splitLimit "-" 2 (JS.join EmptyString row)).

(** * Properties *)

(** ** The date library on the dates of the examples *)

Example luxon_until_example :
  Luxon.formatBasic (Luxon.utcTimestamp
    (match Luxon.minusMillis (Luxon.fromFormat "04/25/2025" "MM/dd/yyyy") (-86399999) with
     | Luxon.Valid t => t | Luxon.Invalid => 0 end)) = "20250426T035959Z".
Proof. vm_compute. reflexivity. Qed.

Example luxon_weekday_example :
  Luxon.weekday (Luxon.fromFormat "01/06/2025 09:00AM" "MM/dd/yyyy hh:mma") = Fin 1.
Proof. vm_compute. reflexivity. Qed.

(** ** Strings *)

Lemma split_not_nil (sep : ascii) (s : string) : JS.split sep s <> [].
Proof.
  destruct s as [|c s]; simpl; [discriminate|].
  destruct (Ascii.eqb c sep); [discriminate|].
  destruct (JS.split sep s); discriminate.
Qed.

(** Joining the pieces of a split with the separator gives the text
    back. *)
Lemma join_split (sep : ascii) (s : string) :
  JS.join (String sep EmptyString) (JS.split sep s) = s.
Proof.
  unfold JS.join.
  induction s as [|c s IH]; simpl; [reflexivity|].
  destruct (Ascii.eqb c sep) eqn:E.
  - apply Ascii.eqb_eq in E; subst c.
    destruct (JS.split sep s) eqn:Es; [now apply split_not_nil in Es|].
    simpl in *. now rewrite IH.
  - destruct (JS.split sep s) as [|p ps] eqn:Es; [now apply split_not_nil in Es|].
    simpl in *. destruct ps; simpl in *; now rewrite <- IH.
Qed.

Lemma removelast_snoc {A : Type} (l : list A) (a : A) :
  removelast (l ++ [a]) = l.
Proof. apply removelast_last. Qed.

Lemma last_snoc {A : Type} (l : list A) (a d : A) : last (l ++ [a]) d = a.
Proof. apply last_last. Qed.

(** [split3] on a text whose split has a first piece, a non-empty
    middle and a last piece. *)
Lemma split3_parts (str : string) (sep : ascii) (first lst : string)
  (mid : list string) :
  JS.split sep str = first :: mid ++ [lst] -> mid <> [] ->
  split3 str sep = Normal (first, JS.join (String sep EmptyString) mid, lst).
Proof.
  intros E Hmid. unfold split3. rewrite E.
  destruct mid as [|m0 mid]; [congruence|].
  cbn [List.length app]. rewrite length_app. cbn [List.length].
  replace (S (S (List.length mid + 1)) <? 3)%nat with false
    by (symmetry; apply Nat.ltb_ge; lia).
  change (m0 :: mid ++ [lst]) with ((m0 :: mid) ++ [lst]).
  now rewrite removelast_snoc, last_snoc.
Qed.

Lemma split3_throws (str : string) (sep : ascii) :
  (List.length (JS.split sep str) < 3)%nat -> split3 str sep = Thrown.
Proof.
  intros H. unfold split3. apply Nat.ltb_lt in H. now rewrite H.
Qed.

Lemma string_append_assoc (a b c : string) :
  ((a ++ b) ++ c = a ++ (b ++ c))%string.
Proof. induction a as [|x a IH]; simpl; [reflexivity|now rewrite IH]. Qed.

Lemma concat_snoc (sep z : string) (b : list string) :
  b <> [] ->
  String.concat sep (b ++ [z]) = (String.concat sep b ++ sep ++ z)%string.
Proof.
  induction b as [|b0 b IHb]; [congruence|]. intros _.
  destruct b as [|b1 b].
  - reflexivity.
  - change (String.concat sep ((b0 :: b1 :: b) ++ [z]))
      with (b0 ++ sep ++ String.concat sep ((b1 :: b) ++ [z]))%string.
    rewrite IHb by discriminate.
    change (String.concat sep (b0 :: b1 :: b))
      with (b0 ++ sep ++ String.concat sep (b1 :: b))%string.
    now rewrite !string_append_assoc.
Qed.

(** Whatever [split3] returns puts the text back together. *)
Lemma split3_rejoin (str : string) (sep : ascii) (l m r : string) :
  split3 str sep = Normal (l, m, r) ->
  (l ++ String sep m ++ String sep r)%string = str.
Proof.
  unfold split3. intros H.
  destruct (List.length (JS.split sep str) <? 3)%nat eqn:E; [discriminate|].
  apply Nat.ltb_ge in E.
  destruct (JS.split sep str) as [|x rest] eqn:Es; [discriminate|].
  injection H as <- <- <-.
  rewrite <- (join_split sep str), Es.
  assert (Hrest : rest <> []) by (destruct rest; simpl in E; [lia|discriminate]).
  destruct (exists_last Hrest) as [body [z Hz]]. subst rest.
  rewrite removelast_snoc, last_snoc.
  assert (Hbody : body <> []).
  { destruct body; simpl in E; [lia|discriminate]. }
  unfold JS.join.
  destruct body as [|b0 body]; [congruence|].
  change (String.concat (String sep EmptyString) (x :: (b0 :: body) ++ [z]))
    with (x ++ String sep EmptyString
            ++ String.concat (String sep EmptyString) ((b0 :: body) ++ [z]))%string.
  rewrite concat_snoc by discriminate.
  reflexivity.
Qed.

(** ** Location rows (classifier-based variant) *)

Lemma processRow_location_branch (st : LocalVariant.ParseState) (row : list string) :
  reachesLocationTest row ->
  LocalVariant.processRow st row =
  let text := JS.trim (JS.join " " row) in
  if LocalVariant.locationCandidate row text (LocalVariant.pendingMeeting st)
     && (LocalVariant.hasAsterisk text || LocalVariant.hasRoomNumber text)
  then Normal (LocalVariant.setPending (Some (LocalVariant.locationDraft (LocalVariant.pendingMeeting st) text)) st)
  else Normal st.
Proof.
  intros (Hh & He & Hd & Hy & Ht). unfold LocalVariant.processRow.
  rewrite Hh, He, Hd, Hy, Ht. cbv zeta.
  destruct (LocalVariant.locationCandidate _ _ _); [|reflexivity].
  now destruct (LocalVariant.hasAsterisk _ || LocalVariant.hasRoomNumber _).
Qed.

(** Location rows, as the code has them.  Among the rows that reach the
    location test, a row changes the parse state only when it is a single cell
    whose text contains a comma, the meeting in progress has no
    (non-empty) room, and the text contains an asterisk or a comma
    followed by digits.  Such a row only touches campus, location and
    room of the meeting in progress: when the text has a first piece, a
    non-empty middle and a last piece between commas they become the
    trimmed first piece, the trimmed middle rejoined with commas and the
    trimmed last piece; when it has fewer than three pieces the whole
    text becomes the location, and campus and room stay what they were
    (absent unless an earlier location row of the meeting set them). *)
Lemma location_row_split (st : LocalVariant.ParseState) (row : list string) :
  reachesLocationTest row ->
  let text := JS.trim (JS.join " " row) in
  let before := LocalVariant.spread (LocalVariant.pendingMeeting st) in
  (LocalVariant.processRow st row <> Normal st ->
     List.length row = 1%nat /\ JS.includes "," text = true /\
     JS.truthyOpt (pendingRoom st) = false /\
     (JS.includes "*" text = true \/ JS.test JS.roomNumberRegex text = true))
  /\
  (List.length row = 1%nat -> JS.includes "," text = true ->
   JS.truthyOpt (pendingRoom st) = false ->
   JS.includes "*" text = true \/ JS.test JS.roomNumberRegex text = true ->
   exists m,
     LocalVariant.processRow st row = Normal (LocalVariant.setPending (Some m) st) /\
     Meeting.day m = Meeting.day before /\
     Meeting.timeStrings m = Meeting.timeStrings before /\
     Meeting.dateStrings m = Meeting.dateStrings before /\
     (forall first mid lst,
        JS.split "," text = first :: mid ++ [lst] -> mid <> [] ->
        Meeting.campus m = Some (JS.trim first) /\
        Meeting.location m = Some (JS.trim (JS.join "," mid)) /\
        Meeting.room m = Some (JS.trim lst)) /\
     ((3 <= List.length (JS.split "," text))%nat ->
        exists first mid lst,
          JS.split "," text = first :: mid ++ [lst] /\ mid <> []) /\
     ((List.length (JS.split "," text) < 3)%nat ->
        Meeting.location m = Some text /\
        Meeting.campus m = Meeting.campus before /\
        Meeting.room m = Meeting.room before)).
Proof.
  intros Hreach text before.
  pose proof (processRow_location_branch st row Hreach) as Hrow.
  cbv zeta in Hrow. fold text in Hrow.
  unfold LocalVariant.locationCandidate, LocalVariant.hasAsterisk, LocalVariant.hasRoomNumber in Hrow.
  fold (pendingRoom st) in Hrow.
  split.
  - intros Hne. rewrite Hrow in Hne.
    destruct (List.length row =? 1)%nat eqn:E1; [|now elim Hne].
    destruct (JS.includes "," text) eqn:E2; [|now elim Hne].
    destruct (JS.truthyOpt (pendingRoom st)) eqn:E3; [now elim Hne|].
    simpl in Hne. apply Nat.eqb_eq in E1.
    repeat split; auto.
    destruct (JS.includes "*" text); [now left|].
    destruct (JS.test JS.roomNumberRegex text); [now right|now elim Hne].
  - intros H1 H2 H3 H4.
    apply Nat.eqb_eq in H1. rewrite H1, H2, H3 in Hrow.
    assert (Hq : JS.includes "*" text || JS.test JS.roomNumberRegex text = true)
      by (destruct H4 as [-> | ->]; [reflexivity|apply orb_true_r]).
    rewrite Hq in Hrow. simpl in Hrow.
    exists (LocalVariant.locationDraft (LocalVariant.pendingMeeting st) text).
    split; [exact Hrow|].
    unfold LocalVariant.locationDraft. fold before.
    destruct (split3 text ",") as [[[l m] r]|] eqn:Es; cbn [Meeting.day
      Meeting.timeStrings Meeting.dateStrings Meeting.campus Meeting.location
      Meeting.room]; repeat (split; [reflexivity|]).
    + split; [|split].
      * intros first mid lst Hs Hmid.
        rewrite (split3_parts _ _ _ _ _ Hs Hmid) in Es.
        now injection Es as <- <- <-.
      * intros Hlen.
        destruct (JS.split "," text) as [|x rest] eqn:Ep; [simpl in Hlen; lia|].
        assert (Hrest : rest <> []) by (destruct rest; simpl in Hlen; [lia|discriminate]).
        destruct (exists_last Hrest) as [body [z Hz]]. subst rest.
        exists x, body, z. split; [reflexivity|].
        destruct body; [|discriminate].
        simpl in Hlen. lia.
      * intros Hlen. now rewrite (split3_throws _ _ Hlen) in Es.
    + split; [|split].
      * intros first mid lst Hs Hmid.
        now rewrite (split3_parts _ _ _ _ _ Hs Hmid) in Es.
      * intros Hlen. unfold split3 in Es.
        apply Nat.ltb_ge in Hlen. rewrite Hlen in Es.
        destruct (JS.split "," text) eqn:Ep; [|discriminate].
        now apply split_not_nil in Ep.
      * intros _. repeat split; reflexivity.
Qed.

Example location_row_split_example :
  reachesLocationTest ["Main*, Hall, West, 101"] /\
  exists m,
    LocalVariant.processRow LocalVariant.initialState ["Main*, Hall, West, 101"]
    = Normal (LocalVariant.setPending (Some m) LocalVariant.initialState) /\
    Meeting.campus m = Some "Main*" /\
    Meeting.location m = Some "Hall, West" /\
    Meeting.room m = Some "101".
Proof.
  assert (Hr : reachesLocationTest ["Main*, Hall, West, 101"])
    by (repeat split; reflexivity).
  split; [exact Hr|].
  destruct (location_row_split LocalVariant.initialState _ Hr) as [_ H].
  destruct (H eq_refl eq_refl eq_refl (or_introl eq_refl))
    as (m & Hm & _ & _ & _ & Hparts & _).
  exists m. split; [exact Hm|].
  exact (Hparts "Main*" [" Hall"; " West"] " 101" eq_refl
           ltac:(discriminate)).
Qed.

(** C6.  The defect at a location row that follows one ending in a
    comma.  The trailing comma gives the meeting in progress the empty
    text as its room.  The test on the room reads the empty text as no
    room, so the next single-cell row with a comma followed by digits is
    taken as a location row again, although the meeting has been given a
    room.  Its text has fewer than three pieces and becomes the location,
    while the campus and the room of the earlier row stay: the course of
    the block has the campus of the first row and the location of the
    second, where a location row with fewer than three pieces should
    leave campus and room absent. *)
Theorem location_row_after_empty_room :
  exists st pm st' pm' c,
    LocalVariant.processRows LocalVariant.initialState emptyRoomRows = Normal st /\
    LocalVariant.pendingMeeting st = Some pm /\
    Meeting.campus pm = Some "Main*" /\
    Meeting.location pm = Some "Hall" /\
    Meeting.room pm = Some "" /\
    reachesLocationTest secondLocationRow /\
    LocalVariant.locationCandidate secondLocationRow "Annex, 12" (Some pm) = true /\
    LocalVariant.hasRoomNumber "Annex, 12" = true /\
    (List.length (JS.split "," "Annex, 12") < 3)%nat /\
    LocalVariant.processRow st secondLocationRow = Normal st' /\
    LocalVariant.pendingMeeting st' = Some pm' /\
    Meeting.location pm' = Some "Annex, 12" /\
    Meeting.campus pm' = Some "Main*" /\
    Meeting.room pm' = Some "" /\
    LocalVariant.parseBody (emptyRoomRows ++ [secondLocationRow]) = Normal [c] /\
    campus c = Some "Main*" /\
    location c = Some "Annex, 12" /\
    room c = Some "".
Proof.
  eexists _, _, _, _, _.
  repeat (split; [vm_compute; try reflexivity; try lia|]).
  reflexivity.
Qed.

(** ** Table boundaries *)

Section FindIndex.
Context {A : Type} (p : A -> bool).

Lemma findIndex_None (l : list A) :
  findIndex p l = None <-> Forall (fun a => p a = false) l.
Proof.
  induction l as [|a l IH]; simpl.
  - split; [constructor|reflexivity].
  - destruct (p a) eqn:E.
    + split; [discriminate|]. intros H. inversion H; congruence.
    + destruct (findIndex p l).
      * split; [discriminate|]. intros H. inversion H; subst.
        now apply IH in H3.
      * split; [|reflexivity]. intros _. constructor; [exact E|now apply IH].
Qed.

(** [findIndex] returns the first position that satisfies the test. *)
Lemma findIndex_Some (l : list A) (n : nat) :
  findIndex p l = Some n ->
  (exists a, nth_error l n = Some a /\ p a = true) /\
  Forall (fun a => p a = false) (firstn n l).
Proof.
  revert n. induction l as [|a l IH]; simpl; intros n H; [discriminate|].
  destruct (p a) eqn:E.
  - injection H as <-. split; [now exists a|constructor].
  - destruct (findIndex p l) as [k|]; [|discriminate].
    injection H as <-. destruct (IH k eq_refl) as [Hx Hf].
    split; [exact Hx|]. simpl. now constructor.
Qed.
End FindIndex.

(** C4.  When no row starts with the header label, or none starts with
    the footer label, or the first footer row is at or before the first
    header row, the upload handler of either variant returns at once:
    it ends normally and leaves the state, and so the course list, as it
    was. *)
Theorem structural_absence (app : App) (allRows : list (list string)) :
  noRowStartsWith "Title" allRows \/
  noRowStartsWith "Total Hours" allRows \/
  (exists headIdx tailIdx,
     findIndex (firstCellIs "Title") allRows = Some headIdx /\
     findIndex (firstCellIs "Total Hours") allRows = Some tailIdx /\
     (tailIdx <= headIdx)%nat) ->
  LocalVariant.handleRows app allRows = mkOutcome app false /\
  UtcVariant.handleRows app allRows = mkOutcome app false.
Proof.
  unfold LocalVariant.handleRows, UtcVariant.handleRows.
  intros [H | [H | (h & t & Hh & Ht & Hle)]].
  - apply findIndex_None in H. rewrite H. now split.
  - apply findIndex_None in H. rewrite H.
    destruct (findIndex (firstCellIs "Title") allRows); now split.
  - rewrite Hh, Ht. apply Nat.leb_le in Hle. rewrite Hle. now split.
Qed.

Lemma structural_absence_witness :
  noRowStartsWith "Title" [["Fall Schedule"]; ["Total Hours"; "12"]] /\
  courses (after (LocalVariant.handleRows (mkApp initialData "" [])
                    [["Fall Schedule"]; ["Total Hours"; "12"]])) = initialData /\
  courses (after (UtcVariant.handleRows (mkApp initialData "" [])
                    [["Fall Schedule"]; ["Total Hours"; "12"]])) = initialData.
Proof.
  assert (H : noRowStartsWith "Title" [["Fall Schedule"]; ["Total Hours"; "12"]])
    by (repeat constructor).
  split; [exact H|].
  destruct (structural_absence (mkApp initialData "" []) _ (or_introl H))
    as [-> ->].
  split; reflexivity.
Defined.

(** ** Course header rows *)

(** C5 on the classifier-based variant: a header row of six cells
    starts a base course with title, details and crn from cells 1, 2 and
    4, and the carried date-range strings are the trimmed pieces, two at
    most, that the dash delimits in cell 5 followed by cell 6. *)
Lemma header_row_six_cells_local (st : LocalVariant.ParseState)
  (c1 c2 c3 c4 c5 c6 : string) :
  c1 <> "Title" ->
  forall st1, LocalVariant.finalizeMeeting st = Normal st1 ->
  LocalVariant.processRow st [c1; c2; c3; c4; c5; c6]
  = Normal (LocalVariant.mkState
              (map JS.trim (JS.splitLimit "-" 2 (c5 ++ c6)%string))
              (LocalVariant.parsedCourses st1)
              (Some (LocalVariant.mkBase (NumberOf c4) c1 c2))
              None).
Proof.
  intros Hne st1 Hfin. unfold LocalVariant.processRow, LocalVariant.isHeaderRow.
  cbn [List.length Nat.eqb orb firstCellIs].
  apply String.eqb_neq in Hne. rewrite Hne. cbn [negb andb].
  rewrite Hfin. reflexivity.
Qed.

(** C5 on the positional variant, at a six-cell header row whose date
    range was wrapped after the dash: the six-cell case appends the
    absent seventh cell to the sixth and reads the date-range strings
    from the fifth cell alone, so the second date is lost. *)
Theorem header_row_six_cells_positional :
  let row := ["Intro to X"; "Lecture"; "3.0"; "12345"; "01/06/2025 -"; "04/25/2025"] in
  (exists st,
     UtcVariant.processRow UtcVariant.initialState row = Normal st /\
     UtcVariant.currentDateStrings st = ["01/06/2025"; ""] /\
     UtcVariant.currentCourse st
     = Some (mkCourse (NumberOf "12345") "Intro to X" "Lecture"
                      None None None None None None None)) /\
  UtcVariant.headerCells row
  = ["Intro to X"; "Lecture"; "3.0"; "12345"; "01/06/2025 -"; "04/25/2025undefined"] /\
  (exists st,
     LocalVariant.processRow LocalVariant.initialState row = Normal st /\
     LocalVariant.currentDateStrings st = ["01/06/2025"; "04/25/2025"]).
Proof.
  cbv zeta. split; [|split].
  - eexists. split; [vm_compute; reflexivity|]. split; reflexivity.
  - vm_compute. reflexivity.
  - eexists. split; [vm_compute; reflexivity|]. reflexivity.
Qed.

(** ** The two variants *)

(** C9 as stated fails: on the same rows the two variants parse
    different courses.  The positional variant reads the third detail
    row as the location and does not find a start in a time text that
    keeps its inner space; the classifier-based variant resolves the
    start and does not take this row for a location. *)
Lemma variants_parse_differently :
  courses (after (UtcVariant.handleRows freshApp exampleRows))
  = [mkCourse (NumberOf "12345") "Intro to X" "Lecture"
       (Some Luxon.Invalid) (Some Luxon.Invalid)
       (Some (Luxon.Valid 1745625599999))
       (Some ["Monday"; "Wednesday"])
       (Some "Main Campus") (Some "Bldg 1") (Some "Room 101")] /\
  courses (after (LocalVariant.handleRows freshApp exampleRows))
  = [mkCourse (NumberOf "12345") "Intro to X" "Lecture"
       (Some (Luxon.Valid 1736154000000)) (Some (Luxon.Valid 1736157000000))
       (Some (Luxon.Valid 1745625599999))
       (Some ["Monday"; "Wednesday"])
       None None None] /\
  courses (after (UtcVariant.handleRows freshApp exampleRows))
  <> courses (after (LocalVariant.handleRows freshApp exampleRows)).
Proof.
  assert (Hu : courses (after (UtcVariant.handleRows freshApp exampleRows))
    = [mkCourse (NumberOf "12345") "Intro to X" "Lecture"
       (Some Luxon.Invalid) (Some Luxon.Invalid)
       (Some (Luxon.Valid 1745625599999))
       (Some ["Monday"; "Wednesday"])
       (Some "Main Campus") (Some "Bldg 1") (Some "Room 101")])
    by (vm_compute; reflexivity).
  assert (Hl : courses (after (LocalVariant.handleRows freshApp exampleRows))
    = [mkCourse (NumberOf "12345") "Intro to X" "Lecture"
       (Some (Luxon.Valid 1736154000000)) (Some (Luxon.Valid 1736157000000))
       (Some (Luxon.Valid 1745625599999))
       (Some ["Monday"; "Wednesday"])
       None None None])
    by (vm_compute; reflexivity).
  split; [exact Hu|]. split; [exact Hl|].
  rewrite Hu, Hl. discriminate.
Qed.

Lemma eventWith_same (m1 m2 : OutputMode) (cs : list Course) :
  Forall2 sameButInstants
    (flat_map (fun c => match eventWith m1 c with Some e => [e] | None => [] end) cs)
    (flat_map (fun c => match eventWith m2 c with Some e => [e] | None => [] end) cs).
Proof.
  induction cs as [|c cs IH]; simpl; [constructor|].
  unfold eventWith at 1 3.
  destruct (day c), (start c), (end_ c), (until c); simpl; try exact IH.
  constructor; [|exact IH]. repeat split.
Qed.

(** C9, as the code has it.  The export stages of the two variants are
    one event builder that differs in the output mode alone: the
    positional variant renders start and end as UTC components and flags
    them [utc], the classifier-based variant renders them as local
    wall-clock components and flags them [local].  For the same state
    both export or both decline, with the same header attributes and
    with payloads that agree, one by one, in title, description,
    location, recurrence rule and transparency. *)
Theorem export_differs_in_output_mode_only (app : App) :
  UtcVariant.handleDownload app = downloadWith UtcMode app /\
  LocalVariant.handleDownload app = downloadWith LocalMode app /\
  match UtcVariant.handleDownload app, LocalVariant.handleDownload app with
  | Some (eu, hu), Some (el, hl) => hu = hl /\ Forall2 sameButInstants eu el
  | None, None => selectedCourses app = []
  | _, _ => False
  end.
Proof.
  assert (Hu : UtcVariant.handleDownload app = downloadWith UtcMode app) by reflexivity.
  assert (Hl : LocalVariant.handleDownload app = downloadWith LocalMode app) by reflexivity.
  split; [exact Hu|]. split; [exact Hl|].
  rewrite Hu, Hl. unfold downloadWith.
  destruct (selectedCourses app) as [|c cs] eqn:E; [reflexivity|].
  split; [reflexivity|]. apply eventWith_same.
Qed.

(** ** The calendar and the zone *)

Ltac div_lia := Z.div_mod_to_equations; lia.

Lemma dayNumber_msOfDay (x : Z) :
  x = Luxon.dayNumber x * Luxon.msPerDay + Luxon.msOfDay x /\
  0 <= Luxon.msOfDay x < Luxon.msPerDay.
Proof. unfold Luxon.dayNumber, Luxon.msOfDay, Luxon.msPerDay. div_lia. Qed.

(** Month and day of a day number are a month and a day. *)
Lemma civilFromDays_range (dn : Z) :
  let '(y, m, d) := Luxon.civilFromDays dn in
  1 <= m <= 12 /\ 1 <= d <= 31.
Proof.
  unfold Luxon.civilFromDays. cbv zeta.
  set (z := dn + 719468).
  set (era := z / 146097).
  set (doe := z - era * 146097).
  assert (Hdoe : 0 <= doe <= 146096) by (unfold doe, era; div_lia).
  clearbody doe.
  set (yoe := (doe - doe / 1460 + doe / 36524 - doe / 146096) / 365).
  set (doy := doe - (365 * yoe + yoe / 4 - yoe / 100)).
  assert (Hdoy : 0 <= doy <= 365) by (unfold doy, yoe; div_lia).
  clearbody doy.
  destruct ((5 * doy + 2) / 153 <? 10) eqn:E;
    [apply Z.ltb_lt in E|apply Z.ltb_ge in E]; div_lia.
Qed.

(** The day number of the civil date of a day number is that number. *)
Lemma daysFromCivil_civilFromDays (dn : Z) :
  let '(y, m, d) := Luxon.civilFromDays dn in Luxon.daysFromCivil y m d = dn.
Proof.
  unfold Luxon.civilFromDays, Luxon.daysFromCivil. cbv zeta.
  set (z := dn + 719468).
  set (era := z / 146097).
  set (doe := z - era * 146097).
  assert (Hz : z = era * 146097 + doe) by (unfold doe; lia).
  assert (Hdoe : 0 <= doe <= 146096) by (unfold doe, era; div_lia).
  assert (Hdn : dn = z - 719468) by (unfold z; lia).
  clearbody doe era z.
  set (yoe := (doe - doe / 1460 + doe / 36524 - doe / 146096) / 365).
  set (doy := doe - (365 * yoe + yoe / 4 - yoe / 100)).
  assert (Hyoe : 0 <= yoe <= 399 /\ 0 <= doy <= 365) by (unfold doy, yoe; div_lia).
  assert (Hdoe2 : doe = 365 * yoe + yoe / 4 - yoe / 100 + doy) by (unfold doy; lia).
  clearbody doy yoe.
  set (mp := (5 * doy + 2) / 153).
  assert (Hmp : 0 <= mp <= 11) by (unfold mp; div_lia).
  assert (Hd : (153 * mp + 2) / 5 <= doy < (153 * (mp + 1) + 2) / 5)
    by (unfold mp; div_lia).
  clearbody mp.
  destruct (mp <? 10) eqn:E; [apply Z.ltb_lt in E|apply Z.ltb_ge in E].
  - replace (mp + 3 <=? 2) with false by (symmetry; apply Z.leb_gt; lia).
    replace (2 <? mp + 3) with true by (symmetry; apply Z.ltb_lt; lia).
    replace (mp + 3 - 3) with mp by lia.
    replace ((yoe + era * 400) / 400) with era by div_lia.
    replace (yoe + era * 400 - era * 400) with yoe by lia. lia.
  - replace (mp - 9 <=? 2) with true by (symmetry; apply Z.leb_le; lia).
    replace (2 <? mp - 9) with false by (symmetry; apply Z.ltb_ge; lia).
    replace (mp - 9 + 9) with mp by lia.
    replace (yoe + era * 400 + 1 - 1) with (yoe + era * 400) by lia.
    replace ((yoe + era * 400) / 400) with era by div_lia.
    replace (yoe + era * 400 - era * 400) with yoe by lia. lia.
Qed.

(** A day of a year from 1884 on lies after the start of standard time. *)
Lemma year_after_standard (dn : Z) :
  1884 <= Luxon.yearOf (dn * Luxon.msPerDay) ->
  Luxon.daysFromCivil 1884 1 1 <= dn.
Proof.
  unfold Luxon.yearOf.
  replace (Luxon.dayNumber (dn * Luxon.msPerDay)) with dn
    by (unfold Luxon.dayNumber, Luxon.msPerDay; now rewrite Z.div_mul by lia).
  change (Luxon.daysFromCivil 1884 1 1) with (-31411).
  unfold Luxon.civilFromDays. cbv zeta.
  set (z := dn + 719468).
  set (era := z / 146097).
  set (doe := z - era * 146097).
  assert (Hdoe : 0 <= doe <= 146096) by (unfold doe, era; div_lia).
  assert (Hz : z = era * 146097 + doe) by (unfold doe; lia).
  assert (Hdn : dn = z - 719468) by (unfold z; lia).
  clearbody doe era z.
  set (yoe := (doe - doe / 1460 + doe / 36524 - doe / 146096) / 365).
  set (doy := doe - (365 * yoe + yoe / 4 - yoe / 100)).
  assert (Hyoe : 0 <= yoe <= 399 /\ 0 <= doy <= 365) by (unfold doy, yoe; div_lia).
  assert (Hdoe2 : doe = 365 * yoe + yoe / 4 - yoe / 100 + doy) by (unfold doy; lia).
  clearbody doy yoe.
  set (mp := (5 * doy + 2) / 153).
  assert (Hmp : 0 <= mp <= 11 /\ (mp < 10 <-> doy < 306)) by (unfold mp; div_lia).
  clearbody mp.
  destruct (mp <? 10) eqn:E; [apply Z.ltb_lt in E|apply Z.ltb_ge in E].
  - replace (mp + 3 <=? 2) with false by (symmetry; apply Z.leb_gt; lia).
    intros H. div_lia.
  - replace (mp - 9 <=? 2) with true by (symmetry; apply Z.leb_le; lia).
    intros H. div_lia.
Qed.

Lemma string_length_append (a b : string) :
  String.length (a ++ b)%string = (String.length a + String.length b)%nat.
Proof. induction a as [|c a IH]; simpl; [reflexivity|now rewrite IH]. Qed.

(** The skipped hour is the third hour of its day. *)
Lemma inSkippedHour_time (x : Z) :
  Luxon.inSkippedHour x = true ->
  2 * Luxon.msPerHour <= Luxon.msOfDay x < 3 * Luxon.msPerHour.
Proof.
  unfold Luxon.inSkippedHour.
  destruct (Luxon.daylightPeriod _) as [[a b]|]; [|discriminate].
  intros H. apply andb_true_iff in H. destruct H as [H1 H2].
  apply Z.leb_le in H1. apply Z.ltb_lt in H2.
  unfold Luxon.msOfDay, Luxon.msPerDay, Luxon.msPerHour in *. div_lia.
Qed.

Lemma skipGap_cases (x : Z) :
  (Luxon.inSkippedHour x = false /\ Luxon.skipGap x = x) \/
  (Luxon.inSkippedHour x = true /\ Luxon.skipGap x = x + Luxon.msPerHour /\
   2 * Luxon.msPerHour <= Luxon.msOfDay x < 3 * Luxon.msPerHour).
Proof.
  unfold Luxon.skipGap. destruct (Luxon.inSkippedHour x) eqn:E.
  - right. repeat split; try apply inSkippedHour_time; assumption.
  - now left.
Qed.

(** Outside the third hour of the day nothing is moved. *)
Lemma skipGap_outside (x : Z) :
  Luxon.msOfDay x < 2 * Luxon.msPerHour \/ 3 * Luxon.msPerHour <= Luxon.msOfDay x ->
  Luxon.skipGap x = x.
Proof. destruct (skipGap_cases x) as [[_ H] | (_ & _ & H)]; [easy|lia]. Qed.

Lemma skipGap_midnight (dn : Z) :
  Luxon.skipGap (dn * Luxon.msPerDay) = dn * Luxon.msPerDay.
Proof.
  apply skipGap_outside. left.
  unfold Luxon.msOfDay, Luxon.msPerDay, Luxon.msPerHour.
  rewrite Z.mod_mul by lia. lia.
Qed.

(** Moving a time out of a skipped hour keeps its day. *)
Lemma skipGap_dayNumber (x : Z) :
  Luxon.dayNumber (Luxon.skipGap x) = Luxon.dayNumber x.
Proof.
  destruct (skipGap_cases x) as [[_ ->] | (_ & -> & H)]; [reflexivity|].
  unfold Luxon.dayNumber, Luxon.msOfDay, Luxon.msPerDay, Luxon.msPerHour in *.
  div_lia.
Qed.

Lemma skipGap_msOfDay (x : Z) :
  Luxon.msOfDay (Luxon.skipGap x)
  = if Luxon.inSkippedHour x then Luxon.msOfDay x + Luxon.msPerHour
    else Luxon.msOfDay x.
Proof.
  destruct (skipGap_cases x) as [[-> ->] | (-> & -> & H)]; [reflexivity|].
  unfold Luxon.msOfDay, Luxon.msPerDay, Luxon.msPerHour in *. div_lia.
Qed.

(** The time an instant is made at is never in a skipped hour. *)
Lemma skipGap_exists (x : Z) : Luxon.inSkippedHour (Luxon.skipGap x) = false.
Proof.
  destruct (skipGap_cases x) as [[E ->] | (_ & -> & H)]; [exact E|].
  destruct (Luxon.inSkippedHour (x + Luxon.msPerHour)) eqn:E; [|reflexivity].
  apply inSkippedHour_time in E.
  unfold Luxon.msOfDay, Luxon.msPerDay, Luxon.msPerHour in *. div_lia.
Qed.

Lemma skipGap_idempotent (x : Z) :
  Luxon.skipGap (Luxon.skipGap x) = Luxon.skipGap x.
Proof.
  unfold Luxon.skipGap at 1. now rewrite skipGap_exists.
Qed.

(** *** Decimal digits *)

Lemma digitChar_digit (z : Z) :
  JS.isDigit (Luxon.digitChar z) = true /\
  JS.digitVal (Luxon.digitChar z) = z mod 10.
Proof.
  unfold Luxon.digitChar.
  assert (H : z mod 10 = 0 \/ z mod 10 = 1 \/ z mod 10 = 2 \/ z mod 10 = 3 \/
              z mod 10 = 4 \/ z mod 10 = 5 \/ z mod 10 = 6 \/ z mod 10 = 7 \/
              z mod 10 = 8 \/ z mod 10 = 9)
    by (pose proof (Z.mod_pos_bound z 10); lia).
  repeat (destruct H as [H | H]; [rewrite H; split; reflexivity|]).
  rewrite H. split; reflexivity.
Qed.

Lemma padDigits_length (n : nat) (z : Z) :
  String.length (Luxon.padDigits n z) = n.
Proof.
  revert z. induction n as [|n IH]; intros z; simpl; [reflexivity|].
  rewrite string_length_append, IH. simpl. lia.
Qed.

(** A number that fits is padded to exactly [n] digits. *)
Lemma padStart_fits (n : nat) (z : Z) :
  0 <= z < 10 ^ Z.of_nat n -> Luxon.padStart n z = Luxon.padDigits n z.
Proof.
  intros [H0 Hn]. unfold Luxon.padStart.
  destruct (Z.ltb_spec z 0); [lia|].
  destruct (Z.ltb_spec z (10 ^ Z.of_nat n)); [reflexivity|lia].
Qed.

Lemma digitsN_step (n : nat) (acc : Z) (d : ascii) (s : string) :
  JS.digitsN (S n) acc (String d s)
  = if JS.isDigit d then JS.digitsN n (10 * acc + JS.digitVal d) s else None.
Proof. reflexivity. Qed.

(** Reading one digit more. *)
Lemma digitsN_last (n : nat) (acc : Z) (s : string) :
  JS.digitsN (S n) acc s
  = match JS.digitsN n acc s with
    | Some (v, String d s') =>
        if JS.isDigit d then Some (10 * v + JS.digitVal d, s') else None
    | _ => None
    end.
Proof.
  revert acc s. induction n as [|n IH]; intros acc s.
  - destruct s as [|d s]; reflexivity.
  - destruct s as [|d s]; [reflexivity|].
    rewrite (digitsN_step (S n)), (digitsN_step n).
    destruct (JS.isDigit d); [apply IH|reflexivity].
Qed.

(** Reading back the digits that were written. *)
Lemma digitsN_padDigits (n : nat) (z acc : Z) (rest : string) :
  JS.digitsN n acc (Luxon.padDigits n z ++ rest)
  = Some (acc * 10 ^ Z.of_nat n + z mod 10 ^ Z.of_nat n, rest).
Proof.
  revert z rest. induction n as [|n IH]; intros z rest.
  - cbn. f_equal. f_equal. rewrite Z.mod_1_r. lia.
  - rewrite digitsN_last. cbn [Luxon.padDigits].
    rewrite string_append_assoc. cbn [String.append].
    rewrite IH. destruct (digitChar_digit z) as [-> ->].
    f_equal. f_equal.
    rewrite Nat2Z.inj_succ, Z.pow_succ_r by lia.
    assert (Hp : 0 < 10 ^ Z.of_nat n) by (apply Z.pow_pos_nonneg; lia).
    rewrite (Z.rem_mul_r z 10 (10 ^ Z.of_nat n)) by lia. lia.
Qed.

Lemma digitsN_padStart (n : nat) (z : Z) (rest : string) :
  0 <= z < 10 ^ Z.of_nat n ->
  JS.digitsN n 0 (Luxon.padStart n z ++ rest) = Some (z, rest).
Proof.
  intros H. rewrite padStart_fits by exact H. rewrite digitsN_padDigits.
  rewrite Z.mod_small by exact H. reflexivity.
Qed.

(** *** The basic format *)

(** The basic format of a wall-clock timestamp, by day and time of day. *)
Lemma formatBasic_at (dn ms : Z) :
  0 <= ms < Luxon.msPerDay ->
  Luxon.formatBasic (dn * Luxon.msPerDay + ms)
  = (basicDate dn ++ "T" ++ Luxon.padStart 2 (ms / Luxon.msPerHour)
     ++ Luxon.padStart 2 ((ms mod Luxon.msPerHour) / Luxon.msPerMinute)
     ++ Luxon.padStart 2 ((ms mod Luxon.msPerMinute) / 1000) ++ "Z")%string.
Proof.
  intros Hms. unfold Luxon.formatBasic, basicDate.
  replace (Luxon.dayNumber (dn * Luxon.msPerDay + ms)) with dn
    by (unfold Luxon.dayNumber, Luxon.msPerDay in *; div_lia).
  replace (Luxon.msOfDay (dn * Luxon.msPerDay + ms)) with ms
    by (unfold Luxon.msOfDay, Luxon.msPerDay in *; div_lia).
  destruct (Luxon.civilFromDays dn) as [[y m] d].
  now rewrite !string_append_assoc.
Qed.

(** In a year of four digits the basic format has sixteen characters,
    and reading its digits back gives the fields of the timestamp and
    the timestamp itself, to the second. *)
Lemma formatBasic_fields (ts : Z) :
  0 <= Luxon.yearOf ts <= 9999 ->
  String.length (Luxon.formatBasic ts) = 16%nat /\
  exists y mo d h mi sec,
    readBasic (Luxon.formatBasic ts) = Some (y, mo, d, h, mi, sec) /\
    Luxon.components ts = [Fin y; Fin mo; Fin d; Fin h; Fin mi] /\
    Luxon.daysFromCivil y mo d * Luxon.msPerDay + h * Luxon.msPerHour
    + mi * Luxon.msPerMinute + sec * 1000 = ts - ts mod 1000.
Proof.
  unfold Luxon.yearOf, Luxon.formatBasic, Luxon.components.
  pose proof (civilFromDays_range (Luxon.dayNumber ts)) as Hr.
  pose proof (daysFromCivil_civilFromDays (Luxon.dayNumber ts)) as Hback.
  destruct (Luxon.civilFromDays (Luxon.dayNumber ts)) as [[y m] d].
  intros Hy. destruct Hr as [Hm Hd].
  destruct (dayNumber_msOfDay ts) as [Hts Hms].
  set (ms := Luxon.msOfDay ts) in *.
  assert (Hh : 0 <= ms / Luxon.msPerHour < 100)
    by (unfold Luxon.msPerHour, Luxon.msPerDay in *; div_lia).
  assert (Hmi : 0 <= ms mod Luxon.msPerHour / Luxon.msPerMinute < 100)
    by (unfold Luxon.msPerHour, Luxon.msPerMinute in *; div_lia).
  assert (Hs : 0 <= ms mod Luxon.msPerMinute / 1000 < 100)
    by (unfold Luxon.msPerMinute in *; div_lia).
  assert (H4 : 10 ^ Z.of_nat 4 = 10000) by reflexivity.
  assert (H2 : 10 ^ Z.of_nat 2 = 100) by reflexivity.
  split.
  - rewrite !padStart_fits by lia.
    repeat (rewrite string_length_append || rewrite padDigits_length).
    reflexivity.
  - exists y, m, d, (ms / Luxon.msPerHour),
      (ms mod Luxon.msPerHour / Luxon.msPerMinute),
      (ms mod Luxon.msPerMinute / 1000).
    split; [|split; [reflexivity|]].
    + unfold readBasic.
      rewrite digitsN_padStart by lia. cbn [Luxon.obind].
      rewrite digitsN_padStart by lia. cbn [Luxon.obind].
      rewrite digitsN_padStart by lia. cbn [Luxon.obind].
      change (JS.lit "T" ("T" ++ ?s)%string) with (Some s).
      cbn [Luxon.obind String.append JS.lit Ascii.eqb Bool.eqb].
      rewrite digitsN_padStart by lia. cbn [Luxon.obind].
      rewrite digitsN_padStart by lia. cbn [Luxon.obind].
      rewrite digitsN_padStart by lia. cbn [Luxon.obind].
      reflexivity.
    + rewrite Hback.
      unfold Luxon.msPerHour, Luxon.msPerMinute, Luxon.msPerDay in *.
      subst ms. unfold Luxon.msOfDay, Luxon.dayNumber, Luxon.msPerDay in *.
      div_lia.
Qed.

(** The last millisecond of a day, on the UTC clock: early in the next
    day, by the offset of the time in force. *)
Lemma boundary_in_utc (dn : Z) :
  toRRuleUntilUTC (Luxon.Valid (endOfDay dn))
  = (basicDate (dn + 1) ++ boundaryClock (Luxon.zoneTime (endOfDay dn)))%string.
Proof.
  unfold toRRuleUntilUTC, Luxon.utcTimestamp, Luxon.zoneOffset.
  destruct (Luxon.zoneTime (endOfDay dn)); cbn [Luxon.offsetOf boundaryClock].
  - replace (endOfDay dn - -17762000)
      with ((dn + 1) * Luxon.msPerDay + 17761999)
      by (unfold endOfDay, Luxon.msPerDay; lia).
    rewrite formatBasic_at by (unfold Luxon.msPerDay; lia). reflexivity.
  - replace (endOfDay dn - - 5 * Luxon.msPerHour)
      with ((dn + 1) * Luxon.msPerDay + 17999999)
      by (unfold endOfDay, Luxon.msPerDay, Luxon.msPerHour; lia).
    rewrite formatBasic_at by (unfold Luxon.msPerDay; lia). reflexivity.
  - replace (endOfDay dn - - 4 * Luxon.msPerHour)
      with ((dn + 1) * Luxon.msPerDay + 14399999)
      by (unfold endOfDay, Luxon.msPerDay, Luxon.msPerHour; lia).
    rewrite formatBasic_at by (unfold Luxon.msPerDay; lia). reflexivity.
Qed.

(** Under the rule in force since 2007 a day ends on daylight time from
    the second Sunday of March to the day before the first Sunday of
    November, and on standard time otherwise. *)
Lemma zoneTime_since_2007 (dn : Z) :
  let y := Luxon.yearOf (dn * Luxon.msPerDay) in
  2007 <= y ->
  Luxon.zoneTime (endOfDay dn)
  = if (Luxon.sundayFrom y 3 8 <=? dn) && (dn <? Luxon.sundayFrom y 11 1)
    then Luxon.Daylight else Luxon.Standard.
Proof.
  intros y Hy.
  assert (Hdn : Luxon.daysFromCivil 1884 1 1 <= dn)
    by (apply year_after_standard; fold y; lia).
  change (Luxon.daysFromCivil 1884 1 1) with (-31411) in Hdn.
  assert (Hyear : Luxon.yearOf (endOfDay dn) = y).
  { unfold y, Luxon.yearOf.
    replace (Luxon.dayNumber (endOfDay dn)) with dn
      by (unfold endOfDay, Luxon.dayNumber, Luxon.msPerDay; div_lia).
    replace (Luxon.dayNumber (dn * Luxon.msPerDay)) with dn
      by (unfold Luxon.dayNumber, Luxon.msPerDay; div_lia).
    reflexivity. }
  unfold Luxon.zoneTime. rewrite Hyear.
  replace (endOfDay dn <? Luxon.standardTimeStart) with false.
  2:{ symmetry. apply Z.ltb_ge.
      change Luxon.standardTimeStart with (-2717668562000).
      unfold endOfDay, Luxon.msPerDay. lia. }
  unfold Luxon.daylightPeriod.
  replace (2007 <=? y) with true by (symmetry; apply Z.leb_le; exact Hy).
  set (a := Luxon.sundayFrom y 3 8). set (b := Luxon.sundayFrom y 11 1).
  clearbody a b.
  replace (a * Luxon.msPerDay + 2 * Luxon.msPerHour <=? endOfDay dn) with (a <=? dn).
  2:{ unfold endOfDay, Luxon.msPerDay, Luxon.msPerHour.
      destruct (Z.leb_spec a dn); symmetry; [apply Z.leb_le|apply Z.leb_gt]; lia. }
  replace (endOfDay dn <? b * Luxon.msPerDay + 2 * Luxon.msPerHour) with (dn <? b).
  2:{ unfold endOfDay, Luxon.msPerDay, Luxon.msPerHour.
      destruct (Z.ltb_spec dn b); symmetry; [apply Z.ltb_lt|apply Z.ltb_ge]; lia. }
  reflexivity.
Qed.

(** The rule of America/New_York on dates around its changes, and the
    basic format beyond four digits of year. *)
Example zone_examples :
  map (fun date =>
         match recurrenceBoundary (Some date) with
         | Normal u => toRRuleUntilUTC u
         | Thrown => EmptyString
         end)
      ["03/08/2025"; "03/09/2025"; "11/01/2025"; "11/02/2025";
       "04/01/2006"; "04/02/2006"; "10/28/2006"; "10/29/2006";
       "12/31/9999"; "11/17/1883"]
  = ["20250309T045959Z"; "20250310T035959Z"; "20251102T035959Z"; "20251103T045959Z";
     "20060402T045959Z"; "20060403T035959Z"; "20061029T035959Z"; "20061030T045959Z";
     "100000101T045959Z"; "18831118T045601Z"].
Proof. vm_compute. reflexivity. Qed.

(** A printed time inside a skipped hour is read one hour on, and a
    shift by days into a skipped hour lands one hour on. *)
Example skipped_hour_examples :
  parseLocal (Some "03/09/2025") (Some "02:30AM")
  = parseLocal (Some "03/09/2025") (Some "03:30AM") /\
  alignBoth (parseLocal (Some "03/07/2025") (Some "02:30AM"))
            (parseLocal (Some "03/07/2025") (Some "03:20AM")) ["Sunday"]
  = Normal (parseLocal (Some "03/09/2025") (Some "03:30AM"),
            parseLocal (Some "03/09/2025") (Some "03:20AM")).
Proof. split; vm_compute; reflexivity. Qed.

(** ** Recurrence rule *)

Lemma isWeekdayName_cases (d : string) :
  isWeekdayName d = true ->
  In d weekdayNames.
Proof.
  unfold isWeekdayName. intros H. apply existsb_exists in H.
  destruct H as [x [Hin Hx]]. apply String.eqb_eq in Hx. now subst.
Qed.

Ltac each_weekday H :=
  apply isWeekdayName_cases in H; simpl in H;
  repeat (destruct H as [H | H]; [subst | ]); [.. | contradiction].

Lemma dayToByday_code (d : string) :
  isWeekdayName d = true ->
  memberText d (member dayToByday d) = twoLetterCode d.
Proof. intros H. each_weekday H; reflexivity. Qed.

Lemma dayToByday_codes (days : list string) :
  Forall (fun d => isWeekdayName d = true) days ->
  map (fun d => memberText d (member dayToByday d)) days = map twoLetterCode days.
Proof.
  induction 1 as [|d ds Hd _ IH]; [reflexivity|].
  cbn [map]. rewrite IH. f_equal. now apply dayToByday_code.
Qed.

(** The boundary the parsers compute is no instant, or the last
    millisecond of a day. *)
Lemma recurrenceBoundary_cases (date : option string) (u : Luxon.DateTime) :
  recurrenceBoundary date = Normal u ->
  u = Luxon.Invalid \/ exists dn, u = Luxon.Valid (endOfDay dn).
Proof.
  unfold recurrenceBoundary, Luxon.fromFormat.
  cbn [String.eqb Ascii.eqb Bool.eqb andb]. unfold Luxon.fromDate.
  destruct (Luxon.parseDateTokens _) as [[[[mo dd] yy] rest]|];
    [|intros H; injection H as <-; now left].
  destruct rest; [|intros H; injection H as <-; now left].
  destruct (Luxon.validDate yy mo dd);
    [|intros H; injection H as <-; now left].
  cbn [Luxon.plusDays bindC Luxon.minusMillis].
  intros H. injection H as <-. right. exists (Luxon.daysFromCivil yy mo dd).
  replace (Luxon.daysFromCivil yy mo dd * Luxon.msPerDay + 86400000)
    with ((Luxon.daysFromCivil yy mo dd + 1) * Luxon.msPerDay)
    by (unfold Luxon.msPerDay; lia).
  rewrite skipGap_midnight. unfold endOfDay. f_equal. lia.
Qed.

(** C7, as the code has it.  For a course with a day-set, a start, an
    end and a boundary, the event of either variant carries the
    recurrence rule [FREQ=WEEKLY;BYDAY=] followed by the texts the
    day-set maps to, in the order of the day-set and joined with commas,
    followed by [;INTERVAL=1;UNTIL=] and the rendering of the boundary.
    For a day-set of weekday names the texts are the two-letter codes
    SU/MO/TU/WE/TH/FR/SA of the names.  A boundary that is not an instant
    is rendered as the library's text [Invalid DateTime].  A boundary
    instant (one whose wall-clock time occurs once) is rendered in UTC
    basic format: in a year of four digits, sixteen characters whose
    digits read back as year, month, day, hour and minute of the instant
    on the UTC clock (the numbers the UTC export gives for an instant)
    and its second.  The boundary the parsers compute is no instant or
    the last millisecond of a day of the zone, and that is
    rendered as the date of the next day followed by 03:59:59 when the
    day ends on daylight time and 04:59:59 when it ends on standard time
    (04:56:01 on local mean time); under the rule in force since 2007 a
    day ends on daylight time from the second Sunday of March to the day
    before the first Sunday of November. *)
Theorem recurrence_rule_string (c : Course) (days : list string)
  (s e u : Luxon.DateTime) :
  day c = Some days -> start c = Some s -> end_ c = Some e -> until c = Some u ->
  let rule := ("FREQ=WEEKLY;BYDAY="
               ++ JS.join "," (map (fun d => memberText d (member dayToByday d)) days)
               ++ ";INTERVAL=1;UNTIL=" ++ toRRuleUntilUTC u)%string in
  (exists ev, LocalVariant.eventOf c = Some ev /\ ev_recurrenceRule ev = rule) /\
  (exists ev, UtcVariant.eventOf c = Some ev /\ ev_recurrenceRule ev = rule) /\
  (Forall (fun d => isWeekdayName d = true) days ->
   map (fun d => memberText d (member dayToByday d)) days = map twoLetterCode days) /\
  (u = Luxon.Invalid -> toRRuleUntilUTC u = "Invalid DateTime") /\
  (forall date, recurrenceBoundary date = Normal u ->
     u = Luxon.Invalid \/ exists dn, u = Luxon.Valid (endOfDay dn)) /\
  (forall t, u = Luxon.Valid t ->
     Luxon.inRepeatedHour t = false ->
     0 <= Luxon.yearOf (Luxon.utcTimestamp t) <= 9999 ->
     String.length (toRRuleUntilUTC u) = 16%nat /\
     exists y mo d h mi sec,
       readBasic (toRRuleUntilUTC u) = Some (y, mo, d, h, mi, sec) /\
       toICSArrayUTC u = [Fin y; Fin mo; Fin d; Fin h; Fin mi] /\
       Luxon.daysFromCivil y mo d * Luxon.msPerDay + h * Luxon.msPerHour
       + mi * Luxon.msPerMinute + sec * 1000
       = Luxon.utcTimestamp t - Luxon.utcTimestamp t mod 1000) /\
  (forall dn, u = Luxon.Valid (endOfDay dn) ->
     toRRuleUntilUTC u
     = (basicDate (dn + 1) ++ boundaryClock (Luxon.zoneTime (endOfDay dn)))%string /\
     (2007 <= Luxon.yearOf (dn * Luxon.msPerDay) ->
      Luxon.zoneTime (endOfDay dn)
      = if (Luxon.sundayFrom (Luxon.yearOf (dn * Luxon.msPerDay)) 3 8 <=? dn)
           && (dn <? Luxon.sundayFrom (Luxon.yearOf (dn * Luxon.msPerDay)) 11 1)
        then Luxon.Daylight else Luxon.Standard)).
Proof.
  intros Hd Hs He Hu rule.
  unfold LocalVariant.eventOf, UtcVariant.eventOf.
  rewrite Hd, Hs, He, Hu.
  assert (Hrule : rruleString days u = rule) by reflexivity.
  split; [eexists; split; [reflexivity|exact Hrule]|].
  split; [eexists; split; [reflexivity|exact Hrule]|].
  split; [apply dayToByday_codes|].
  split; [now intros ->|].
  split; [intros date; apply recurrenceBoundary_cases|].
  split.
  - intros t -> _ Hy. cbn [toRRuleUntilUTC toICSArrayUTC].
    apply formatBasic_fields. exact Hy.
  - intros dn ->. split; [apply boundary_in_utc|].
    intros Hy. now apply zoneTime_since_2007.
Qed.

Lemma recurrence_rule_string_witness :
  (exists ev, LocalVariant.eventOf exampleCourse = Some ev /\
              ev_recurrenceRule ev
              = "FREQ=WEEKLY;BYDAY=WE,MO;INTERVAL=1;UNTIL=20250426T035959Z") /\
  Forall (fun d => isWeekdayName d = true) ["Wednesday"; "Monday"] /\
  map (fun d => memberText d (member dayToByday d)) ["Wednesday"; "Monday"]
  = ["WE"; "MO"] /\
  readBasic (toRRuleUntilUTC (Luxon.Valid 1745625599999))
  = Some (2025, 4, 26, 3, 59, 59).
Proof.
  assert (Hnames : Forall (fun d => isWeekdayName d = true) ["Wednesday"; "Monday"])
    by (repeat constructor).
  destruct (recurrence_rule_string exampleCourse _ _ _ _
              eq_refl eq_refl eq_refl eq_refl)
    as ([ev [Hev Hr]] & _ & Hcodes & _ & _ & Hformat & _).
  split; [|split; [exact Hnames|split]].
  - exists ev. split; [exact Hev|]. rewrite Hr. vm_compute. reflexivity.
  - rewrite (Hcodes Hnames). reflexivity.
  - destruct (Hformat 1745625599999 eq_refl eq_refl
                ltac:(vm_compute; split; discriminate))
      as (_ & y & mo & d & h & mi & sec & Hread & _).
    rewrite Hread. vm_compute in Hread. injection Hread as <- <- <- <- <- <-.
    reflexivity.
Defined.

(** C7 as stated fails: a course that can be selected and is exported
    carries a boundary that is not an instant when the second date of
    its range is not a date, and its rule ends in the library's text for
    such a value, which is not in basic format.  Both parsers emit
    it. *)
Lemma rule_with_invalid_boundary :
  (exists c ev,
     LocalVariant.parseBody invalidBoundaryRows = Normal [c] /\
     enableRowSelection c = true /\
     until c = Some Luxon.Invalid /\
     LocalVariant.eventOf c = Some ev /\
     ev_recurrenceRule ev
     = "FREQ=WEEKLY;BYDAY=MO;INTERVAL=1;UNTIL=Invalid DateTime") /\
  (exists c ev,
     UtcVariant.parseBody invalidBoundaryRows = Normal [c] /\
     enableRowSelection c = true /\
     until c = Some Luxon.Invalid /\
     UtcVariant.eventOf c = Some ev /\
     ev_recurrenceRule ev
     = "FREQ=WEEKLY;BYDAY=MO;INTERVAL=1;UNTIL=Invalid DateTime") /\
  readBasic "Invalid DateTime" = None /\
  String.length "Invalid DateTime" = 16%nat.
Proof.
  split; [|split; [|split; reflexivity]];
    eexists _, _; (split; [vm_compute; reflexivity|]); repeat split.
Qed.

(** ** Weekday alignment *)

Lemma fold_min_le (l : list Z) (m : Z) : fold_left Z.min l m <= m.
Proof.
  revert m. induction l as [|x l IH]; intros m; simpl; [lia|].
  specialize (IH (Z.min m x)). lia.
Qed.

Lemma fold_min_lower (l : list Z) (m x : Z) :
  In x l -> fold_left Z.min l m <= x.
Proof.
  revert m. induction l as [|y l IH]; intros m H; simpl in *; [contradiction|].
  destruct H as [-> | H]; [|now apply IH].
  pose proof (fold_min_le l (Z.min m x)). lia.
Qed.

Lemma fold_min_in (l : list Z) (m : Z) :
  fold_left Z.min l m = m \/ In (fold_left Z.min l m) l.
Proof.
  revert m. induction l as [|x l IH]; intros m; simpl; [now left|].
  destruct (IH (Z.min m x)) as [H | H]; [|now right; right].
  rewrite H. destruct (Z.min_spec m x) as [[_ ->] | [_ ->]]; [now left|now right; left].
Qed.

Lemma minimum_in (l : list Z) : l <> [] -> In (minimum l) l.
Proof.
  destruct l as [|x xs]; [congruence|]. intros _. simpl.
  destruct (fold_min_in xs x) as [-> | H]; [now left|now right].
Qed.

Lemma minimum_le (l : list Z) (x : Z) : In x l -> minimum l <= x.
Proof.
  destruct l as [|y ys]; simpl; [contradiction|].
  intros [-> | H]; [apply fold_min_le|now apply fold_min_lower].
Qed.

Lemma weekdayOfDay_range (dn : Z) : 1 <= Luxon.weekdayOfDay dn <= 7.
Proof. unfold Luxon.weekdayOfDay. pose proof (Z.mod_pos_bound (dn + 3) 7). lia. Qed.

Lemma weekdayNumberOf_range (d : string) :
  isWeekdayName d = true -> 1 <= weekdayNumberOf d <= 7.
Proof. intros H. each_weekday H; vm_compute; split; discriminate. Qed.

Lemma targetWeekdays_names (days : list string) :
  Forall (fun d => isWeekdayName d = true) days ->
  targetWeekdays days = map weekdayNumberOf days.
Proof.
  induction 1 as [|d ds Hd _ IH]; [reflexivity|].
  unfold targetWeekdays in *. simpl. rewrite IH. f_equal.
  each_weekday Hd; reflexivity.
Qed.

(** The remainder the code takes is the mathematical one. *)
Lemma deltaTo_daysForward (w t : Z) :
  1 <= w <= 7 -> 1 <= t <= 7 -> deltaTo (Fin w) t = Fin (daysForward w t).
Proof.
  intros Hw Ht. unfold deltaTo, daysForward. f_equal.
  rewrite Z.rem_mod_nonneg by lia.
  replace (t - w + 7) with (t - w + 1 * 7) by lia.
  now rewrite Z.mod_add by lia.
Qed.

Lemma minDelta_fold (w : Z) (targets : list Z) (m : Z) :
  1 <= w <= 7 -> Forall (fun t => 1 <= t <= 7) targets ->
  fold_left (fun minDelta target =>
               let delta := deltaTo (Fin w) target in
               if js_lt delta minDelta then delta else minDelta)
            targets (Fin m)
  = Fin (fold_left Z.min (map (daysForward w) targets) m).
Proof.
  intros Hw H. revert m. induction H as [|t ts Ht _ IH]; intros m; [reflexivity|].
  cbn [fold_left map]. cbv zeta. rewrite (deltaTo_daysForward w t Hw Ht).
  cbn [js_lt]. destruct (Z.ltb_spec (daysForward w t) m).
  - rewrite IH. now rewrite Z.min_r by lia.
  - rewrite IH. now rewrite Z.min_l by lia.
Qed.

(** The loop of [alignToFirstMatchingWeekday] computes the least number
    of days forward to a target weekday. *)
Lemma minDeltaFrom_minimum (w : Z) (targets : list Z) :
  1 <= w <= 7 -> Forall (fun t => 1 <= t <= 7) targets -> targets <> [] ->
  minDeltaFrom (Fin w) targets = Fin (minimum (map (daysForward w) targets)).
Proof.
  intros Hw H Hne. destruct targets as [|t ts]; [congruence|].
  unfold minDeltaFrom. cbn [fold_left map minimum]. cbv zeta.
  inversion H; subst.
  rewrite (deltaTo_daysForward w t Hw) by assumption.
  cbn [js_lt]. now apply minDelta_fold.
Qed.

Lemma dayNumber_shift (s k : Z) :
  Luxon.dayNumber (s + k * Luxon.msPerDay) = Luxon.dayNumber s + k.
Proof. unfold Luxon.dayNumber, Luxon.msPerDay. now rewrite Z.div_add by lia. Qed.

Lemma msOfDay_shift (s k : Z) :
  Luxon.msOfDay (s + k * Luxon.msPerDay) = Luxon.msOfDay s.
Proof. unfold Luxon.msOfDay, Luxon.msPerDay. now rewrite Z.mod_add by lia. Qed.

Lemma dayNumber_aligned (dn : Z) : Luxon.dayNumber (dn * Luxon.msPerDay) = dn.
Proof. unfold Luxon.dayNumber, Luxon.msPerDay. now rewrite Z.div_mul by lia. Qed.

(** Moving forward by the days to a target lands on the target. *)
Lemma weekday_after_shift (dn t : Z) :
  1 <= t <= 7 ->
  Luxon.weekdayOfDay (dn + daysForward (Luxon.weekdayOfDay dn) t) = t.
Proof.
  intros Ht. unfold daysForward, Luxon.weekdayOfDay.
  pose proof (Z.mod_pos_bound (dn + 3) 7 ltac:(lia)) as Hb.
  pose proof (Z.div_mod (dn + 3) 7 ltac:(lia)) as Hd.
  set (r := (dn + 3) mod 7) in *.
  set (q := (dn + 3) / 7) in *.
  pose proof (Z.mod_pos_bound (t - (r + 1)) 7 ltac:(lia)) as Hb2.
  pose proof (Z.div_mod (t - (r + 1)) 7 ltac:(lia)) as Hd2.
  set (k := (t - (r + 1)) mod 7) in *.
  set (q2 := (t - (r + 1)) / 7) in *.
  assert (E : dn + k + 3 = (t - 1) + (q - q2) * 7) by lia.
  rewrite E, Z.mod_add by lia.
  rewrite Z.mod_small by lia. lia.
Qed.

Lemma recurrenceBoundary_normal (date : option string) :
  recurrenceBoundary date
  = Normal (Luxon.minusMillis
              (shiftDays 1 (Luxon.fromFormat (JS.template date) "MM/dd/yyyy")) 1).
Proof.
  unfold recurrenceBoundary.
  destruct (Luxon.fromFormat (JS.template date) "MM/dd/yyyy"); reflexivity.
Qed.

(** The alignment step on a valid start and a finite shift. *)
Lemma alignBoth_valid (s : Z) (endLocal : Luxon.DateTime) (days : list string)
  (k : Z) :
  days <> [] ->
  minDeltaFrom (Fin (Luxon.weekdayOfDay (Luxon.dayNumber s))) (targetWeekdays days)
  = Fin k ->
  alignBoth (Luxon.Valid s) endLocal days
  = Normal (shiftDays k (Luxon.Valid s), shiftDays k endLocal).
Proof.
  intros Hne Hk. unfold alignBoth, alignToFirstMatchingWeekday.
  destruct days as [|d ds]; [congruence|].
  cbn [Luxon.weekday]. rewrite Hk. cbn [Luxon.plusDays bindC Luxon.startOfDay
    Luxon.diffDays].
  rewrite !dayNumber_aligned, skipGap_dayNumber, dayNumber_shift.
  replace (Luxon.dayNumber s + k - Luxon.dayNumber s) with k by lia.
  cbn [Luxon.plusDays bindC].
  destruct endLocal; reflexivity.
Qed.

Lemma shiftDays_zero (dt : Luxon.DateTime) (k : Z) :
  shiftDays 0 (shiftDays k dt) = shiftDays k dt.
Proof.
  destruct dt as [t|]; [|reflexivity]. cbn [shiftDays].
  rewrite Z.mul_0_l, Z.add_0_r. now rewrite skipGap_idempotent.
Qed.

(** What the library's shift by days does to a valid instant: the day
    moves by the number of days, and the time of day is kept unless it
    falls in a skipped hour, which is the third hour of a day. *)
Lemma shiftDays_valid (k t : Z) :
  exists t',
    shiftDays k (Luxon.Valid t) = Luxon.Valid t' /\
    Luxon.plusDays (Luxon.Valid t) (Fin k) = Normal (Luxon.Valid t') /\
    Luxon.dayNumber t' = Luxon.dayNumber t + k /\
    Luxon.msOfDay t'
    = (if Luxon.inSkippedHour (t + k * Luxon.msPerDay)
       then Luxon.msOfDay t + Luxon.msPerHour else Luxon.msOfDay t) /\
    (Luxon.msOfDay t < 2 * Luxon.msPerHour \/ 3 * Luxon.msPerHour <= Luxon.msOfDay t ->
     t' = t + k * Luxon.msPerDay) /\
    Luxon.inSkippedHour t' = false.
Proof.
  exists (Luxon.skipGap (t + k * Luxon.msPerDay)).
  split; [reflexivity|]. split; [reflexivity|].
  split; [now rewrite skipGap_dayNumber, dayNumber_shift|].
  split; [now rewrite skipGap_msOfDay, msOfDay_shift|].
  split; [|apply skipGap_exists].
  intros H. apply skipGap_outside. now rewrite msOfDay_shift.
Qed.

(** C1.  For a non-empty day-set of weekday names and a valid start
    instant, the alignment step moves the start and the end forward by
    the same number [k] of whole calendar days, each by the library's
    shift by days, where [k] is the minimum over the day-set of
    ((target weekday - start weekday) mod 7).  The date of each moves by
    exactly [k] days; the time of day is kept, except that a time which
    falls in the hour skipped at the start of daylight time on the day
    reached is moved one hour on.  The weekday of the moved start is the
    weekday of a member of the day-set, no smaller forward move reaches
    one, [k] is zero when the start's weekday is already in the day-set,
    and aligning the aligned instants again changes nothing. *)
Theorem weekday_alignment (days : list string) (s : Z)
  (endLocal : Luxon.DateTime) :
  days <> [] ->
  Forall (fun d => isWeekdayName d = true) days ->
  let w := Luxon.weekdayOfDay (Luxon.dayNumber s) in
  let k := minimum (map (fun d => (weekdayNumberOf d - w) mod 7) days) in
  let s' := Luxon.skipGap (s + k * Luxon.msPerDay) in
  alignBoth (Luxon.Valid s) endLocal days
  = Normal (Luxon.Valid s', shiftDays k endLocal) /\
  Luxon.plusDays (Luxon.Valid s) (Fin k) = Normal (Luxon.Valid s') /\
  Luxon.plusDays endLocal (Fin k) = Normal (shiftDays k endLocal) /\
  0 <= k < 7 /\
  Luxon.dayNumber s' = Luxon.dayNumber s + k /\
  Luxon.msOfDay s'
  = (if Luxon.inSkippedHour (s + k * Luxon.msPerDay)
     then Luxon.msOfDay s + Luxon.msPerHour else Luxon.msOfDay s) /\
  (Luxon.msOfDay s < 2 * Luxon.msPerHour \/ 3 * Luxon.msPerHour <= Luxon.msOfDay s ->
   s' = s + k * Luxon.msPerDay) /\
  (forall e, endLocal = Luxon.Valid e ->
     exists e',
       shiftDays k endLocal = Luxon.Valid e' /\
       Luxon.dayNumber e' = Luxon.dayNumber e + k /\
       Luxon.msOfDay e'
       = (if Luxon.inSkippedHour (e + k * Luxon.msPerDay)
          then Luxon.msOfDay e + Luxon.msPerHour else Luxon.msOfDay e) /\
       (Luxon.msOfDay e < 2 * Luxon.msPerHour \/ 3 * Luxon.msPerHour <= Luxon.msOfDay e ->
        e' = e + k * Luxon.msPerDay)) /\
  In (Luxon.weekdayOfDay (Luxon.dayNumber s')) (map weekdayNumberOf days) /\
  (forall j, 0 <= j < k ->
     ~ In (Luxon.weekdayOfDay (Luxon.dayNumber s + j)) (map weekdayNumberOf days)) /\
  (In w (map weekdayNumberOf days) -> k = 0) /\
  alignBoth (Luxon.Valid s') (shiftDays k endLocal) days
  = Normal (Luxon.Valid s', shiftDays k endLocal) /\
  (forall timeStrings dateStrings,
     parseLocal (nth_error dateStrings 0) (nth_error timeStrings 0) = Luxon.Valid s ->
     exists u,
       LocalVariant.resolveMeeting days timeStrings dateStrings
       = Normal (Luxon.Valid s',
                 shiftDays k (parseLocal (nth_error dateStrings 0)
                                         (nth_error timeStrings 1)),
                 u)).
Proof.
  intros Hne Hdays w k s'.
  assert (Hw : 1 <= w <= 7) by apply weekdayOfDay_range.
  assert (Hin : Forall (fun t => 1 <= t <= 7) (map weekdayNumberOf days)).
  { apply Forall_map. eapply Forall_impl; [|exact Hdays].
    intros d Hd. now apply weekdayNumberOf_range. }
  assert (Hk : k = minimum (map (daysForward w) (map weekdayNumberOf days))).
  { unfold k. now rewrite map_map. }
  assert (Hne' : map (daysForward w) (map weekdayNumberOf days) <> []).
  { destruct days; [congruence|discriminate]. }
  assert (Hmem : exists t, In t (map weekdayNumberOf days) /\ k = daysForward w t).
  { pose proof (minimum_in _ Hne') as H. rewrite <- Hk in H.
    apply in_map_iff in H. destruct H as [t [Ht Hi]]. now exists t. }
  assert (Hrange : 0 <= k < 7).
  { destruct Hmem as [t [_ ->]]. unfold daysForward. apply Z.mod_pos_bound. lia. }
  assert (Hleast : forall t, In t (map weekdayNumberOf days) -> k <= daysForward w t).
  { intros t Ht. rewrite Hk. apply minimum_le. now apply in_map. }
  assert (Hmin : forall days0 s0,
            days0 = days ->
            minDeltaFrom (Fin (Luxon.weekdayOfDay (Luxon.dayNumber s0)))
                         (targetWeekdays days0)
            = Fin (minimum (map (daysForward (Luxon.weekdayOfDay (Luxon.dayNumber s0)))
                                (map weekdayNumberOf days)))).
  { intros days0 s0 ->. rewrite (targetWeekdays_names _ Hdays).
    apply minDeltaFrom_minimum; [apply weekdayOfDay_range|exact Hin|].
    destruct days; [congruence|discriminate]. }
  destruct (shiftDays_valid k s) as (s0 & Hs0 & Hplus & Hday & Hms & Hout & _).
  cbn [shiftDays] in Hs0. injection Hs0 as Hs0. fold s' in Hs0. subst s0.
  assert (Hland : In (Luxon.weekdayOfDay (Luxon.dayNumber s')) (map weekdayNumberOf days)).
  { destruct Hmem as [t [Ht Hkt]]. rewrite Hday, Hkt.
    unfold w. rewrite weekday_after_shift; [exact Ht|].
    rewrite Forall_forall in Hin. now apply Hin. }
  assert (Hzero : forall s0,
            In (Luxon.weekdayOfDay (Luxon.dayNumber s0)) (map weekdayNumberOf days) ->
            minimum (map (daysForward (Luxon.weekdayOfDay (Luxon.dayNumber s0)))
                         (map weekdayNumberOf days)) = 0).
  { intros s0 H0.
    set (w0 := Luxon.weekdayOfDay (Luxon.dayNumber s0)) in *.
    assert (Hle : minimum (map (daysForward w0) (map weekdayNumberOf days)) <= 0).
    { replace 0 with (daysForward w0 w0)
        by (unfold daysForward; now rewrite Z.sub_diag).
      apply minimum_le. now apply in_map. }
    assert (Hne0 : map (daysForward w0) (map weekdayNumberOf days) <> []).
    { destruct days; [congruence|discriminate]. }
    pose proof (minimum_in _ Hne0) as Hm. apply in_map_iff in Hm.
    destruct Hm as [t [Ht _]].
    pose proof (Z.mod_pos_bound (t - w0) 7 ltac:(lia)) as Hb.
    unfold daysForward in Ht at 1. lia. }
  assert (Hal : forall e, alignBoth (Luxon.Valid s) e days
                          = Normal (Luxon.Valid s', shiftDays k e)).
  { intros e. rewrite (alignBoth_valid s e days k Hne); [reflexivity|].
    rewrite (Hmin days s eq_refl). f_equal. symmetry. exact Hk. }
  split; [apply Hal|].
  split; [exact Hplus|].
  split; [destruct endLocal; reflexivity|].
  split; [exact Hrange|].
  split; [exact Hday|].
  split; [exact Hms|].
  split; [exact Hout|].
  split.
  { intros e ->. destruct (shiftDays_valid k e) as (e' & H1 & _ & H2 & H3 & H4 & _).
    exists e'. repeat split; assumption. }
  split; [exact Hland|].
  split.
  { intros j Hj Hin_j.
    set (t := Luxon.weekdayOfDay (Luxon.dayNumber s + j)) in *.
    specialize (Hleast t Hin_j).
    assert (Ht : daysForward w t = j).
    { unfold daysForward, t, w, Luxon.weekdayOfDay.
      pose proof (Z.mod_pos_bound (Luxon.dayNumber s + 3) 7 ltac:(lia)) as Hb.
      pose proof (Z.div_mod (Luxon.dayNumber s + 3) 7 ltac:(lia)) as Hd.
      set (r := (Luxon.dayNumber s + 3) mod 7) in *.
      set (q := (Luxon.dayNumber s + 3) / 7) in *.
      replace (Luxon.dayNumber s + j + 3) with ((r + j) + q * 7) by lia.
      rewrite Z.mod_add by lia.
      pose proof (Z.mod_pos_bound (r + j) 7 ltac:(lia)) as Hb2.
      pose proof (Z.div_mod (r + j) 7 ltac:(lia)) as Hd2.
      set (r2 := (r + j) mod 7) in *.
      set (q2 := (r + j) / 7) in *.
      replace (r2 + 1 - (r + 1)) with (j + (- q2) * 7) by lia.
      rewrite Z.mod_add by lia. apply Z.mod_small. lia. }
    lia. }
  split.
  { intros Hw_in. rewrite Hk. now apply (Hzero s). }
  assert (Hk0 := Hzero s' Hland).
  split.
  { rewrite (alignBoth_valid s' (shiftDays k endLocal) days 0 Hne).
    - rewrite shiftDays_zero. f_equal. f_equal.
      change (Luxon.Valid s') with (shiftDays k (Luxon.Valid s)).
      apply shiftDays_zero.
    - rewrite (Hmin days s' eq_refl). now rewrite Hk0. }
  intros ts ds Hstart. unfold LocalVariant.resolveMeeting. cbv zeta.
  rewrite recurrenceBoundary_normal, Hstart, Hal. cbn [bindC fst snd].
  now eexists.
Qed.

Lemma weekday_alignment_witness :
  ["Wednesday"; "Friday"] <> [] /\
  Forall (fun d => isWeekdayName d = true) ["Wednesday"; "Friday"] /\
  alignBoth (parseLocal (Some "01/06/2025") (Some "09:00AM"))
            (parseLocal (Some "01/06/2025") (Some "09:50AM"))
            ["Wednesday"; "Friday"]
  = Normal (parseLocal (Some "01/08/2025") (Some "09:00AM"),
            parseLocal (Some "01/08/2025") (Some "09:50AM")).
Proof.
  assert (Hne : ["Wednesday"; "Friday"] <> []) by discriminate.
  assert (Hd : Forall (fun d => isWeekdayName d = true) ["Wednesday"; "Friday"])
    by (repeat constructor).
  split; [exact Hne|]. split; [exact Hd|].
  change (parseLocal (Some "01/06/2025") (Some "09:00AM"))
    with (Luxon.Valid 1736154000000).
  destruct (weekday_alignment ["Wednesday"; "Friday"] 1736154000000
              (parseLocal (Some "01/06/2025") (Some "09:50AM")) Hne Hd) as [H _].
  rewrite H. vm_compute. reflexivity.
Defined.

(** ** Recurrence boundary *)

(** What a valid reading of [MM/dd/yyyy] is: the civil midnight of the
    printed date, which is a date of the calendar. *)
Lemma fromFormat_date_valid (date : string) (t : Z) :
  Luxon.fromFormat date "MM/dd/yyyy" = Luxon.Valid t ->
  exists mo dd yy,
    Luxon.parseDateTokens date = Some (mo, dd, yy, EmptyString) /\
    Luxon.validDate yy mo dd = true /\
    t = Luxon.daysFromCivil yy mo dd * Luxon.msPerDay.
Proof.
  unfold Luxon.fromFormat. cbn [String.eqb Ascii.eqb Bool.eqb andb].
  unfold Luxon.fromDate.
  destruct (Luxon.parseDateTokens date) as [[[[mo dd] yy] rest]|]; [|discriminate].
  destruct rest; [|discriminate].
  destruct (Luxon.validDate yy mo dd) eqn:E; [|discriminate].
  intros H. injection H as <-. now exists mo, dd, yy.
Qed.

(** C2.  When the second date of the range reads as [MM/dd/yyyy], the
    recurrence boundary is the civil midnight of that date plus one day
    minus one millisecond: an instant of the same calendar day, at its
    last millisecond.  Every meeting the classifier-based variant
    resolves, and every time row the positional variant reads, with that
    second date carries this boundary as its [until]. *)
Theorem recurrence_boundary (date : string) (midnight : Z) :
  Luxon.fromFormat date "MM/dd/yyyy" = Luxon.Valid midnight ->
  let boundary := midnight + Luxon.msPerDay - 1 in
  (exists mo dd yy,
     Luxon.parseDateTokens date = Some (mo, dd, yy, EmptyString) /\
     Luxon.validDate yy mo dd = true /\
     midnight = Luxon.daysFromCivil yy mo dd * Luxon.msPerDay) /\
  recurrenceBoundary (Some date) = Normal (Luxon.Valid boundary) /\
  Luxon.msOfDay midnight = 0 /\
  Luxon.dayNumber boundary = Luxon.dayNumber midnight /\
  Luxon.msOfDay boundary = Luxon.msPerDay - 1 /\
  Luxon.dayNumber (boundary + 1) = Luxon.dayNumber midnight + 1 /\
  (forall days timeStrings dateStrings s e u,
     nth_error dateStrings 1 = Some date ->
     LocalVariant.resolveMeeting days timeStrings dateStrings = Normal (s, e, u) ->
     u = Luxon.Valid boundary) /\
  (forall c current row c',
     nth_error current 1 = Some date ->
     UtcVariant.timeRow c current row = Normal c' ->
     until c' = Some (Luxon.Valid boundary)).
Proof.
  intros Hparse boundary.
  destruct (fromFormat_date_valid date midnight Hparse) as (mo & dd & yy & Hp & Hv & Hm).
  assert (Hb : recurrenceBoundary (Some date) = Normal (Luxon.Valid boundary)).
  { rewrite recurrenceBoundary_normal. cbn [JS.template]. rewrite Hparse.
    cbn [shiftDays Luxon.minusMillis]. unfold boundary. rewrite Hm.
    replace (Luxon.daysFromCivil yy mo dd * Luxon.msPerDay + 1 * Luxon.msPerDay)
      with ((Luxon.daysFromCivil yy mo dd + 1) * Luxon.msPerDay) by lia.
    rewrite skipGap_midnight. f_equal; f_equal; lia. }
  split; [now exists mo, dd, yy|].
  split; [exact Hb|].
  assert (Hmid : Luxon.msOfDay midnight = 0).
  { rewrite Hm. unfold Luxon.msOfDay, Luxon.msPerDay. apply Z.mod_mul. lia. }
  assert (Hdn : Luxon.dayNumber midnight = Luxon.daysFromCivil yy mo dd).
  { rewrite Hm. apply dayNumber_aligned. }
  unfold boundary. rewrite Hm.
  unfold Luxon.dayNumber, Luxon.msOfDay, Luxon.msPerDay in *.
  set (dn := Luxon.daysFromCivil yy mo dd) in *.
  split; [rewrite Hm in Hmid; exact Hmid|].
  split.
  { rewrite Z.div_mul by lia.
    replace (dn * 86400000 + 86400000 - 1) with (86399999 + dn * 86400000) by lia.
    rewrite Z.div_add by lia. reflexivity. }
  split.
  { replace (dn * 86400000 + 86400000 - 1) with (86399999 + dn * 86400000) by lia.
    rewrite Z.mod_add by lia. reflexivity. }
  split.
  { rewrite Z.div_mul by lia.
    replace (dn * 86400000 + 86400000 - 1 + 1) with ((dn + 1) * 86400000) by lia.
    now rewrite Z.div_mul by lia. }
  split.
  - intros days ts ds s e u Hnth Hres. unfold LocalVariant.resolveMeeting in Hres.
    rewrite Hnth, Hb in Hres. cbn [bindC] in Hres.
    destruct (alignBoth _ _ _) as [[s' e']|]; [|discriminate].
    cbn [bindC fst snd] in Hres. injection Hres as _ _ <-.
    unfold boundary. now rewrite Hm.
  - intros c current row c' Hnth Hrow. unfold UtcVariant.timeRow in Hrow.
    rewrite Hnth, Hb in Hrow. cbn [bindC] in Hrow.
    match type of Hrow with
    | bindC ?x _ = _ => destruct x as [[s' e']|]; [|discriminate]
    end.
    cbn [bindC] in Hrow. injection Hrow as <-. cbn [until].
    unfold boundary. now rewrite Hm.
Qed.

Lemma recurrence_boundary_witness :
  Luxon.fromFormat "04/25/2025" "MM/dd/yyyy" = Luxon.Valid 1745539200000 /\
  recurrenceBoundary (Some "04/25/2025") = Normal (Luxon.Valid 1745625599999) /\
  toRRuleUntilUTC (Luxon.Valid 1745625599999) = "20250426T035959Z".
Proof.
  assert (H : Luxon.fromFormat "04/25/2025" "MM/dd/yyyy" = Luxon.Valid 1745539200000)
    by (vm_compute; reflexivity).
  split; [exact H|].
  destruct (recurrence_boundary "04/25/2025" 1745539200000 H) as (_ & Hb & _).
  split; [exact Hb|]. vm_compute. reflexivity.
Defined.

(** ** Meeting finalization (classifier-based variant) *)

Lemma minDelta_fold_fin (w : Z) (targets : list Z) (m : Z) :
  exists k,
    fold_left (fun minDelta target =>
                 let delta := deltaTo (Fin w) target in
                 if js_lt delta minDelta then delta else minDelta)
              targets (Fin m) = Fin k.
Proof.
  revert m. induction targets as [|t ts IH]; intros m; [now exists m|].
  cbn [fold_left deltaTo js_lt]. cbv zeta.
  destruct (Z.rem (t - w + 7) 7 <? m); apply IH.
Qed.

Lemma minDeltaFrom_cases (w : Z) (targets : list Z) :
  (targets = [] /\ minDeltaFrom (Fin w) targets = PosInf) \/
  (targets <> [] /\ exists k, minDeltaFrom (Fin w) targets = Fin k).
Proof.
  destruct targets as [|t ts]; [now left|]. right. split; [discriminate|].
  unfold minDeltaFrom. cbn [fold_left deltaTo js_lt]. cbv zeta.
  apply minDelta_fold_fin.
Qed.

Lemma alignBoth_thrown_iff (startLocal endLocal : Luxon.DateTime)
  (days : list string) :
  alignBoth startLocal endLocal days = Thrown <->
  (Luxon.isValid startLocal = true /\ days <> [] /\ targetWeekdays days = []) \/
  (Luxon.isValid startLocal = false /\ Luxon.isValid endLocal = true).
Proof.
  unfold alignBoth, alignToFirstMatchingWeekday.
  destruct startLocal as [s|].
  - destruct days as [|d ds].
    + cbn [bindC Luxon.startOfDay Luxon.diffDays Luxon.plusDays Luxon.isValid].
      destruct endLocal; cbn [bindC Luxon.plusDays];
        (split; [discriminate|intros [(_ & H & _) | (H & _)]; congruence]).
    + cbn [Luxon.weekday Luxon.isValid].
      destruct (minDeltaFrom_cases (Luxon.weekdayOfDay (Luxon.dayNumber s))
                  (targetWeekdays (d :: ds))) as [[E ->] | [E [k ->]]].
      * cbn [Luxon.plusDays bindC]. split; [intros _|reflexivity].
        left. repeat split; [discriminate|exact E].
      * cbn [bindC Luxon.startOfDay Luxon.diffDays Luxon.plusDays].
        destruct endLocal; cbn [bindC Luxon.plusDays];
          (split; [discriminate|intros [(_ & _ & H) | (H & _)]; congruence]).
  - assert (E : alignToFirstMatchingWeekday Luxon.Invalid days = Normal Luxon.Invalid)
      by (destruct days; reflexivity).
    unfold alignToFirstMatchingWeekday in E. rewrite E.
    cbn [bindC Luxon.startOfDay Luxon.diffDays Luxon.plusDays Luxon.isValid].
    destruct endLocal; cbn [bindC Luxon.plusDays Luxon.isValid].
    + split; [intros _; now right|reflexivity].
    + split; [discriminate|intros [(H & _) | (_ & H)]; discriminate].
Qed.

Lemma resolveMeeting_thrown_iff (days timeStrings dateStrings : list string) :
  LocalVariant.resolveMeeting days timeStrings dateStrings = Thrown <->
  resolutionRaises days timeStrings dateStrings.
Proof.
  unfold LocalVariant.resolveMeeting, resolutionRaises. cbv zeta.
  rewrite recurrenceBoundary_normal. cbn [bindC].
  rewrite <- alignBoth_thrown_iff.
  destruct (alignBoth _ _ _) as [[s e]|]; cbn [bindC]; split; congruence.
Qed.

(** [finalizeMeeting], case by case. *)
Lemma finalizeMeeting_ready (st : LocalVariant.ParseState)
  (base : LocalVariant.Base) (pm : Meeting.t) (days timeStrings : list string) :
  LocalVariant.baseCourse st = Some base ->
  LocalVariant.pendingMeeting st = Some pm ->
  Meeting.day pm = Some days ->
  Meeting.timeStrings pm = Some timeStrings ->
  (2 <= List.length
          (LocalVariant.chosenDateStrings pm (LocalVariant.currentDateStrings st)))%nat ->
  LocalVariant.finalizeMeeting st =
  r <- LocalVariant.resolveMeeting days timeStrings
         (LocalVariant.chosenDateStrings pm (LocalVariant.currentDateStrings st)) ;;
  Normal (LocalVariant.mkState (LocalVariant.currentDateStrings st)
            (LocalVariant.parsedCourses st ++ [emittedCourse base pm days r])
            (LocalVariant.baseCourse st) None).
Proof.
  intros Hb Hp Hd Ht Hl. unfold LocalVariant.finalizeMeeting.
  rewrite Hb, Hp, Hd, Ht.
  replace (List.length _ <? 2)%nat with false
    by (symmetry; apply Nat.ltb_ge; exact Hl).
  destruct (LocalVariant.resolveMeeting _ _ _) as [[[s e] u]|]; reflexivity.
Qed.

Lemma app_one_not_self {A : Type} (l : list A) (a : A) : l <> l ++ [a].
Proof.
  intros H. apply (f_equal (@List.length A)) in H.
  rewrite length_app in H. simpl in H. lia.
Qed.

(** The date-range strings a meeting is resolved with, in words: its
    own when they have two entries; otherwise the carried ones, which
    count only when they have two entries. *)
Lemma chosenDateStrings_cases (pm : Meeting.t) (current : list string) :
  let chosen := LocalVariant.chosenDateStrings pm current in
  (forall own, Meeting.dateStrings pm = Some own ->
               (2 <= List.length own)%nat -> chosen = own) /\
  ((forall own, Meeting.dateStrings pm = Some own -> (List.length own < 2)%nat) ->
   ((2 <= List.length current)%nat -> chosen = current) /\
   ((List.length current < 2)%nat -> chosen = [])).
Proof.
  unfold LocalVariant.chosenDateStrings. cbv zeta. split.
  - intros own -> H. apply Nat.leb_le in H. now rewrite H.
  - intros Hown.
    assert (E : (match Meeting.dateStrings pm with
                 | Some ds => if (2 <=? List.length ds)%nat then ds
                              else if (2 <=? List.length current)%nat
                                   then current else []
                 | None => if (2 <=? List.length current)%nat then current else []
                 end) = if (2 <=? List.length current)%nat then current else []).
    { destruct (Meeting.dateStrings pm) as [own|]; [|reflexivity].
      specialize (Hown own eq_refl).
      replace (2 <=? List.length own)%nat with false; [reflexivity|].
      symmetry. apply Nat.leb_gt. exact Hown. }
    rewrite E. split; intros H.
    + apply Nat.leb_le in H. now rewrite H.
    + apply Nat.leb_gt in H. now rewrite H.
Qed.

(** A state that [finalizeMeeting] leaves as it is has emitted
    nothing. *)
Lemma unchanged_not_emitted (st : LocalVariant.ParseState) :
  LocalVariant.finalizeMeeting st = Normal st ->
  forall st' c,
    LocalVariant.finalizeMeeting st = Normal st' ->
    LocalVariant.parsedCourses st' = LocalVariant.parsedCourses st ++ [c] ->
    False.
Proof.
  intros Hfin st' c H1 H2. rewrite Hfin in H1. injection H1 as <-.
  now apply app_one_not_self in H2.
Qed.

(** What follows a finalization that left the state as it is: the
    meeting is discarded, with no course, by a course header row that
    comes next, and at the end of the rows. *)
Lemma kept_meeting_discarded (st : LocalVariant.ParseState) :
  LocalVariant.finalizeMeeting st = Normal st ->
  (forall row st',
     LocalVariant.isHeaderRow row = true ->
     LocalVariant.processRow st row = Normal st' ->
     LocalVariant.parsedCourses st' = LocalVariant.parsedCourses st /\
     LocalVariant.pendingMeeting st' = None) /\
  (forall rows,
     LocalVariant.processRows LocalVariant.initialState rows = Normal st ->
     LocalVariant.parseBody rows = Normal (LocalVariant.parsedCourses st)).
Proof.
  intros Hfin. split.
  - intros row st' Hh Hrow. unfold LocalVariant.processRow in Hrow.
    rewrite Hh, Hfin in Hrow. cbn [bindC] in Hrow. injection Hrow as <-.
    split; reflexivity.
  - intros rows Hrows. unfold LocalVariant.parseBody.
    rewrite Hrows. cbn [bindC]. rewrite Hfin. reflexivity.
Qed.

(** The parts of the statement when the meeting is not resolved. *)
Ltac kept_meeting Hfin Hnr :=
  split; [|split; [|split]];
  [ split;
    [ intros (st' & c & H1 & H2);
      exfalso; exact (unchanged_not_emitted _ Hfin st' c H1 H2)
    | intros [H _]; now elim Hnr ]
  | intros H _; now elim Hnr
  | intros _; split; [exact Hfin|exact (kept_meeting_discarded _ Hfin)]
  | intros st' c H1 H2;
    exfalso; exact (unchanged_not_emitted _ Hfin st' c H1 H2) ].

(** C3, as the code has it.  For a pending meeting whose time strings,
    when it has any, are a pair and whose day-set, when it has one, is
    not empty: a finalization emits it as a course exactly when a base
    course is current, the meeting has a day-set, a time pair and
    date-range strings with at least two entries (its own when they have
    two, else the carried ones), and the date library raises no exception
    while its instants are resolved; when the library raises, the
    finalization fails.  The emitted course takes crn, title and details
    from the base course and day-set, campus, location and room from the
    meeting, and the pending meeting is cleared.  A meeting that fails
    one of the conditions gives no course and no error at that
    finalization and stays in progress as it is; it is discarded, with no
    course, when a course header row comes next or the rows end. *)
Theorem meeting_emitted_iff (st : LocalVariant.ParseState) (pm : Meeting.t) :
  LocalVariant.pendingMeeting st = Some pm ->
  Meeting.day pm <> Some [] ->
  timePairIfAny pm ->
  let dateStrings :=
    LocalVariant.chosenDateStrings pm (LocalVariant.currentDateStrings st) in
  ((exists st' c,
      LocalVariant.finalizeMeeting st = Normal st' /\
      LocalVariant.parsedCourses st' = LocalVariant.parsedCourses st ++ [c])
   <->
   readyToEmit st pm /\
   (forall days timeStrings,
      Meeting.day pm = Some days -> Meeting.timeStrings pm = Some timeStrings ->
      ~ resolutionRaises days timeStrings dateStrings)) /\
  (readyToEmit st pm ->
   (exists days timeStrings,
      Meeting.day pm = Some days /\ Meeting.timeStrings pm = Some timeStrings /\
      resolutionRaises days timeStrings dateStrings) ->
   LocalVariant.finalizeMeeting st = Thrown) /\
  (~ readyToEmit st pm ->
   LocalVariant.finalizeMeeting st = Normal st /\
   (forall row st',
      LocalVariant.isHeaderRow row = true ->
      LocalVariant.processRow st row = Normal st' ->
      LocalVariant.parsedCourses st' = LocalVariant.parsedCourses st /\
      LocalVariant.pendingMeeting st' = None) /\
   (forall rows,
      LocalVariant.processRows LocalVariant.initialState rows = Normal st ->
      LocalVariant.parseBody rows = Normal (LocalVariant.parsedCourses st))) /\
  (forall st' c,
     LocalVariant.finalizeMeeting st = Normal st' ->
     LocalVariant.parsedCourses st' = LocalVariant.parsedCourses st ++ [c] ->
     LocalVariant.pendingMeeting st' = None /\
     LocalVariant.currentDateStrings st' = LocalVariant.currentDateStrings st /\
     LocalVariant.baseCourse st' = LocalVariant.baseCourse st /\
     (exists base, LocalVariant.baseCourse st = Some base /\
                   crn c = LocalVariant.b_crn base /\
                   title c = LocalVariant.b_title base /\
                   details c = LocalVariant.b_details base) /\
     day c = Meeting.day pm /\ campus c = Meeting.campus pm /\
     location c = Meeting.location pm /\ room c = Meeting.room pm /\
     (exists days timeStrings,
        Meeting.day pm = Some days /\ Meeting.timeStrings pm = Some timeStrings /\
        LocalVariant.resolveMeeting days timeStrings dateStrings
        = Normal (match start c with Some s => s | None => Luxon.Invalid end,
                  match end_ c with Some e => e | None => Luxon.Invalid end,
                  match until c with Some u => u | None => Luxon.Invalid end) /\
        start c <> None /\ end_ c <> None /\ until c <> None)).
Proof.
  intros Hp Hday Hpair dateStrings.
  destruct (LocalVariant.baseCourse st) as [base|] eqn:Hb.
  2:{ assert (Hfin : LocalVariant.finalizeMeeting st = Normal st)
        by (unfold LocalVariant.finalizeMeeting; now rewrite Hb).
      assert (Hnr : ~ readyToEmit st pm) by (intros [H _]; congruence).
      kept_meeting Hfin Hnr. }
  destruct (Meeting.day pm) as [days|] eqn:Hd.
  2:{ assert (Hfin : LocalVariant.finalizeMeeting st = Normal st)
        by (unfold LocalVariant.finalizeMeeting; now rewrite Hb, Hp, Hd).
      assert (Hnr : ~ readyToEmit st pm)
        by (intros (_ & (d & H & _) & _); congruence).
      kept_meeting Hfin Hnr. }
  destruct (Meeting.timeStrings pm) as [ts|] eqn:Ht.
  2:{ assert (Hfin : LocalVariant.finalizeMeeting st = Normal st)
        by (unfold LocalVariant.finalizeMeeting; now rewrite Hb, Hp, Hd, Ht).
      assert (Hnr : ~ readyToEmit st pm)
        by (intros (_ & _ & (t & H & _) & _); congruence).
      kept_meeting Hfin Hnr. }
  destruct (Nat.lt_ge_cases (List.length dateStrings) 2) as [Hl | Hl].
  { assert (Hfin : LocalVariant.finalizeMeeting st = Normal st).
    { unfold LocalVariant.finalizeMeeting. rewrite Hb, Hp, Hd, Ht.
      fold dateStrings. apply Nat.ltb_lt in Hl. now rewrite Hl. }
    assert (Hnr : ~ readyToEmit st pm).
    { intros (_ & _ & _ & H). fold dateStrings in H. lia. }
    kept_meeting Hfin Hnr. }
  assert (Hready : readyToEmit st pm).
  { split; [congruence|]. split; [|split; [|exact Hl]].
    - exists days. split; [exact Hd|]. intros ->. now apply Hday.
    - exists ts. split; [exact Ht|]. now apply Hpair. }
  pose proof (finalizeMeeting_ready st base pm days ts Hb Hp Hd Ht Hl) as Hfin.
  fold dateStrings in Hfin.
  pose proof (resolveMeeting_thrown_iff days ts dateStrings) as Hthrow.
  destruct (LocalVariant.resolveMeeting days ts dateStrings) as [[[s e] u]|] eqn:Hres;
    cbn [bindC] in Hfin.
  - split; [|split; [|split]].
    + split.
      * intros _. split; [exact Hready|].
        intros days0 ts0 E1 E2. injection E1 as <-. injection E2 as <-.
        intros Hr. apply Hthrow in Hr. discriminate.
      * intros _. eexists _, _. split; [exact Hfin|reflexivity].
    + intros _ (days0 & ts0 & E1 & E2 & Hr).
      injection E1 as <-. injection E2 as <-.
      apply Hthrow in Hr. discriminate.
    + intros Hnr. now elim Hnr.
    + intros st' c H1 H2. rewrite Hfin in H1. injection H1 as <-.
      cbn [LocalVariant.parsedCourses] in H2.
      apply app_inv_head in H2. injection H2 as <-.
      cbn [LocalVariant.pendingMeeting LocalVariant.currentDateStrings
           LocalVariant.baseCourse emittedCourse crn title details day campus
           location room start end_ until].
      repeat (split; [reflexivity|]).
      split; [exact Hb|].
      split; [exists base; repeat split|].
      repeat (split; [reflexivity|]).
      exists days, ts. repeat split; try reflexivity; try exact Hres; discriminate.
  - split; [|split; [|split]].
    + split.
      * intros (st' & c & H1 & _). rewrite Hfin in H1. discriminate.
      * intros [_ Hno]. exfalso. apply (Hno days ts eq_refl eq_refl).
        now apply Hthrow.
    + intros _ _. exact Hfin.
    + intros Hnr. now elim Hnr.
    + intros st' c H1 _. rewrite Hfin in H1. discriminate.
Qed.

Example exampleState_reached :
  LocalVariant.processRows LocalVariant.initialState
    [["Intro to X"; "Lecture"; "3.0"; "12345"; "01/06/2025 - 04/25/2025"];
     ["Monday, Wednesday"]; ["09:00 AM - 09:50 AM"]]
  = Normal exampleState.
Proof. vm_compute. reflexivity. Qed.

Lemma meeting_emitted_iff_witness :
  LocalVariant.pendingMeeting exampleState = Some exampleMeeting /\
  Meeting.day exampleMeeting <> Some [] /\
  timePairIfAny exampleMeeting /\
  exists st' c,
    LocalVariant.finalizeMeeting exampleState = Normal st' /\
    LocalVariant.parsedCourses st' = LocalVariant.parsedCourses exampleState ++ [c].
Proof.
  assert (Hd : Meeting.day exampleMeeting <> Some []) by discriminate.
  assert (Ht : timePairIfAny exampleMeeting)
    by (intros ts H; injection H as <-; reflexivity).
  split; [reflexivity|]. split; [exact Hd|]. split; [exact Ht|].
  destruct (meeting_emitted_iff exampleState exampleMeeting eq_refl Hd Ht) as [[_ H] _].
  apply H. split.
  - split; [discriminate|]. split; [|split].
    + exists ["Monday"; "Wednesday"]. split; [reflexivity|discriminate].
    + exists ["09:00AM"; "09:50AM"]. split; reflexivity.
    + vm_compute. repeat constructor.
  - intros days ts Hdays Hts. injection Hdays as <-. injection Hts as <-.
    intros [(_ & _ & H0) | (H0 & _)]; vm_compute in H0; discriminate.
Defined.

(** C3 as stated fails, twice.  A pending meeting with a non-empty
    day-set, a time pair and two date-range strings is not emitted when
    no base course is current.  And a meeting that fails a condition at a
    finalization is not dropped: with one carried date string, the
    meeting of a course block gives no course when a date-range row
    finalizes it, stays in progress, takes the two dates of that row and
    is emitted at the end of the rows. *)
Lemma meeting_not_emitted_or_kept :
  (exists st pm,
     LocalVariant.processRows LocalVariant.initialState orphanRows = Normal st /\
     LocalVariant.pendingMeeting st = Some pm /\
     Meeting.day pm = Some ["Monday"] /\
     Meeting.timeStrings pm = Some ["09:00AM"; "09:50AM"] /\
     LocalVariant.chosenDateStrings pm (LocalVariant.currentDateStrings st)
     = ["01/06/2025"; "04/25/2025"] /\
     LocalVariant.finalizeMeeting st = Normal st /\
     LocalVariant.parseBody orphanRows = Normal [] /\
     ~ ((exists st' c,
           LocalVariant.finalizeMeeting st = Normal st' /\
           LocalVariant.parsedCourses st' = LocalVariant.parsedCourses st ++ [c])
        <->
        ((exists days, Meeting.day pm = Some days /\ days <> []) /\
         (exists timeStrings,
            Meeting.timeStrings pm = Some timeStrings /\
            List.length timeStrings = 2%nat) /\
         (2 <= List.length
                 (LocalVariant.chosenDateStrings pm
                    (LocalVariant.currentDateStrings st)))%nat))) /\
  (exists st pm c,
     LocalVariant.processRows LocalVariant.initialState (firstn 3 lateDateRows)
     = Normal st /\
     LocalVariant.pendingMeeting st = Some pm /\
     Meeting.day pm = Some ["Monday"] /\
     LocalVariant.chosenDateStrings pm (LocalVariant.currentDateStrings st) = [] /\
     JS.test JS.dateRangeRegex (rowText (nth 3 lateDateRows [])) = true /\
     LocalVariant.finalizeMeeting st = Normal st /\
     LocalVariant.parseBody lateDateRows = Normal [c] /\
     day c = Meeting.day pm /\
     title c = "Intro to X").
Proof.
  split.
  - exists (LocalVariant.mkState ["01/06/2025"; "04/25/2025"] [] None
              (Some (Meeting.mk (Some ["Monday"]) (Some ["09:00AM"; "09:50AM"])
                       None None None (Some ["01/06/2025"; "04/25/2025"])))).
    eexists.
    split; [vm_compute; reflexivity|].
    split; [reflexivity|].
    repeat (split; [reflexivity|]).
    intros [_ H].
    destruct H as (st' & c & H1 & H2).
    + split; [exists ["Monday"]; split; [reflexivity|discriminate]|].
      split; [exists ["09:00AM"; "09:50AM"]; split; reflexivity|].
      vm_compute. repeat constructor.
    + vm_compute in H1. injection H1 as <-.
      now apply app_one_not_self in H2.
  - eexists _, _, _.
    split; [vm_compute; reflexivity|].
    split; [reflexivity|].
    repeat (split; [vm_compute; reflexivity|]).
    reflexivity.
Qed.

(** A time row without a dash gives one time string: the meeting is
    resolved with an end that is not an instant. *)
Example time_row_without_dash :
  exists c,
    LocalVariant.parseBody
      [["Intro to X"; "Lecture"; "3.0"; "12345"; "01/06/2025 - 04/25/2025"];
       ["Monday"]; ["09:00 AM"]] = Normal [c] /\
    start c = Some (Luxon.Valid 1736154000000) /\
    end_ c = Some Luxon.Invalid.
Proof. eexists. split; [vm_compute; reflexivity|]. split; reflexivity. Qed.

(** A meeting that meets every condition and is still not emitted: the
    start, printed without a leading zero, is not read, the end is, and
    the date library rejects the shift of the end by a day count that is
    not a number. *)
Example resolution_exception_example :
  LocalVariant.parseBody
    [["Intro to X"; "Lecture"; "3.0"; "12345"; "01/06/2025 - 04/25/2025"];
     ["Monday"]; ["9:00 AM - 10:50 AM"]] = Thrown /\
  resolutionRaises ["Monday"] ["9:00AM"; "10:50AM"] ["01/06/2025"; "04/25/2025"].
Proof. split; [vm_compute; reflexivity|]. right. split; vm_compute; reflexivity. Qed.

(** ** What the parse appends (classifier-based variant) *)

Lemma trimmed_split_not_nil (sep : ascii) (text : string) :
  map JS.trim (JS.split sep text) <> [].
Proof.
  pose proof (split_not_nil sep text).
  destruct (JS.split sep text); [congruence|discriminate].
Qed.

Lemma finalizeMeeting_invariant (st st' : LocalVariant.ParseState) :
  loopInvariant st -> LocalVariant.finalizeMeeting st = Normal st' ->
  loopInvariant st' /\
  (LocalVariant.pendingMeeting st' = None \/ st' = st).
Proof.
  intros Hinv Hfin. unfold LocalVariant.finalizeMeeting in Hfin.
  destruct (LocalVariant.baseCourse st) as [base|];
    [|injection Hfin as <-; split; [exact Hinv|now right]].
  destruct (LocalVariant.pendingMeeting st) as [pm|] eqn:Ep;
    [|injection Hfin as <-; split; [exact Hinv|now right]].
  destruct (Meeting.day pm) as [days|] eqn:Ed;
    [|injection Hfin as <-; split; [exact Hinv|now right]].
  destruct (Meeting.timeStrings pm) as [ts|];
    [|injection Hfin as <-; split; [exact Hinv|now right]].
  destruct (List.length _ <? 2)%nat;
    [injection Hfin as <-; split; [exact Hinv|now right]|].
  destruct (LocalVariant.resolveMeeting _ _ _) as [[[s e] u]|]; [|discriminate].
  cbn [bindC] in Hfin. injection Hfin as <-.
  destruct Hinv as [Hcs Hpm].
  split; [|now left]. split; [|discriminate].
  cbn [LocalVariant.parsedCourses]. apply Forall_app. split; [exact Hcs|].
  constructor; [|constructor].
  specialize (Hpm pm Ep). rewrite Ed in Hpm.
  repeat split; cbn [day start end_ until]; try discriminate.
  destruct days as [|d ds]; [congruence|now exists d, ds].
Qed.

Lemma processRow_invariant (st st' : LocalVariant.ParseState) (row : list string) :
  loopInvariant st -> LocalVariant.processRow st row = Normal st' ->
  loopInvariant st'.
Proof.
  intros Hinv Hrow. unfold LocalVariant.processRow in Hrow.
  destruct (LocalVariant.isHeaderRow row).
  { destruct (LocalVariant.finalizeMeeting st) as [st1|] eqn:Hf; [|discriminate].
    cbn [bindC] in Hrow. injection Hrow as <-.
    destruct (finalizeMeeting_invariant _ _ Hinv Hf) as [[Hcs _] _].
    split; [exact Hcs|discriminate]. }
  destruct (JS.isEmpty _); [injection Hrow as <-; exact Hinv|].
  destruct (JS.test JS.dateRangeRegex _).
  { destruct (LocalVariant.finalizeMeeting st) as [st1|] eqn:Hf; [|discriminate].
    cbn [bindC] in Hrow. injection Hrow as <-.
    destruct (finalizeMeeting_invariant _ _ Hinv Hf) as [[Hcs Hpm] _].
    split; [exact Hcs|].
    cbn [LocalVariant.pendingMeeting]. intros pm E. injection E as <-.
    cbn [Meeting.day]. unfold LocalVariant.spread.
    destruct (LocalVariant.pendingMeeting st1) as [m|] eqn:Em;
      [now apply Hpm|discriminate]. }
  destruct (LocalVariant.isDayRow _).
  { match type of Hrow with
    | bindC ?x _ = _ => destruct x as [st1|] eqn:Hf; [|discriminate]
    end.
    cbn [bindC] in Hrow. injection Hrow as <-.
    assert (Hcs : Forall complete (LocalVariant.parsedCourses st1)).
    { destruct (LocalVariant.pendingMeeting st) as [pm|];
        [|injection Hf as <-; apply Hinv].
      destruct (Meeting.day pm); [|injection Hf as <-; apply Hinv].
      destruct (Meeting.timeStrings pm); [|injection Hf as <-; apply Hinv].
      now destruct (finalizeMeeting_invariant _ _ Hinv Hf) as [[H _] _]. }
    split; [exact Hcs|].
    cbn [LocalVariant.setPending LocalVariant.pendingMeeting].
    intros pm E. injection E as <-. cbn [Meeting.day].
    intros E. injection E as E. now apply trimmed_split_not_nil in E. }
  destruct Hinv as [Hcs Hpm].
  assert (Hspread : Meeting.day (LocalVariant.spread (LocalVariant.pendingMeeting st))
                    <> Some []).
  { unfold LocalVariant.spread.
    destruct (LocalVariant.pendingMeeting st) as [m|]; [now apply Hpm|discriminate]. }
  destruct (LocalVariant.isTimeRow _).
  { injection Hrow as <-. split; [exact Hcs|].
    cbn [LocalVariant.setPending LocalVariant.pendingMeeting].
    intros pm E. injection E as <-. exact Hspread. }
  destruct (LocalVariant.locationCandidate _ _ _);
    [|injection Hrow as <-; now split].
  destruct (LocalVariant.hasAsterisk _ || LocalVariant.hasRoomNumber _);
    [|injection Hrow as <-; now split].
  injection Hrow as <-. split; [exact Hcs|].
  cbn [LocalVariant.setPending LocalVariant.pendingMeeting].
  intros pm E. injection E as <-. unfold LocalVariant.locationDraft.
  destruct (split3 _ _) as [[[l m] r]|]; exact Hspread.
Qed.

Lemma processRows_invariant (rows : list (list string))
  (st st' : LocalVariant.ParseState) :
  loopInvariant st -> LocalVariant.processRows st rows = Normal st' ->
  loopInvariant st'.
Proof.
  revert st. induction rows as [|row rows IH]; intros st Hinv H; simpl in H.
  - now injection H as <-.
  - destruct (LocalVariant.processRow st row) as [st1|] eqn:E; [|discriminate].
    cbn [bindC] in H. eapply IH; [|exact H].
    eapply processRow_invariant; eassumption.
Qed.

(** Every state the loop reaches from the initial one carries only
    non-empty day-sets. *)
Lemma reached_day_sets_not_empty (rows : list (list string))
  (st : LocalVariant.ParseState) (pm : Meeting.t) :
  LocalVariant.processRows LocalVariant.initialState rows = Normal st ->
  LocalVariant.pendingMeeting st = Some pm ->
  Meeting.day pm <> Some [].
Proof.
  intros H. apply (processRows_invariant rows LocalVariant.initialState st); [|exact H].
  split; [constructor|discriminate].
Qed.

Lemma complete_exports (c : Course) :
  complete c ->
  enableRowSelection c = true /\ LocalVariant.eventOf c <> None.
Proof.
  intros ((d & ds & Hd) & Hs & He & Hu).
  unfold enableRowSelection, LocalVariant.eventOf. rewrite Hd.
  destruct (start c); [|congruence]. destruct (end_ c); [|congruence].
  destruct (until c); [|congruence]. split; [reflexivity|discriminate].
Qed.

(** The courses of a parsed table body are complete. *)
Lemma parseBody_complete (validRows : list (list string)) (cs : list Course) :
  LocalVariant.parseBody validRows = Normal cs -> Forall complete cs.
Proof.
  intros H. unfold LocalVariant.parseBody in H.
  destruct (LocalVariant.processRows _ _) as [st|] eqn:Hrows; [|discriminate].
  cbn [bindC] in H.
  destruct (LocalVariant.finalizeMeeting st) as [st'|] eqn:Hfin; [|discriminate].
  cbn [bindC] in H. injection H as <-.
  assert (Hinv : loopInvariant st).
  { apply (processRows_invariant validRows LocalVariant.initialState); [|exact Hrows].
    split; [constructor|discriminate]. }
  now destruct (finalizeMeeting_invariant _ _ Hinv Hfin) as [[Hcs _] _].
Qed.

(** The upload handler either leaves the course list as it was or
    replaces it by complete courses. *)
Lemma handleRows_courses (app : App) (allRows : list (list string)) :
  courses (after (LocalVariant.handleRows app allRows)) = courses app \/
  Forall complete (courses (after (LocalVariant.handleRows app allRows))).
Proof.
  unfold LocalVariant.handleRows.
  destruct (findIndex (firstCellIs "Title") allRows) as [h|]; [|now left].
  destruct (findIndex (firstCellIs "Total Hours") allRows) as [t|]; [|now left].
  destruct (t <=? h)%nat; [now left|].
  assert (Hname : forall line, courses (setFilename line app) = courses app)
    by (intros [l|]; reflexivity).
  destruct (slice (h + 1) t allRows) as [|row rows]; [left; apply Hname|].
  destruct (LocalVariant.parseBody (row :: rows)) as [cs|] eqn:E.
  - right. cbn [after setCourses courses]. now apply parseBody_complete in E.
  - left. apply Hname.
Qed.

(** C10.  Every course the classifier-based parse appends has its
    day-set (a non-empty one), start, end and until all present; so each
    parsed course that the selection precondition admits yields an event,
    and for every selection of admitted parsed courses the export stage
    builds as many events as courses: the check of [until] excludes
    none. *)
Theorem parsed_courses_complete (validRows : list (list string))
  (cs : list Course) :
  LocalVariant.parseBody validRows = Normal cs ->
  Forall (fun c => day c <> None /\ start c <> None /\
                   end_ c <> None /\ until c <> None) cs /\
  Forall (fun c => enableRowSelection c = true ->
                   LocalVariant.eventOf c <> None) cs /\
  (forall selected,
     incl selected cs ->
     Forall (fun c => enableRowSelection c = true) selected ->
     List.length (LocalVariant.events selected) = List.length selected).
Proof.
  intros H. apply parseBody_complete in H. rename H into Hcs.
  split; [|split].
  - eapply Forall_impl; [|exact Hcs].
    intros c ((d & ds & Hd) & Hs & He & Hu). rewrite Hd.
    repeat split; try assumption. discriminate.
  - eapply Forall_impl; [|exact Hcs].
    intros c Hc _. now apply complete_exports.
  - intros selected Hincl _. rewrite Forall_forall in Hcs.
    induction selected as [|c sel IH]; [reflexivity|].
    unfold LocalVariant.events in *. cbn [flat_map].
    rewrite length_app, IH by (intros x Hx; apply Hincl; now right).
    destruct (complete_exports c (Hcs c (Hincl c (or_introl eq_refl)))) as [_ Hev].
    destruct (LocalVariant.eventOf c); [reflexivity|congruence].
Qed.

Lemma parsed_courses_complete_witness :
  LocalVariant.parseBody
    [["Intro to X"; "Lecture"; "3.0"; "12345"; "01/06/2025 - 04/25/2025"];
     ["Monday, Wednesday"]; ["09:00 AM - 09:50 AM"]]
  = Normal [mkCourse (NumberOf "12345") "Intro to X" "Lecture"
              (Some (Luxon.Valid 1736154000000)) (Some (Luxon.Valid 1736157000000))
              (Some (Luxon.Valid 1745625599999))
              (Some ["Monday"; "Wednesday"]) None None None] /\
  List.length
    (LocalVariant.events
       [mkCourse (NumberOf "12345") "Intro to X" "Lecture"
          (Some (Luxon.Valid 1736154000000)) (Some (Luxon.Valid 1736157000000))
          (Some (Luxon.Valid 1745625599999))
          (Some ["Monday"; "Wednesday"]) None None None]) = 1%nat.
Proof.
  assert (H : LocalVariant.parseBody
    [["Intro to X"; "Lecture"; "3.0"; "12345"; "01/06/2025 - 04/25/2025"];
     ["Monday, Wednesday"]; ["09:00 AM - 09:50 AM"]]
  = Normal [mkCourse (NumberOf "12345") "Intro to X" "Lecture"
              (Some (Luxon.Valid 1736154000000)) (Some (Luxon.Valid 1736157000000))
              (Some (Luxon.Valid 1745625599999))
              (Some ["Monday"; "Wednesday"]) None None None])
    by (vm_compute; reflexivity).
  split; [exact H|].
  destruct (parsed_courses_complete _ _ H) as (_ & _ & Hsel).
  apply (Hsel _ (incl_refl _)). repeat constructor.
Defined.

(** ** Layout reconstruction *)

Lemma rowAt_pushCell (k y : Z) (c : Cell) (m : RowsMap) :
  rowAt k (pushCell y c m) = if y =? k then rowAt k m ++ [c] else rowAt k m.
Proof.
  induction m as [|[k0 cs] m IH]; simpl.
  - now destruct (y =? k).
  - destruct (Z.eqb_spec k0 y) as [-> | Hne]; simpl.
    + now destruct (y =? k).
    + destruct (Z.eqb_spec k0 k) as [-> | Hk].
      * destruct (Z.eqb_spec y k); [congruence|reflexivity].
      * exact IH.
Qed.

Lemma rowAt_fold (k : Z) (items : list Item) (m : RowsMap) :
  rowAt k (fold_left addItem items m) = rowAt k m ++ cellsAt k items.
Proof.
  revert m. induction items as [|item items IH]; intros m; simpl.
  - now rewrite app_nil_r.
  - rewrite IH. destruct item as [x y s|]; simpl; [|reflexivity].
    rewrite rowAt_pushCell. destruct (mathRound y =? k); simpl.
    + now rewrite <- app_assoc.
    + reflexivity.
Qed.

(** A group of the map holds the cells of its rounded baseline. *)
Lemma rowAt_buildRowsMap (k : Z) (items : list Item) :
  rowAt k (buildRowsMap items) = cellsAt k items.
Proof. unfold buildRowsMap. now rewrite rowAt_fold. Qed.

Lemma keys_pushCell (y : Z) (c : Cell) (m : RowsMap) :
  (In y (map fst m) /\ map fst (pushCell y c m) = map fst m) \/
  (~ In y (map fst m) /\ map fst (pushCell y c m) = map fst m ++ [y]).
Proof.
  induction m as [|[k0 cs] m IH]; simpl.
  - right. split; [tauto|reflexivity].
  - destruct (Z.eqb_spec k0 y) as [-> | Hne]; simpl.
    + left. split; [now left|reflexivity].
    + destruct IH as [[Hin E] | [Hin E]]; rewrite E.
      * left. split; [now right|reflexivity].
      * right. split; [|reflexivity]. intros [H | H]; [congruence|tauto].
Qed.

Lemma keys_fold (items : list Item) (m : RowsMap) :
  NoDup (map fst m) ->
  NoDup (map fst (fold_left addItem items m)) /\
  (forall k, In k (map fst (fold_left addItem items m)) <->
             In k (map fst m) \/ cellsAt k items <> []).
Proof.
  revert m. induction items as [|item items IH]; intros m Hnd; simpl.
  - split; [exact Hnd|]. intros k. split; [now left|]. intros [H | H]; [exact H|congruence].
  - assert (Hnd' : NoDup (map fst (addItem m item))).
    { destruct item as [x y s|]; simpl; [|exact Hnd].
      destruct (keys_pushCell (mathRound y) (mkCell x s) m) as [[_ E] | [Hin E]];
        rewrite E; [exact Hnd|].
      apply NoDup_app; [exact Hnd|repeat constructor; tauto|].
      intros a Ha [<- | []]. tauto. }
    destruct (IH _ Hnd') as [H1 H2]. split; [exact H1|].
    intros k. rewrite H2. destruct item as [x y s|]; simpl; [|tauto].
    destruct (keys_pushCell (mathRound y) (mkCell x s) m) as [[Hin E] | [Hin E]];
      rewrite E; destruct (Z.eqb_spec (mathRound y) k) as [Heq | Hne]; simpl.
    + rewrite <- Heq. tauto.
    + tauto.
    + rewrite in_app_iff. simpl. split; [intros _; right; discriminate|].
      intros _. left. right. now left.
    + rewrite in_app_iff. simpl. tauto.
Qed.

Lemma keys_buildRowsMap (items : list Item) :
  NoDup (map fst (buildRowsMap items)) /\
  (forall k, In k (map fst (buildRowsMap items)) <-> cellsAt k items <> []).
Proof.
  destruct (keys_fold items [] (NoDup_nil _)) as [H1 H2]. split; [exact H1|].
  intros k. rewrite (H2 k). simpl. tauto.
Qed.

Lemma In_insertDesc (x a : Z) (l : list Z) :
  In x (insertDesc a l) <-> x = a \/ In x l.
Proof.
  induction l as [|b l IH]; simpl; [intuition|].
  destruct (b <=? a); simpl; [intuition|]. rewrite IH. intuition.
Qed.

Lemma In_sortDesc (x : Z) (l : list Z) : In x (sortDesc l) <-> In x l.
Proof.
  induction l as [|a l IH]; simpl; [tauto|].
  rewrite In_insertDesc, IH. intuition.
Qed.

Lemma insertDesc_sorted (a : Z) (l : list Z) :
  StronglySorted (fun x y => y < x) l -> ~ In a l ->
  StronglySorted (fun x y => y < x) (insertDesc a l).
Proof.
  induction 1 as [|b l Hs IH Hb]; intros Hnot; simpl.
  - repeat constructor.
  - destruct (Z.leb_spec b a) as [Hle | Hgt].
    + assert (b < a) by (simpl in Hnot; lia).
      constructor; [now constructor|].
      constructor; [assumption|]. eapply Forall_impl; [|exact Hb].
      simpl. intros; lia.
    + constructor; [apply IH; simpl in Hnot; tauto|].
      rewrite Forall_forall in *. intros x Hx.
      apply In_insertDesc in Hx. destruct Hx as [-> | Hx]; [lia|now apply Hb].
Qed.

(** Distinct keys come out of the sort strictly decreasing. *)
Lemma sortDesc_sorted (l : list Z) :
  NoDup l -> StronglySorted (fun x y => y < x) (sortDesc l).
Proof.
  induction 1 as [|a l Hnot Hnd IH]; simpl; [constructor|].
  apply insertDesc_sorted; [exact IH|]. now rewrite In_sortDesc.
Qed.

Lemma insertCell_perm (a : Cell) (l : list Cell) :
  Permutation (insertCell a l) (a :: l).
Proof.
  induction l as [|b l IH]; simpl; [reflexivity|].
  destruct (Qle_bool (cx a) (cx b)); [reflexivity|].
  rewrite IH. apply perm_swap.
Qed.

Lemma sortCells_perm (l : list Cell) : Permutation (sortCells l) l.
Proof.
  induction l as [|a l IH]; simpl; [reflexivity|].
  rewrite insertCell_perm. now constructor.
Qed.

Lemma insertCell_sorted (a : Cell) (l : list Cell) :
  StronglySorted (fun x y => (cx x <= cx y)%Q) l ->
  StronglySorted (fun x y => (cx x <= cx y)%Q) (insertCell a l).
Proof.
  induction 1 as [|b l Hs IH Hb]; simpl.
  - repeat constructor.
  - destruct (Qle_bool (cx a) (cx b)) eqn:E.
    + apply Qle_bool_iff in E. constructor; [now constructor|].
      constructor; [exact E|]. eapply Forall_impl; [|exact Hb].
      simpl. intros c Hc. eapply Qle_trans; eassumption.
    + assert (Hlt : (cx b < cx a)%Q).
      { apply Qnot_le_lt. intros H. apply Qle_bool_iff in H. congruence. }
      constructor; [exact IH|].
      rewrite Forall_forall in *. intros x Hx.
      apply (Permutation_in _ (insertCell_perm a l)) in Hx.
      destruct Hx as [<- | Hx]; [now apply Qlt_le_weak|now apply Hb].
Qed.

Lemma sortCells_sorted (l : list Cell) :
  StronglySorted (fun x y => (cx x <= cx y)%Q) (sortCells l).
Proof.
  induction l as [|a l IH]; simpl; [constructor|]. now apply insertCell_sorted.
Qed.

(** The sort is stable: the cells at any one [x] keep their order. *)
Lemma insertCell_stable (q : Q) (a : Cell) (l : list Cell) :
  filter (fun c => Qeq_bool (cx c) q) (insertCell a l)
  = filter (fun c => Qeq_bool (cx c) q) (a :: l).
Proof.
  induction l as [|b l IH]; [reflexivity|].
  cbn [insertCell]. destruct (Qle_bool (cx a) (cx b)) eqn:E; [reflexivity|].
  cbn [filter] in *. rewrite IH.
  destruct (Qeq_bool (cx a) q) eqn:Ea; [|reflexivity].
  destruct (Qeq_bool (cx b) q) eqn:Eb; [|reflexivity].
  exfalso. apply Qeq_bool_iff in Ea, Eb.
  assert (H : Qle_bool (cx a) (cx b) = true).
  { apply Qle_bool_iff. rewrite Ea, Eb. apply Qle_refl. }
  congruence.
Qed.

Lemma sortCells_stable (q : Q) (l : list Cell) :
  filter (fun c => Qeq_bool (cx c) q) (sortCells l)
  = filter (fun c => Qeq_bool (cx c) q) l.
Proof.
  induction l as [|a l IH]; [reflexivity|].
  cbn [sortCells fold_right]. fold (sortCells l).
  rewrite insertCell_stable. cbn [filter]. now rewrite IH.
Qed.

Lemma rowOfCells_clean (cells : list Cell) :
  Forall (fun cell => cell <> EmptyString) (rowOfCells cells).
Proof.
  unfold rowOfCells. apply Forall_forall. intros s Hs.
  apply filter_In in Hs. destruct Hs as [_ Hs]. now destruct s.
Qed.

(** C8, as the code has it.  On every page the fragments are grouped by
    their baseline rounded to an integer: the groups have distinct keys
    in strictly decreasing order, every text fragment falls in the group
    of its rounded baseline, and a group holds exactly the cells of that
    baseline, ordered by non-decreasing [x] with cells of equal [x] in
    their order of arrival.  A row is the list of the trimmed, non-empty
    texts of a group; groups left with no text give no row; the rows of
    the document are the rows of its pages in page order. *)
Theorem layout_reconstruction (pages : list (list Item)) :
  Forall (fun items =>
    let groups := pageGroups items in
    StronglySorted (fun a b => b < a) (map fst groups) /\
    (forall x y s, In (TextItem x y s) items ->
                   In (mathRound y) (map fst groups)) /\
    Forall (fun g =>
      snd g <> [] /\
      StronglySorted (fun a b => (cx a <= cx b)%Q) (snd g) /\
      Permutation (snd g) (cellsAt (fst g) items) /\
      (forall q, filter (fun c => Qeq_bool (cx c) q) (snd g)
                 = filter (fun c => Qeq_bool (cx c) q) (cellsAt (fst g) items)))
      groups /\
    pageRows items
    = filter nonEmptyRow
        (map (fun g => filter JS.truthy (map (fun c => JS.trim (cstr c)) (snd g)))
             groups)) pages /\
  allRowsOf pages = flat_map pageRows pages /\
  Forall (fun row => row <> [] /\ Forall (fun cell => cell <> EmptyString) row)
         (allRowsOf pages).
Proof.
  split; [|split; [reflexivity|]].
  - apply Forall_forall. intros items _. cbv zeta.
    destruct (keys_buildRowsMap items) as [Hnd Hkeys].
    assert (Hfst : map fst (pageGroups items) = sortDesc (map fst (buildRowsMap items))).
    { unfold pageGroups. rewrite map_map. cbn [fst]. apply map_id. }
    split; [rewrite Hfst; now apply sortDesc_sorted|].
    split.
    { intros x y s Hin. rewrite Hfst, In_sortDesc. apply Hkeys.
      unfold cellsAt. intros E.
      assert (Hc : In (mkCell x s) (flat_map (fun item => match item with
                        | TextItem x y0 s =>
                            if mathRound y0 =? mathRound y then [mkCell x s] else []
                        | MarkedContent => []
                        end) items)).
      { apply in_flat_map. exists (TextItem x y s). split; [exact Hin|].
        rewrite Z.eqb_refl. now left. }
      rewrite E in Hc. contradiction. }
    split; [|reflexivity].
    unfold pageGroups. apply Forall_forall. intros g Hg.
    apply in_map_iff in Hg. destruct Hg as [k [<- Hk]]. cbn [fst snd].
    rewrite In_sortDesc in Hk. apply Hkeys in Hk.
    rewrite rowAt_buildRowsMap.
    split.
    { intros E. apply Hk.
      apply Permutation_nil. rewrite <- E. apply sortCells_perm. }
    split; [apply sortCells_sorted|].
    split; [apply sortCells_perm|]. intros q. apply sortCells_stable.
  - unfold allRowsOf. apply Forall_forall. intros row Hrow.
    apply in_flat_map in Hrow. destruct Hrow as [items [_ Hrow]].
    unfold pageRows in Hrow. apply filter_In in Hrow. destruct Hrow as [Hrow Hne].
    split; [destruct row; [discriminate|discriminate]|].
    apply in_map_iff in Hrow. destruct Hrow as [g [<- _]]. apply rowOfCells_clean.
Qed.

(** C8 as stated fails: across a document the rounded baselines of the
    rows are not strictly decreasing, since every page is ordered on its
    own, and within a row the [x] of the cells are not strictly
    increasing when two fragments share one. *)
Lemma layout_order_not_strict :
  allRowsOf twoPages = [["Fall Schedule"]; ["Total Hours"]] /\
  documentKeys twoPages = [700; 700] /\
  ~ StronglySorted (fun a b => b < a) (documentKeys twoPages) /\
  pageGroups overlappingPage = [(700, [mkCell 72 "Title"; mkCell 72 "CRN"])] /\
  ~ Forall (fun g => StronglySorted (fun a b => (cx a < cx b)%Q) (snd g))
           (pageGroups overlappingPage).
Proof.
  assert (Hk : documentKeys twoPages = [700; 700]) by (vm_compute; reflexivity).
  assert (Hg : pageGroups overlappingPage
               = [(700, [mkCell 72 "Title"; mkCell 72 "CRN"])])
    by (vm_compute; reflexivity).
  split; [vm_compute; reflexivity|]. split; [exact Hk|].
  split; [|split; [exact Hg|]].
  - rewrite Hk. intros H. inversion H as [|a l _ Hall]; subst.
    inversion Hall; subst. lia.
  - rewrite Hg. intros H. inversion H as [|g l Hs _]; subst.
    cbn [snd] in Hs. inversion Hs as [|a l _ Hall]; subst.
    inversion Hall as [|b l' Hlt _]; subst. cbn [cx] in Hlt.
    revert Hlt. apply Qlt_irrefl.
Qed.

(** * Further properties *)

(** ** Splitting and trimming *)

Lemma split_length (sep : ascii) (s : string) :
  List.length (JS.split sep s) = S (countChar sep s).
Proof.
  induction s as [|c s IH]; [reflexivity|]. cbn [JS.split countChar].
  destruct (Ascii.eqb c sep).
  - cbn [List.length]. now rewrite IH.
  - destruct (JS.split sep s) as [|p ps]; [discriminate|]. exact IH.
Qed.

Lemma includes_count (c : ascii) (s : string) :
  JS.includes c s = true <-> (1 <= countChar c s)%nat.
Proof.
  induction s as [|d s IH]; cbn [JS.includes countChar].
  - split; [discriminate|lia].
  - destruct (Ascii.eqb d c); cbn [orb]; [split; [lia|reflexivity]|].
    rewrite IH. simpl. tauto.
Qed.

(** No piece of a split holds the separator. *)
Lemma split_pieces_clean (sep : ascii) (s : string) :
  Forall (fun p => JS.includes sep p = false) (JS.split sep s).
Proof.
  induction s as [|c s IH]; cbn [JS.split]; [repeat constructor|].
  destruct (Ascii.eqb c sep) eqn:E; [constructor; [reflexivity|exact IH]|].
  destruct (JS.split sep s) as [|p ps]; [repeat constructor; cbn; now rewrite E|].
  inversion IH; subst. constructor; [|assumption].
  cbn [JS.includes]. now rewrite E.
Qed.

(** X1.  When [split3] returns, joining its three parts with the
    separator gives the text back, and neither the left nor the right
    part holds the separator: the left part is the text before the first
    separator and the right part the text after the last one. *)
Theorem split3_round_trip (str : string) (sep : ascii) (l m r : string) :
  split3 str sep = Normal (l, m, r) ->
  (l ++ String sep m ++ String sep r)%string = str /\
  JS.includes sep l = false /\ JS.includes sep r = false.
Proof.
  intros H. split; [now apply split3_rejoin|].
  unfold split3 in H.
  destruct (List.length (JS.split sep str) <? 3)%nat eqn:E; [discriminate|].
  apply Nat.ltb_ge in E.
  pose proof (split_pieces_clean sep str) as Hc.
  destruct (JS.split sep str) as [|x rest]; [discriminate|].
  injection H as <- _ <-.
  inversion Hc as [|? ? Hx Hrest]; subst. split; [exact Hx|].
  assert (Hne : rest <> []) by (destruct rest; simpl in E; [lia|discriminate]).
  rewrite Forall_forall in Hrest. apply Hrest.
  destruct (exists_last Hne) as [body [z ->]].
  rewrite last_snoc. apply in_or_app. right. now left.
Qed.

Lemma split3_round_trip_witness :
  split3 "Main*, Hall, West, 101" "," = Normal ("Main*", " Hall, West", " 101") /\
  ("Main*" ++ String "," " Hall, West" ++ String "," " 101")%string
  = "Main*, Hall, West, 101".
Proof.
  assert (H : split3 "Main*, Hall, West, 101" ","
              = Normal ("Main*", " Hall, West", " 101")) by reflexivity.
  split; [exact H|]. exact (proj1 (split3_round_trip _ _ _ _ _ H)).
Defined.

(** X2.  [split3] raises its exception exactly when the text holds
    fewer than two separators; otherwise it returns three parts. *)
Theorem split3_throws_iff (str : string) (sep : ascii) :
  (split3 str sep = Thrown <-> (countChar sep str < 2)%nat) /\
  ((2 <= countChar sep str)%nat -> exists l m r, split3 str sep = Normal (l, m, r)).
Proof.
  pose proof (split_length sep str) as Hlen. unfold split3.
  destruct (List.length (JS.split sep str) <? 3)%nat eqn:E.
  - apply Nat.ltb_lt in E. split; [split; [lia|reflexivity]|lia].
  - apply Nat.ltb_ge in E.
    destruct (JS.split sep str) as [|x rest]; [simpl in Hlen; lia|].
    split; [split; [discriminate|lia]|]. intros _. now eexists _, _, _.
Qed.

Lemma trimStart_noLeading (s : string) : noLeadingSpace (JS.trimStart s).
Proof.
  induction s as [|c s IH]; cbn [JS.trimStart]; [exact I|].
  destruct (JS.isSpace c) eqn:E; [exact IH|exact E].
Qed.

Lemma trimStart_fixed (s : string) : noLeadingSpace s -> JS.trimStart s = s.
Proof. destruct s as [|c s]; cbn; [reflexivity|]. now intros ->. Qed.

Lemma trimEnd_noLeading (s : string) : noLeadingSpace s -> noLeadingSpace (JS.trimEnd s).
Proof.
  destruct s as [|c s]; cbn [JS.trimEnd noLeadingSpace]; [trivial|].
  intros E. rewrite E. exact E.
Qed.

Lemma trimEnd_idempotent (s : string) : JS.trimEnd (JS.trimEnd s) = JS.trimEnd s.
Proof.
  induction s as [|c s IH]; [reflexivity|]. cbn [JS.trimEnd]. cbv zeta.
  destruct (JS.isSpace c && JS.isEmpty (JS.trimEnd s)) eqn:E; [reflexivity|].
  cbn [JS.trimEnd]. cbv zeta. now rewrite IH, E.
Qed.

(** Trimming a trimmed text changes nothing. *)
Lemma trim_idempotent (s : string) : JS.trim (JS.trim s) = JS.trim s.
Proof.
  unfold JS.trim.
  rewrite (trimStart_fixed (JS.trimEnd (JS.trimStart s))).
  - apply trimEnd_idempotent.
  - apply trimEnd_noLeading, trimStart_noLeading.
Qed.

(** A text that trimming leaves alone has no white space at either
    end. *)
Lemma trim_fixed (s : string) :
  JS.trim s = s -> noLeadingSpace s /\ JS.trimEnd s = s.
Proof.
  intros H. split.
  - rewrite <- H. apply trimEnd_noLeading, trimStart_noLeading.
  - rewrite <- H at 1. unfold JS.trim. rewrite trimEnd_idempotent. exact H.
Qed.

Lemma trimEnd_allSpaces (w : string) : allSpaces w = true -> JS.trimEnd w = EmptyString.
Proof.
  induction w as [|c w IH]; [reflexivity|]. cbn [allSpaces JS.trimEnd]. cbv zeta.
  intros H. apply andb_prop in H. destruct H as [Hc Hw].
  now rewrite (IH Hw), Hc.
Qed.

Lemma trimEnd_app_spaces (s w : string) :
  allSpaces w = true -> JS.trimEnd (s ++ w) = JS.trimEnd s.
Proof.
  intros Hw. induction s as [|c s IH]; cbn [append JS.trimEnd].
  - now apply trimEnd_allSpaces.
  - cbv zeta. now rewrite IH.
Qed.

Lemma trimStart_spaces_app (w s : string) :
  allSpaces w = true -> JS.trimStart (w ++ s) = JS.trimStart s.
Proof.
  induction w as [|c w IH]; [reflexivity|]. cbn [allSpaces append JS.trimStart].
  intros H. apply andb_prop in H. destruct H as [-> Hw]. now apply IH.
Qed.

Lemma trimStart_allSpaces (w : string) :
  allSpaces w = true -> JS.trimStart w = EmptyString.
Proof.
  induction w as [|c w IH]; [reflexivity|]. cbn [allSpaces JS.trimStart].
  intros H. apply andb_prop in H. destruct H as [-> Hw]. now apply IH.
Qed.

(** White space around a trimmed text is trimmed away. *)
Lemma trim_padded (w1 s w2 : string) :
  allSpaces w1 = true -> allSpaces w2 = true -> JS.trim s = s ->
  JS.trim (w1 ++ s ++ w2) = s.
Proof.
  intros H1 H2 Hs. destruct (trim_fixed s Hs) as [Hlead Hend].
  unfold JS.trim. rewrite (trimStart_spaces_app _ _ H1).
  destruct s as [|c s].
  - cbn [append]. now rewrite (trimStart_allSpaces w2 H2).
  - rewrite trimStart_fixed.
    + now rewrite trimEnd_app_spaces.
    + exact Hlead.
Qed.

(** X3.  Every cell of every reconstructed row is a trimmed text: it is
    not empty, it has no white space at either end, and trimming it
    again gives the same cell, so the comparisons of a first cell with
    the header and footer labels see no stray white space. *)
Theorem cells_are_trimmed (pages : list (list Item)) :
  Forall (Forall (fun cell =>
            cell <> EmptyString /\ JS.trim cell = cell /\
            noLeadingSpace cell /\ JS.trimEnd cell = cell))
         (allRowsOf pages).
Proof.
  apply Forall_forall. intros row Hrow. unfold allRowsOf in Hrow.
  apply in_flat_map in Hrow. destruct Hrow as [items [_ Hrow]].
  unfold pageRows in Hrow. apply filter_In in Hrow. destruct Hrow as [Hrow _].
  apply in_map_iff in Hrow. destruct Hrow as [g [<- _]].
  unfold rowOfCells. apply Forall_forall. intros cell Hcell.
  apply filter_In in Hcell. destruct Hcell as [Hin Ht].
  apply in_map_iff in Hin. destruct Hin as [c [<- _]].
  assert (Hfix : JS.trim (JS.trim (cstr c)) = JS.trim (cstr c)) by apply trim_idempotent.
  split; [intros E; rewrite E in Ht; discriminate|].
  split; [exact Hfix|]. now apply trim_fixed.
Qed.

Lemma split_no_sep (sep : ascii) (s : string) :
  JS.includes sep s = false -> JS.split sep s = [s].
Proof.
  induction s as [|c s IH]; [reflexivity|]. cbn [JS.includes JS.split].
  intros H. apply orb_false_elim in H. destruct H as [-> H].
  now rewrite (IH H).
Qed.

Lemma split_app_sep (sep : ascii) (a b : string) :
  JS.includes sep a = false ->
  JS.split sep (a ++ String sep b) = a :: JS.split sep b.
Proof.
  induction a as [|c a IH]; cbn [JS.includes append JS.split].
  - intros _. now rewrite Ascii.eqb_refl.
  - intros H. apply orb_false_elim in H. destruct H as [-> H].
    now rewrite (IH H).
Qed.

Lemma includes_app (c : ascii) (a b : string) :
  JS.includes c (a ++ b) = JS.includes c a || JS.includes c b.
Proof.
  induction a as [|d a IH]; [reflexivity|]. cbn [append JS.includes].
  now rewrite IH, orb_assoc.
Qed.

Lemma includes_allSpaces (w : string) :
  allSpaces w = true -> JS.includes "-" w = false.
Proof.
  induction w as [|c w IH]; [reflexivity|]. cbn [allSpaces JS.includes].
  intros H. apply andb_prop in H. destruct H as [Hc Hw]. rewrite (IH Hw).
  destruct (Ascii.eqb c "-") eqn:E; [|reflexivity].
  apply Ascii.eqb_eq in E. subst c. discriminate.
Qed.

Lemma firstn_In {A : Type} (n : nat) (l : list A) (x : A) :
  In x (firstn n l) -> In x l.
Proof.
  revert l. induction n as [|n IH]; intros [|a l]; simpl; try tauto.
  intros [H | H]; [now left|right; now apply IH].
Qed.

(** X4.  The carried date-range strings of a cell are its first two
    dash-delimited pieces, trimmed: one entry when the cell holds no
    dash (so that meetings under it are dropped for want of a second
    date), two entries otherwise, whatever follows a second dash being
    lost.  A printed range [A - B] of two dash-free trimmed texts, with
    any white space around the dash, is carried as [A] and [B]. *)
Theorem date_strings_of_cell (cell : string) :
  (JS.includes "-" cell = false ->
   LocalVariant.dateStringsOf cell = [JS.trim cell]) /\
  (JS.includes "-" cell = true ->
   List.length (LocalVariant.dateStringsOf cell) = 2%nat) /\
  Forall (fun d => JS.trim d = d /\ JS.includes "-" d = false)
         (LocalVariant.dateStringsOf cell) /\
  UtcVariant.dateStringsOf cell = LocalVariant.dateStringsOf cell /\
  (forall a b w1 w2 rest,
     JS.trim a = a -> JS.trim b = b ->
     JS.includes "-" a = false -> JS.includes "-" b = false ->
     allSpaces w1 = true -> allSpaces w2 = true ->
     (cell = (a ++ w1 ++ String "-" (w2 ++ b))%string \/
      cell = (a ++ w1 ++ String "-" (w2 ++ b ++ String "-" rest))%string) ->
     LocalVariant.dateStringsOf cell = [a; b]).
Proof.
  unfold UtcVariant.dateStringsOf, LocalVariant.dateStringsOf, JS.splitLimit.
  split; [|split; [|split; [|split]]].
  - intros H. now rewrite (split_no_sep _ _ H).
  - intros H. apply includes_count in H.
    pose proof (split_length "-" cell) as Hlen.
    rewrite length_map, length_firstn. lia.
  - apply Forall_map.
    pose proof (split_pieces_clean "-" cell) as Hc.
    assert (Hf : Forall (fun p => JS.includes "-" p = false)
                        (firstn 2 (JS.split "-" cell))).
    { rewrite Forall_forall in *. intros p Hp. apply Hc.
      eapply firstn_In. exact Hp. }
    eapply Forall_impl; [|exact Hf]. intros p Hp. cbv beta.
    split; [apply trim_idempotent|].
    revert Hp. clear. unfold JS.trim. intros Hp.
    assert (G : forall s, JS.includes "-" s = false ->
                          JS.includes "-" (JS.trimEnd s) = false).
    { induction s as [|c s IH]; [reflexivity|]. cbn [JS.includes JS.trimEnd].
      cbv zeta. intros H. apply orb_false_elim in H. destruct H as [Hc Hs].
      destruct (JS.isSpace c && JS.isEmpty (JS.trimEnd s)); [reflexivity|].
      cbn [JS.includes]. now rewrite Hc, (IH Hs). }
    apply G. clear G. induction p as [|c p IH]; [reflexivity|].
    cbn [JS.trimStart]. cbn [JS.includes] in Hp.
    apply orb_false_elim in Hp. destruct Hp as [Hc Hs].
    destruct (JS.isSpace c); [now apply IH|]. cbn [JS.includes]. now rewrite Hc, Hs.
  - reflexivity.
  - intros a b w1 w2 rest Ha Hb Hda Hdb H1 H2 Hcell.
    assert (Hleft : JS.includes "-" (a ++ w1) = false)
      by (now rewrite includes_app, Hda, includes_allSpaces).
    assert (Hright : JS.includes "-" (w2 ++ b) = false)
      by (now rewrite includes_app, Hdb, includes_allSpaces).
    assert (Ta : JS.trim (a ++ w1) = a).
    { pose proof (trim_padded EmptyString a w1 eq_refl H1 Ha) as T. exact T. }
    assert (Tb : JS.trim (w2 ++ b) = b).
    { pose proof (trim_padded w2 b EmptyString H2 eq_refl Hb) as T.
      assert (E : (b ++ "")%string = b)
        by (clear; induction b as [|c b IH]; [reflexivity|]; cbn; now rewrite IH).
      now rewrite E in T. }
    destruct Hcell as [-> | ->].
    + rewrite <- string_append_assoc.
      rewrite (split_app_sep _ _ _ Hleft), (split_no_sep _ _ Hright).
      cbn [firstn map]. now rewrite Ta, Tb.
    + rewrite <- string_append_assoc.
      replace (w2 ++ b ++ String "-" rest)%string
        with ((w2 ++ b) ++ String "-" rest)%string
        by apply string_append_assoc.
      rewrite (split_app_sep _ _ _ Hleft), (split_app_sep _ _ _ Hright).
      cbn [firstn map]. now rewrite Ta, Tb.
Qed.

Lemma date_strings_of_cell_witness :
  LocalVariant.dateStringsOf "01/06/2025 -04/25/2025"
  = ["01/06/2025"; "04/25/2025"].
Proof.
  destruct (date_strings_of_cell "01/06/2025 -04/25/2025") as (_ & _ & _ & _ & H).
  apply (H "01/06/2025" "04/25/2025" " " "" "");
    try reflexivity. now left.
Defined.

(** ** Alignment on any day-set *)

Ltac which_day d :=
  unfold member, dayToNumber; cbn [find fst];
  repeat match goal with
         | |- context [String.eqb ?x d] =>
             let E := fresh "E" in
             destruct (String.eqb x d) eqn:E;
             [apply String.eqb_eq in E; subst d|]
         end.

(** What [dayToNumber] holds: the number of a weekday name, and no
    number for any other text. *)
Lemma dayToNumber_member (d : string) :
  if isWeekdayName d then member dayToNumber d = Own (weekdayNumberOf d)
  else forall n, member dayToNumber d <> Own n.
Proof.
  destruct (isWeekdayName d) eqn:W.
  - each_weekday W; reflexivity.
  - which_day d; try (vm_compute in W; discriminate).
    intros n. destruct (existsb _ _); discriminate.
Qed.

Lemma targetWeekdays_filter (days : list string) :
  targetWeekdays days = map weekdayNumberOf (filter isWeekdayName days).
Proof.
  unfold targetWeekdays. induction days as [|d days IH]; [reflexivity|].
  cbn [flat_map filter]. rewrite IH.
  pose proof (dayToNumber_member d) as H.
  destruct (isWeekdayName d); [now rewrite H|].
  destruct (member dayToNumber d) as [n| |]; [now elim (H n)|reflexivity|reflexivity].
Qed.

Lemma targetWeekdays_range (days : list string) :
  Forall (fun t => 1 <= t <= 7) (targetWeekdays days).
Proof.
  rewrite targetWeekdays_filter. apply Forall_map, Forall_forall.
  intros d Hd. apply filter_In in Hd. now apply weekdayNumberOf_range.
Qed.

(** The least forward move from a day to one of some weekdays. *)
Lemma least_forward_move (dn : Z) (targets : list Z) :
  Forall (fun t => 1 <= t <= 7) targets -> targets <> [] ->
  let k := minimum (map (daysForward (Luxon.weekdayOfDay dn)) targets) in
  0 <= k <= 6 /\
  In (Luxon.weekdayOfDay (dn + k)) targets /\
  (forall j, 0 <= j < k -> ~ In (Luxon.weekdayOfDay (dn + j)) targets).
Proof.
  intros Hin Hne k.
  assert (Hne' : map (daysForward (Luxon.weekdayOfDay dn)) targets <> [])
    by (destruct targets; [congruence|discriminate]).
  pose proof (minimum_in _ Hne') as Hm. fold k in Hm.
  assert (Hall : forall t', In t' targets ->
                            k <= daysForward (Luxon.weekdayOfDay dn) t')
    by (intros t' Ht'; apply minimum_le; now apply in_map).
  clearbody k.
  apply in_map_iff in Hm. destruct Hm as [t [Hk Ht]]. subst k.
  rewrite Forall_forall in Hin.
  split; [|split].
  - unfold daysForward.
    pose proof (Z.mod_pos_bound (t - Luxon.weekdayOfDay dn) 7 ltac:(lia)). lia.
  - rewrite weekday_after_shift; [exact Ht|now apply Hin].
  - intros j Hj Hin_j.
    set (t' := Luxon.weekdayOfDay (dn + j)) in *.
    pose proof (Hall t' Hin_j) as Hle.
    assert (Ht' : daysForward (Luxon.weekdayOfDay dn) t' = j).
    { unfold daysForward, t', Luxon.weekdayOfDay.
      pose proof (Z.mod_pos_bound (dn + 3) 7 ltac:(lia)) as Hb.
      pose proof (Z.div_mod (dn + 3) 7 ltac:(lia)) as Hd.
      set (r := (dn + 3) mod 7) in *. set (q := (dn + 3) / 7) in *.
      replace (dn + j + 3) with ((r + j) + q * 7) by lia.
      rewrite Z.mod_add by lia.
      pose proof (Z.mod_pos_bound (r + j) 7 ltac:(lia)) as Hb2.
      pose proof (Z.div_mod (r + j) 7 ltac:(lia)) as Hd2.
      set (r2 := (r + j) mod 7) in *. set (q2 := (r + j) / 7) in *.
      replace (r2 + 1 - (r + 1)) with (j + (- q2) * 7) by lia.
      rewrite Z.mod_add by lia. apply Z.mod_small.
      unfold daysForward in Hj.
      pose proof (Z.mod_pos_bound (t - Luxon.weekdayOfDay dn) 7 ltac:(lia)). lia. }
    lia.
Qed.

(** X5.  [alignToFirstMatchingWeekday] looks only at the names of the
    day-set that are weekday names: as soon as one is, the result is the
    result for those names alone.  On a valid start it is the start moved
    forward, by the library's shift by days, by the least number of days
    between 0 and 6 that reaches the weekday of one of those names.  The
    date moves by exactly that many days; the time of day is kept, except
    that a time which falls in the hour skipped at the start of daylight
    time on the day reached is moved one hour on. *)
Theorem alignment_ignores_other_names (start : Luxon.DateTime)
  (days : list string) :
  filter isWeekdayName days <> [] ->
  alignToFirstMatchingWeekday start days
  = alignToFirstMatchingWeekday start (filter isWeekdayName days) /\
  (forall s, start = Luxon.Valid s ->
     exists k s',
       alignToFirstMatchingWeekday start days = Normal (Luxon.Valid s') /\
       0 <= k <= 6 /\
       Luxon.dayNumber s' = Luxon.dayNumber s + k /\
       Luxon.msOfDay s'
       = (if Luxon.inSkippedHour (s + k * Luxon.msPerDay)
          then Luxon.msOfDay s + Luxon.msPerHour else Luxon.msOfDay s) /\
       (Luxon.msOfDay s < 2 * Luxon.msPerHour \/
        3 * Luxon.msPerHour <= Luxon.msOfDay s ->
        s' = s + k * Luxon.msPerDay) /\
       In (Luxon.weekdayOfDay (Luxon.dayNumber s'))
          (map weekdayNumberOf (filter isWeekdayName days)) /\
       (forall j, 0 <= j < k ->
          ~ In (Luxon.weekdayOfDay (Luxon.dayNumber s + j))
               (map weekdayNumberOf (filter isWeekdayName days)))).
Proof.
  intros Hne.
  assert (Hdays : days <> []) by (intros ->; now apply Hne).
  assert (Hsame : targetWeekdays (filter isWeekdayName days) = targetWeekdays days).
  { rewrite !targetWeekdays_filter. f_equal.
    clear. induction days as [|d days IH]; [reflexivity|]. cbn [filter].
    destruct (isWeekdayName d) eqn:E; [|exact IH].
    cbn [filter]. now rewrite E, IH. }
  split.
  - unfold alignToFirstMatchingWeekday. rewrite Hsame.
    destruct days as [|d ds]; [congruence|].
    destruct (filter isWeekdayName (d :: ds)); [congruence|reflexivity].
  - intros s ->.
    assert (Ht : targetWeekdays days <> []).
    { rewrite targetWeekdays_filter.
      destruct (filter isWeekdayName days); [congruence|discriminate]. }
    pose proof (minDeltaFrom_minimum (Luxon.weekdayOfDay (Luxon.dayNumber s))
                  (targetWeekdays days) (weekdayOfDay_range _)
                  (targetWeekdays_range days) Ht) as Hmin.
    destruct (least_forward_move (Luxon.dayNumber s) (targetWeekdays days)
                (targetWeekdays_range days) Ht) as (Hk & Hland & Hleast).
    set (k := minimum (map (daysForward (Luxon.weekdayOfDay (Luxon.dayNumber s)))
                           (targetWeekdays days))) in *.
    destruct (shiftDays_valid k s) as (s' & _ & Hplus & Hday & Hms & Hout & _).
    exists k, s'.
    rewrite <- targetWeekdays_filter, Hday.
    split; [|split; [exact Hk|split; [reflexivity|
               split; [exact Hms|split; [exact Hout|split; assumption]]]]].
    unfold alignToFirstMatchingWeekday. destruct days as [|d ds]; [congruence|].
    cbn [Luxon.weekday]. rewrite Hmin. exact Hplus.
Qed.

Lemma alignment_ignores_other_names_witness :
  filter isWeekdayName ["TBA"; "Friday"; "Online"] <> [] /\
  alignToFirstMatchingWeekday (Luxon.Valid 1736154000000) ["TBA"; "Friday"; "Online"]
  = alignToFirstMatchingWeekday (Luxon.Valid 1736154000000) ["Friday"].
Proof.
  assert (H : filter isWeekdayName ["TBA"; "Friday"; "Online"] <> [])
    by (vm_compute; discriminate).
  split; [exact H|].
  exact (proj1 (alignment_ignores_other_names (Luxon.Valid 1736154000000) _ H)).
Defined.

Lemma minimum_same_elements (l l' : list Z) :
  l <> [] -> l' <> [] -> (forall x, In x l <-> In x l') ->
  minimum l = minimum l'.
Proof.
  intros Hl Hl' Hsame.
  pose proof (minimum_in l Hl) as H1. pose proof (minimum_in l' Hl') as H2.
  apply Hsame in H1. apply Hsame in H2.
  apply minimum_le in H1. apply minimum_le in H2. lia.
Qed.

Lemma targetWeekdays_same_names (days days' : list string) :
  (forall d, In d days <-> In d days') ->
  forall t, In t (targetWeekdays days) <-> In t (targetWeekdays days').
Proof.
  intros Hsame t. rewrite !targetWeekdays_filter, !in_map_iff.
  split; intros [d [Hd Hin]]; exists d; (split; [exact Hd|]);
    apply filter_In in Hin; apply filter_In; destruct Hin as [Hin W];
    (split; [now apply Hsame|exact W]).
Qed.

(** X6.  The result of [alignToFirstMatchingWeekday] depends only on
    which names the day-set holds, not on their order or on repetitions:
    two day-sets with the same members give the same result. *)
Theorem alignment_depends_on_members (start : Luxon.DateTime)
  (days days' : list string) :
  (forall d, In d days <-> In d days') ->
  alignToFirstMatchingWeekday start days = alignToFirstMatchingWeekday start days'.
Proof.
  intros Hsame.
  destruct days as [|d ds]; destruct days' as [|d' ds'].
  - reflexivity.
  - exfalso. apply (Hsame d'). now left.
  - exfalso. apply (Hsame d). now left.
  - unfold alignToFirstMatchingWeekday.
    destruct start as [s|]; [|reflexivity]. cbn [Luxon.weekday]. f_equal.
    set (w := Luxon.weekdayOfDay (Luxon.dayNumber s)).
    pose proof (targetWeekdays_same_names _ _ Hsame) as Ht.
    set (T := targetWeekdays (d :: ds)) in *.
    set (T' := targetWeekdays (d' :: ds')) in *.
    assert (HT : Forall (fun t => 1 <= t <= 7) T) by apply targetWeekdays_range.
    assert (HT' : Forall (fun t => 1 <= t <= 7) T') by apply targetWeekdays_range.
    clearbody T T'.
    destruct T as [|t T]; destruct T' as [|t' T'].
    + reflexivity.
    + exfalso. apply (Ht t'). now left.
    + exfalso. apply (Ht t). now left.
    + rewrite !minDeltaFrom_minimum by
        (try apply weekdayOfDay_range; try assumption; discriminate).
      f_equal. apply minimum_same_elements; try discriminate.
      intros x. rewrite !in_map_iff.
      split; intros [y [Hy Hin]]; exists y; (split; [exact Hy|now apply Ht]).
Qed.

Lemma alignment_depends_on_members_witness :
  (forall d, In d ["Monday"; "Friday"] <-> In d ["Friday"; "Monday"; "Friday"]) /\
  alignToFirstMatchingWeekday (Luxon.Valid 1736326800000) ["Monday"; "Friday"]
  = alignToFirstMatchingWeekday (Luxon.Valid 1736326800000)
      ["Friday"; "Monday"; "Friday"].
Proof.
  assert (H : forall d, In d ["Monday"; "Friday"]
                        <-> In d ["Friday"; "Monday"; "Friday"])
    by (intros d; simpl; tauto).
  split; [exact H|].
  exact (alignment_depends_on_members (Luxon.Valid 1736326800000) _ _ H).
Defined.

(** X7.  The edge cases of [alignToFirstMatchingWeekday]: an empty
    day-set gives the start back, an invalid start is given back
    whatever the day-set, and the call ends in an exception of the date
    library exactly when the start is valid and the day-set is not empty
    but holds no weekday name. *)
Theorem alignment_edge_cases (start : Luxon.DateTime) (days : list string) :
  alignToFirstMatchingWeekday start [] = Normal start /\
  alignToFirstMatchingWeekday Luxon.Invalid days = Normal Luxon.Invalid /\
  (alignToFirstMatchingWeekday start days = Thrown <->
   Luxon.isValid start = true /\ days <> [] /\
   Forall (fun d => isWeekdayName d = false) days).
Proof.
  split; [reflexivity|]. split; [destruct days; reflexivity|].
  assert (Hnone : targetWeekdays days = []
                  <-> Forall (fun d => isWeekdayName d = false) days).
  { rewrite targetWeekdays_filter. split.
    - intros H. apply Forall_forall. intros d Hd.
      destruct (isWeekdayName d) eqn:W; [|reflexivity].
      assert (Hin : In d (filter isWeekdayName days)) by (apply filter_In; now split).
      destruct (filter isWeekdayName days); [contradiction|discriminate].
    - intros H. induction H as [|d ds Hd _ IH]; [reflexivity|].
      cbn [filter]. now rewrite Hd. }
  unfold alignToFirstMatchingWeekday.
  destruct days as [|d ds].
  - split; [discriminate|]. intros (_ & H & _). congruence.
  - destruct start as [s|]; cbn [Luxon.weekday Luxon.isValid].
    + destruct (minDeltaFrom_cases (Luxon.weekdayOfDay (Luxon.dayNumber s))
                  (targetWeekdays (d :: ds))) as [[E ->] | [E [k ->]]];
        cbn [Luxon.plusDays].
      * split; [intros _|reflexivity]. repeat split; [discriminate|now apply Hnone].
      * split; [discriminate|]. intros (_ & _ & H). apply Hnone in H. congruence.
    + cbn [Luxon.plusDays]. split; [discriminate|]. intros (H & _). discriminate.
Qed.

(** ** Conservation of text by the layout reconstruction *)

Lemma flat_map_app_perm {A B : Type} (f g : A -> list B) (l : list A) :
  Permutation (flat_map (fun a => f a ++ g a) l) (flat_map f l ++ flat_map g l).
Proof.
  induction l as [|a l IH]; [reflexivity|]. cbn [flat_map].
  rewrite IH. rewrite <- !app_assoc. apply Permutation_app_head.
  rewrite !app_assoc. apply Permutation_app_tail. apply Permutation_app_comm.
Qed.

Lemma flat_map_single_key {B : Type} (k0 : Z) (c : B) (keys : list Z) :
  NoDup keys -> In k0 keys ->
  flat_map (fun k => if k0 =? k then [c] else []) keys = [c].
Proof.
  induction 1 as [|k keys Hnot Hnd IH]; [contradiction|].
  cbn [flat_map]. intros [-> | Hin].
  - rewrite Z.eqb_refl. cbn [app]. f_equal.
    clear IH Hnd. induction keys as [|k keys IH]; [reflexivity|].
    cbn [flat_map]. destruct (Z.eqb_spec k0 k) as [-> | _].
    + exfalso. apply Hnot. now left.
    + apply IH. intros H. apply Hnot. now right.
  - destruct (Z.eqb_spec k0 k) as [-> | _]; [contradiction|]. now apply IH.
Qed.

(** The groups of distinct keys that cover the baselines of a page
    hold every cell of the page once. *)
Lemma groups_partition (items : list Item) (keys : list Z) :
  NoDup keys ->
  (forall x y s, In (TextItem x y s) items -> In (mathRound y) keys) ->
  Permutation (flat_map (fun k => cellsAt k items) keys) (allCells items).
Proof.
  intros Hnd. induction items as [|item items IH]; intros Hcover.
  - cbn [cellsAt allCells flat_map].
    clear. induction keys as [|k keys IH]; [reflexivity|exact IH].
  - assert (IH' : Permutation (flat_map (fun k => cellsAt k items) keys)
                              (allCells items)).
    { apply IH. intros x y s H. apply (Hcover x y s). now right. }
    destruct item as [x y s|].
    + unfold cellsAt, allCells. cbn [flat_map].
      fold (allCells items).
      change (fun k => (if mathRound y =? k then [mkCell x s] else [])
                       ++ flat_map _ items)
        with (fun k => (fun k => if mathRound y =? k then [mkCell x s] else []) k
                       ++ (fun k => cellsAt k items) k).
      rewrite flat_map_app_perm.
      rewrite (flat_map_single_key (mathRound y) (mkCell x s) keys Hnd)
        by (apply (Hcover x y s); now left).
      cbn [app]. now constructor.
    + exact IH'.
Qed.

Lemma flat_map_perm_pointwise {A B : Type} (f g : A -> list B) (l : list A) :
  (forall a, Permutation (f a) (g a)) ->
  Permutation (flat_map f l) (flat_map g l).
Proof.
  intros H. induction l as [|a l IH]; [reflexivity|]. cbn [flat_map].
  now apply Permutation_app.
Qed.

Lemma filter_perm {A : Type} (p : A -> bool) (l l' : list A) :
  Permutation l l' -> Permutation (filter p l) (filter p l').
Proof.
  induction 1 as [|a l l' _ IH|a b l|l l' l'' _ IH1 _ IH2]; cbn [filter].
  - reflexivity.
  - destruct (p a); [now constructor|exact IH].
  - destruct (p a), (p b); try reflexivity. apply perm_swap.
  - now transitivity (filter p l').
Qed.

Lemma concat_filter_nonEmpty (rows : list (list string)) :
  List.concat (filter nonEmptyRow rows) = List.concat rows.
Proof.
  induction rows as [|row rows IH]; [reflexivity|].
  destruct row as [|c row]; simpl; [exact IH|now rewrite IH].
Qed.

Lemma rowOfCells_concat (groups : list (list Cell)) :
  List.concat (map rowOfCells groups) = rowOfCells (List.concat groups).
Proof.
  induction groups as [|g groups IH]; [reflexivity|]. cbn [map List.concat].
  rewrite IH. unfold rowOfCells. now rewrite map_app, filter_app.
Qed.

Lemma allCells_texts (items : list Item) :
  map cstr (allCells items) = fragmentTexts items.
Proof.
  induction items as [|[x y s|] items IH]; [reflexivity| |exact IH].
  unfold allCells, fragmentTexts in *. cbn [flat_map app map cstr]. now rewrite IH.
Qed.

(** The cells of the rows of a page, against the texts of its
    fragments. *)
Lemma pageRows_conserve (items : list Item) :
  Permutation (List.concat (pageRows items))
              (filter JS.truthy (map JS.trim (fragmentTexts items))).
Proof.
  unfold pageRows. rewrite concat_filter_nonEmpty.
  rewrite <- (map_map snd rowOfCells), rowOfCells_concat.
  unfold rowOfCells. apply filter_perm.
  rewrite <- allCells_texts, map_map. apply Permutation_map.
  destruct (keys_buildRowsMap items) as [Hnd Hkeys].
  set (keys := sortDesc (map fst (buildRowsMap items))).
  assert (Hkeys' : forall k, In k keys <-> cellsAt k items <> []).
  { intros k. unfold keys. rewrite In_sortDesc. apply Hkeys. }
  assert (Hnd' : NoDup keys).
  { unfold keys. pose proof (sortDesc_sorted _ Hnd) as Hs.
    clear -Hs. induction Hs as [|a l _ IH Hall]; constructor; [|exact IH].
    intros Hin. rewrite Forall_forall in Hall. specialize (Hall a Hin). lia. }
  transitivity (flat_map (fun k => cellsAt k items) keys).
  - unfold pageGroups. fold keys.
    rewrite map_map. cbn [snd]. rewrite <- flat_map_concat_map.
    apply flat_map_perm_pointwise. intros k.
    rewrite rowAt_buildRowsMap. apply sortCells_perm.
  - apply groups_partition; [exact Hnd'|].
    intros x y s Hin. apply Hkeys'. unfold cellsAt. intros E.
    assert (Hc : In (mkCell x s) (flat_map (fun item => match item with
                      | TextItem x y0 s =>
                          if mathRound y0 =? mathRound y then [mkCell x s] else []
                      | MarkedContent => []
                      end) items)).
    { apply in_flat_map. exists (TextItem x y s). split; [exact Hin|].
      rewrite Z.eqb_refl. now left. }
    rewrite E in Hc. contradiction.
Qed.

Lemma buildRowsMap_text_only (items : list Item) :
  buildRowsMap (filter isTextItem items) = buildRowsMap items.
Proof.
  unfold buildRowsMap. generalize (@nil (Z * list Cell)) as m.
  induction items as [|[x y s|] items IH]; intros m; [reflexivity|apply IH|apply IH].
Qed.

(** X8.  The layout reconstruction neither loses nor invents text: the
    cells of the rows of a document are, up to order, the trimmed texts
    of its text fragments that are not empty, each as many times as it
    occurs; fragments that are not text contribute nothing, and a page
    whose texts all trim to nothing contributes no row. *)
Theorem layout_conserves_text (pages : list (list Item)) :
  Permutation (List.concat (allRowsOf pages))
              (filter JS.truthy (map JS.trim (flat_map fragmentTexts pages))) /\
  Forall (fun items =>
            pageRows (filter isTextItem items) = pageRows items /\
            (Forall (fun s => JS.trim s = EmptyString) (fragmentTexts items) ->
             pageRows items = [])) pages.
Proof.
  split.
  - unfold allRowsOf. induction pages as [|items pages IH]; [reflexivity|].
    cbn [flat_map]. rewrite concat_app, map_app, filter_app.
    apply Permutation_app; [apply pageRows_conserve|exact IH].
  - apply Forall_forall. intros items _. split.
    + unfold pageRows, pageGroups. now rewrite buildRowsMap_text_only.
    + intros Hall. pose proof (pageRows_conserve items) as Hperm.
      assert (E : filter JS.truthy (map JS.trim (fragmentTexts items)) = []).
      { revert Hall. generalize (fragmentTexts items) as l.
        induction 1 as [|s l Hs _ IH]; [reflexivity|].
        cbn [map filter]. now rewrite Hs. }
      rewrite E in Hperm. apply Permutation_sym, Permutation_nil in Hperm.
      assert (Hrows : Forall (fun row => row <> []) (pageRows items)).
      { unfold pageRows. apply Forall_forall. intros row Hrow.
        apply filter_In in Hrow. destruct Hrow as [_ H].
        destruct row; [discriminate|discriminate]. }
      destruct (pageRows items) as [|row rows]; [reflexivity|].
      inversion Hrows; subst. cbn [List.concat] in Hperm.
      destruct row; [congruence|discriminate].
Qed.

(** ** What the upload handler reads and what it leaves alone *)

Lemma findIndex_bound {A : Type} (p : A -> bool) (l : list A) (n : nat) :
  findIndex p l = Some n -> (n < List.length l)%nat.
Proof.
  revert n. induction l as [|a l IH]; intros n; cbn [findIndex]; [discriminate|].
  destruct (p a); [intros H; injection H as <-; simpl; lia|].
  destruct (findIndex p l) as [k|]; [|discriminate].
  intros H. injection H as <-. specialize (IH k eq_refl). simpl. lia.
Qed.

Lemma findIndex_app_found {A : Type} (p : A -> bool) (l e : list A) (n : nat) :
  findIndex p l = Some n -> findIndex p (l ++ e) = Some n.
Proof.
  revert n. induction l as [|a l IH]; intros n; cbn [findIndex app]; [discriminate|].
  destruct (p a); [trivial|].
  destruct (findIndex p l) as [k|]; [|discriminate].
  intros H. now rewrite (IH k eq_refl).
Qed.

Lemma firstn_app_within {A : Type} (n : nat) (l e : list A) :
  (n <= List.length l)%nat -> firstn n (l ++ e) = firstn n l.
Proof.
  intros H. rewrite firstn_app.
  replace (n - List.length l)%nat with O by lia. cbn [firstn]. apply app_nil_r.
Qed.

Lemma slice_app_within {A : Type} (a b : nat) (l e : list A) :
  (b <= List.length l)%nat -> slice a b (l ++ e) = slice a b l.
Proof.
  intros H. unfold slice.
  destruct (Nat.le_gt_cases a (List.length l)) as [Ha | Ha].
  - rewrite skipn_app. replace (a - List.length l)%nat with O by lia.
    cbn [skipn]. apply firstn_app_within. rewrite length_skipn. lia.
  - replace (b - a)%nat with O by lia. reflexivity.
Qed.

(** X9.  Once the rows hold a header row and a footer row, whatever
    follows them does not matter: rows appended to the sequence change
    nothing in the outcome of the upload handler, in either variant. *)
Theorem rows_after_footer_ignored (app : App)
  (allRows extra : list (list string)) (headIdx tailIdx : nat) :
  findIndex (firstCellIs "Title") allRows = Some headIdx ->
  findIndex (firstCellIs "Total Hours") allRows = Some tailIdx ->
  LocalVariant.handleRows app (allRows ++ extra)
  = LocalVariant.handleRows app allRows /\
  UtcVariant.handleRows app (allRows ++ extra)
  = UtcVariant.handleRows app allRows.
Proof.
  intros Hh Ht.
  pose proof (findIndex_bound _ _ _ Hh) as Bh.
  pose proof (findIndex_bound _ _ _ Ht) as Bt.
  unfold LocalVariant.handleRows, UtcVariant.handleRows.
  rewrite (findIndex_app_found _ _ extra _ Hh), (findIndex_app_found _ _ extra _ Ht).
  rewrite Hh, Ht.
  assert (Es : scheduleLine headIdx (allRows ++ extra) = scheduleLine headIdx allRows).
  { unfold scheduleLine. rewrite firstn_app_within by lia. reflexivity. }
  rewrite Es, (slice_app_within (headIdx + 1) tailIdx allRows extra) by lia.
  split; reflexivity.
Qed.

Lemma rows_after_footer_ignored_witness :
  LocalVariant.handleRows freshApp (exampleRows ++ [["Title"]; ["Page 2"]])
  = LocalVariant.handleRows freshApp exampleRows.
Proof.
  exact (proj1 (rows_after_footer_ignored freshApp exampleRows
                  [["Title"]; ["Page 2"]] 0 5 eq_refl eq_refl)).
Defined.

Lemma nth_error_firstn_some {A : Type} (n i : nat) (l : list A) (x : A) :
  nth_error (firstn n l) i = Some x -> (i < n)%nat /\ nth_error l i = Some x.
Proof.
  revert i l. induction n as [|n IH]; intros i l; cbn [firstn].
  - destruct i; discriminate.
  - destruct l as [|a l]; [destruct i; discriminate|].
    destruct i as [|i]; cbn [nth_error]; [intros H; split; [lia|exact H]|].
    intros H. apply IH in H. split; [lia|tauto].
Qed.

Lemma nth_error_firstn_within {A : Type} (n i : nat) (l : list A) :
  (i < n)%nat -> nth_error (firstn n l) i = nth_error l i.
Proof.
  revert i l. induction n as [|n IH]; intros i l H; [lia|].
  destruct l as [|a l]; [reflexivity|]. destruct i as [|i]; [reflexivity|].
  cbn [firstn nth_error]. apply IH. lia.
Qed.

(** The last element of a list that passes a test, found from the
    end. *)
Lemma find_rev_last {A : Type} (p : A -> bool) (l : list A) (x : A) :
  find p (rev l) = Some x ->
  exists i, nth_error l i = Some x /\ p x = true /\
            forall j y, (i < j)%nat -> nth_error l j = Some y -> p y = false.
Proof.
  induction l as [|a l IH] using rev_ind; [discriminate|].
  rewrite rev_app_distr. cbn [rev app find].
  destruct (p a) eqn:E.
  - intros H. injection H as <-. exists (List.length l).
    split; [now rewrite nth_error_app2, Nat.sub_diag by lia|].
    split; [exact E|]. intros j y Hj Hy.
    assert (Hnone : nth_error (l ++ [a]) j = None).
    { apply nth_error_None. rewrite length_app. simpl. lia. }
    congruence.
  - intros H. destruct (IH H) as (i & Hi & Hp & Hlater).
    assert (Hlt : (i < List.length l)%nat) by (apply nth_error_Some; congruence).
    exists i. split; [now rewrite nth_error_app1|]. split; [exact Hp|].
    intros j y Hj Hy.
    destruct (Nat.lt_ge_cases j (List.length l)) as [Hjl | Hjl].
    + rewrite nth_error_app1 in Hy by exact Hjl. now apply (Hlater j).
    + rewrite nth_error_app2 in Hy by exact Hjl.
      destruct (j - List.length l)%nat as [|k]; cbn [nth_error] in Hy.
      * now injection Hy as <-.
      * destruct k; discriminate.
Qed.

(** The title line, when there is one: the first cell of the nearest
    row above the header row that ends with [Schedule]. *)
Lemma scheduleLine_nearest (h : nat) (allRows : list (list string)) (c : string) :
  scheduleLine h allRows = Some c ->
  exists i rest,
    (i < h)%nat /\ nth_error allRows i = Some (c :: rest) /\
    JS.endsWithSchedule c = true /\
    forall j row, (i < j < h)%nat -> nth_error allRows j = Some row ->
                  endsScheduleRow row = false.
Proof.
  unfold scheduleLine. fold endsScheduleRow.
  destruct (find endsScheduleRow (rev (firstn h allRows))) as [row|] eqn:E;
    [|discriminate].
  destruct row as [|c0 rest]; [discriminate|]. intros H. injection H as <-.
  destruct (find_rev_last _ _ _ E) as (i & Hi & Hp & Hlater).
  apply nth_error_firstn_some in Hi. destruct Hi as [Hih Hi].
  exists i, rest. repeat split; try assumption.
  intros j row [Hij Hjh] Hrow. apply (Hlater j row Hij).
  now rewrite nth_error_firstn_within.
Qed.

Lemma setFilename_frame (line : option string) (app : App) :
  courses (setFilename line app) = courses app /\
  selectedCourses (setFilename line app) = selectedCourses app.
Proof. destruct line; split; reflexivity. Qed.

(** X10.  The upload handler of either variant never touches the
    selection, so a selection made before a new upload outlives the
    courses it was made from.  It changes the file name only to the
    first cell of a row above the header row that ends with [Schedule]
    in any letter case, and of such rows it takes the one nearest to the
    header row. *)
Theorem upload_frame (app : App) (allRows : list (list string)) :
  Forall (fun out =>
    selectedCourses (after out) = selectedCourses app /\
    (filename (after out) = filename app \/
     exists headIdx i rest,
       findIndex (firstCellIs "Title") allRows = Some headIdx /\
       (i < headIdx)%nat /\
       nth_error allRows i = Some (filename (after out) :: rest) /\
       JS.endsWithSchedule (filename (after out)) = true /\
       forall j row, (i < j < headIdx)%nat -> nth_error allRows j = Some row ->
                     endsScheduleRow row = false))
    [LocalVariant.handleRows app allRows; UtcVariant.handleRows app allRows].
Proof.
  set (Q := fun out : Outcome =>
    selectedCourses (after out) = selectedCourses app /\
    (filename (after out) = filename app \/
     exists headIdx i rest,
       findIndex (firstCellIs "Title") allRows = Some headIdx /\
       (i < headIdx)%nat /\
       nth_error allRows i = Some (filename (after out) :: rest) /\
       JS.endsWithSchedule (filename (after out)) = true /\
       forall j row, (i < j < headIdx)%nat -> nth_error allRows j = Some row ->
                     endsScheduleRow row = false)).
  assert (Q0 : forall b, Q (mkOutcome app b)) by (intros b; split; [reflexivity|now left]).
  assert (Q1 : forall h b,
            findIndex (firstCellIs "Title") allRows = Some h ->
            Q (mkOutcome (setFilename (scheduleLine h allRows) app) b)).
  { intros h b Hh. split; [apply setFilename_frame|]. cbn [after].
    destruct (scheduleLine h allRows) as [c|] eqn:E; [|now left].
    right. destruct (scheduleLine_nearest _ _ _ E) as (i & rest & H1 & H2 & H3 & H4).
    exists h, i, rest. cbn [setFilename filename]. repeat split; assumption. }
  assert (Q2 : forall h b cs,
            findIndex (firstCellIs "Title") allRows = Some h ->
            Q (mkOutcome (setCourses cs (setFilename (scheduleLine h allRows) app)) b)).
  { intros h b cs Hh. exact (Q1 h b Hh). }
  constructor; [|constructor; [|constructor]].
  - unfold LocalVariant.handleRows.
    destruct (findIndex (firstCellIs "Title") allRows) as [h|] eqn:Hh; [|apply Q0].
    destruct (findIndex (firstCellIs "Total Hours") allRows) as [t|]; [|apply Q0].
    destruct (t <=? h)%nat; [apply Q0|].
    destruct (slice (h + 1) t allRows) as [|row rows]; [now apply Q1|].
    destruct (LocalVariant.parseBody (row :: rows)); [now apply Q2|now apply Q1].
  - unfold UtcVariant.handleRows.
    destruct (findIndex (firstCellIs "Title") allRows) as [h|] eqn:Hh; [|apply Q0].
    destruct (findIndex (firstCellIs "Total Hours") allRows) as [t|]; [|apply Q0].
    destruct (t <=? h)%nat; [apply Q0|].
    destruct (slice (h + 1) t allRows) as [|row rows]; [now apply Q1|].
    destruct (UtcVariant.parseBody (row :: rows)); [now apply Q2|now apply Q1].
Qed.

(** ** The classifier-based loop, row by row *)

(** What the loop does with a row of each kind. *)
Lemma processRow_kinds (st : LocalVariant.ParseState) (row : list string) :
  match classify row with
  | HeaderRow =>
      LocalVariant.processRow st row =
      st1 <- LocalVariant.finalizeMeeting st ;;
      Normal (LocalVariant.mkState
                (LocalVariant.dateStringsOf (LocalVariant.dateRangeCell row))
                (LocalVariant.parsedCourses st1)
                (Some (LocalVariant.mkBase (NumberOf (nth 3 row EmptyString))
                         (nth 0 row EmptyString) (nth 1 row EmptyString)))
                None)
  | BlankRow => LocalVariant.processRow st row = Normal st
  | DateRangeRow =>
      LocalVariant.processRow st row =
      st1 <- LocalVariant.finalizeMeeting st ;;
      let m := LocalVariant.spread (LocalVariant.pendingMeeting st1) in
      Normal (LocalVariant.mkState (LocalVariant.dateStringsOf (rowText row))
                (LocalVariant.parsedCourses st1) (LocalVariant.baseCourse st1)
                (Some (Meeting.mk (Meeting.day m) (Meeting.timeStrings m)
                         (Meeting.campus m) (Meeting.location m) (Meeting.room m)
                         (Some (LocalVariant.dateStringsOf (rowText row))))))
  | DayRow =>
      LocalVariant.processRow st row =
      st1 <- (match LocalVariant.pendingMeeting st with
              | Some pm =>
                  match Meeting.day pm, Meeting.timeStrings pm with
                  | Some _, Some _ => LocalVariant.finalizeMeeting st
                  | _, _ => Normal st
                  end
              | None => Normal st
              end) ;;
      let m := LocalVariant.spread (LocalVariant.pendingMeeting st1) in
      Normal (LocalVariant.setPending
                (Some (Meeting.mk (Some (map JS.trim (JS.split "," (rowText row))))
                         (Meeting.timeStrings m)
                         (Meeting.campus m) (Meeting.location m) (Meeting.room m)
                         (Meeting.dateStrings m)))
                st1)
  | TimeRow =>
      LocalVariant.processRow st row =
      let m := LocalVariant.spread (LocalVariant.pendingMeeting st) in
      Normal (LocalVariant.setPending
                (Some (Meeting.mk (Meeting.day m)
                         (Some (map JS.trim
                                  (JS.splitLimit "-" 2 (JS.removeSpaces (rowText row)))))
                         (Meeting.campus m) (Meeting.location m) (Meeting.room m)
                         (Meeting.dateStrings m)))
                st)
  | OtherRow =>
      LocalVariant.processRow st row = Normal st \/
      LocalVariant.processRow st row =
      Normal (LocalVariant.setPending
                (Some (LocalVariant.locationDraft (LocalVariant.pendingMeeting st)
                         (rowText row))) st)
  end.
Proof.
  unfold classify, LocalVariant.processRow. fold (rowText row).
  destruct (LocalVariant.isHeaderRow row); [reflexivity|].
  destruct (JS.isEmpty (rowText row)); [reflexivity|].
  destruct (JS.test JS.dateRangeRegex (rowText row)); [reflexivity|].
  destruct (LocalVariant.isDayRow (rowText row)); [reflexivity|].
  destruct (LocalVariant.isTimeRow (rowText row)); [reflexivity|].
  destruct (LocalVariant.locationCandidate _ _ _); [|now left].
  destruct (LocalVariant.hasAsterisk _ || LocalVariant.hasRoomNumber _);
    [now right|now left].
Qed.

(** What [finalizeMeeting] can do to a state: nothing, or append one
    course that carries the base course and clear the meeting in
    progress, which then had a day-set. *)
Lemma finalizeMeeting_effect (st st' : LocalVariant.ParseState) :
  LocalVariant.finalizeMeeting st = Normal st' ->
  st' = st \/
  exists base c,
    LocalVariant.baseCourse st = Some base /\
    crn c = LocalVariant.b_crn base /\ title c = LocalVariant.b_title base /\
    details c = LocalVariant.b_details base /\
    pendingDay st = 1%nat /\
    st' = LocalVariant.mkState (LocalVariant.currentDateStrings st)
            (LocalVariant.parsedCourses st ++ [c])
            (LocalVariant.baseCourse st) None.
Proof.
  unfold LocalVariant.finalizeMeeting, pendingDay.
  destruct (LocalVariant.baseCourse st) as [base|]; [|intros H; injection H; auto].
  destruct (LocalVariant.pendingMeeting st) as [pm|]; [|intros H; injection H; auto].
  destruct (Meeting.day pm) as [days|]; [|intros H; injection H; auto].
  destruct (Meeting.timeStrings pm) as [ts|]; [|intros H; injection H; auto].
  destruct (List.length _ <? 2)%nat; [intros H; injection H; auto|].
  destruct (LocalVariant.resolveMeeting _ _ _) as [[[s e] u]|]; [|discriminate].
  cbn [bindC]. intros H. injection H as <-. right.
  eexists base, _. repeat split; reflexivity.
Qed.

(** X11.  Finalizing is idempotent: once [finalizeMeeting] has ended
    normally, calling it again on the state it left changes nothing and
    appends no second course. *)
Theorem finalizeMeeting_idempotent (st st' : LocalVariant.ParseState) :
  LocalVariant.finalizeMeeting st = Normal st' ->
  LocalVariant.finalizeMeeting st' = Normal st'.
Proof.
  intros H. destruct (finalizeMeeting_effect _ _ H) as [-> | (base & c & _ & _ & _ & _ & _ & ->)].
  - exact H.
  - unfold LocalVariant.finalizeMeeting. cbn [LocalVariant.baseCourse
      LocalVariant.pendingMeeting]. now destruct (LocalVariant.baseCourse st).
Qed.

Lemma finalizeMeeting_idempotent_witness :
  exists st',
    LocalVariant.finalizeMeeting exampleState = Normal st' /\
    LocalVariant.parsedCourses st' <> [] /\
    LocalVariant.finalizeMeeting st' = Normal st'.
Proof.
  eexists. split; [vm_compute; reflexivity|]. split; [discriminate|].
  apply (finalizeMeeting_idempotent exampleState). vm_compute. reflexivity.
Defined.

Lemma finalizeMeeting_no_base (st : LocalVariant.ParseState) :
  LocalVariant.baseCourse st = None -> LocalVariant.finalizeMeeting st = Normal st.
Proof. intros H. unfold LocalVariant.finalizeMeeting. now rewrite H. Qed.

Lemma processRow_no_base (st : LocalVariant.ParseState) (row : list string) :
  LocalVariant.isHeaderRow row = false ->
  LocalVariant.baseCourse st = None ->
  exists st', LocalVariant.processRow st row = Normal st' /\
              LocalVariant.baseCourse st' = None /\
              LocalVariant.parsedCourses st' = LocalVariant.parsedCourses st.
Proof.
  intros Hh Hb. pose proof (processRow_kinds st row) as H.
  pose proof (finalizeMeeting_no_base st Hb) as Hfin.
  unfold classify in H. rewrite Hh in H.
  destruct (JS.isEmpty (rowText row)); [now exists st|].
  destruct (JS.test JS.dateRangeRegex (rowText row)).
  { rewrite Hfin in H. cbn [bindC] in H. cbv zeta in H.
    eexists. split; [exact H|]. now split. }
  destruct (LocalVariant.isDayRow (rowText row)).
  { assert (E : (match LocalVariant.pendingMeeting st with
                 | Some pm =>
                     match Meeting.day pm, Meeting.timeStrings pm with
                     | Some _, Some _ => LocalVariant.finalizeMeeting st
                     | _, _ => Normal st
                     end
                 | None => Normal st
                 end) = Normal st).
    { destruct (LocalVariant.pendingMeeting st) as [pm|]; [|reflexivity].
      destruct (Meeting.day pm); [|reflexivity].
      destruct (Meeting.timeStrings pm); [exact Hfin|reflexivity]. }
    rewrite E in H. cbn [bindC] in H. cbv zeta in H.
    eexists. split; [exact H|]. now split. }
  destruct (LocalVariant.isTimeRow (rowText row)).
  { cbv zeta in H. eexists. split; [exact H|]. now split. }
  destruct H as [H | H]; eexists; (split; [exact H|]); now split.
Qed.

(** X12.  Without a course header row nothing is exported from a table
    body: whatever day, time, date-range and location rows it holds, the
    classifier-based parse ends normally with no course. *)
Theorem no_header_no_course (validRows : list (list string)) :
  Forall (fun row => LocalVariant.isHeaderRow row = false) validRows ->
  LocalVariant.parseBody validRows = Normal [].
Proof.
  intros Hrows. unfold LocalVariant.parseBody.
  assert (G : forall st, LocalVariant.baseCourse st = None ->
              exists st', LocalVariant.processRows st validRows = Normal st' /\
                          LocalVariant.baseCourse st' = None /\
                          LocalVariant.parsedCourses st'
                          = LocalVariant.parsedCourses st).
  { induction Hrows as [|row rows Hrow _ IH]; intros st Hb.
    - exists st. now repeat split.
    - destruct (processRow_no_base st row Hrow Hb) as (st1 & H1 & Hb1 & Hp1).
      destruct (IH st1 Hb1) as (st2 & H2 & Hb2 & Hp2).
      exists st2. cbn [LocalVariant.processRows]. rewrite H1. cbn [bindC].
      repeat split; [exact H2|exact Hb2|congruence]. }
  destruct (G LocalVariant.initialState eq_refl) as (st' & H & Hb & Hp).
  rewrite H. cbn [bindC]. rewrite (finalizeMeeting_no_base st' Hb). cbn [bindC].
  now rewrite Hp.
Qed.

Lemma no_header_no_course_witness :
  Forall (fun row => LocalVariant.isHeaderRow row = false) orphanRows /\
  LocalVariant.parseBody orphanRows = Normal [].
Proof.
  assert (H : Forall (fun row => LocalVariant.isHeaderRow row = false) orphanRows)
    by (repeat constructor).
  split; [exact H|exact (no_header_no_course orphanRows H)].
Defined.

Lemma pendingDay_spread (cds : list string) (cs : list Course)
  (b : option LocalVariant.Base) (pm : option Meeting.t)
  (ts ds : option (list string)) (ca lo ro : option string) :
  pendingDay (LocalVariant.mkState cds cs b
                (Some (Meeting.mk (Meeting.day (LocalVariant.spread pm))
                                  ts ca lo ro ds)))
  = match pm with
    | Some m => match Meeting.day m with Some _ => 1%nat | None => 0%nat end
    | None => 0%nat
    end.
Proof. unfold pendingDay. cbn. now destruct pm. Qed.

(** What one row can do: it leaves the courses already parsed as they
    are and appends at most one course, which carries the base course
    that was current; it changes the base course only when it is a
    header row; and only a day row can add to the number of courses
    parsed plus day-sets in progress. *)
Lemma processRow_effect (st st' : LocalVariant.ParseState) (row : list string) :
  LocalVariant.processRow st row = Normal st' ->
  (LocalVariant.parsedCourses st' = LocalVariant.parsedCourses st \/
   exists base c,
     LocalVariant.baseCourse st = Some base /\ carriesBase base c /\
     LocalVariant.parsedCourses st' = LocalVariant.parsedCourses st ++ [c]) /\
  (LocalVariant.baseCourse st' = LocalVariant.baseCourse st \/
   (LocalVariant.isHeaderRow row = true /\
    LocalVariant.baseCourse st' = Some (baseOfHeader row))) /\
  (List.length (LocalVariant.parsedCourses st') + pendingDay st'
   <= List.length (LocalVariant.parsedCourses st) + pendingDay st
      + (if isKind DayRow row then 1 else 0))%nat.
Proof.
  assert (Hfin : forall st1,
            LocalVariant.finalizeMeeting st = Normal st1 ->
            (LocalVariant.parsedCourses st1 = LocalVariant.parsedCourses st \/
             exists base c,
               LocalVariant.baseCourse st = Some base /\ carriesBase base c /\
               LocalVariant.parsedCourses st1 = LocalVariant.parsedCourses st ++ [c]) /\
            LocalVariant.baseCourse st1 = LocalVariant.baseCourse st /\
            (List.length (LocalVariant.parsedCourses st1) + pendingDay st1
             = List.length (LocalVariant.parsedCourses st) + pendingDay st)%nat).
  { intros st1 H1.
    destruct (finalizeMeeting_effect _ _ H1)
      as [-> | (base & c & Hb & H2 & H3 & H4 & H5 & ->)].
    - repeat split; auto.
    - split; [right; exists base, c; repeat split; assumption|].
      split; [reflexivity|].
      cbn [LocalVariant.parsedCourses]. rewrite length_app, H5.
      unfold pendingDay. cbn. lia. }
  intros Hrow. pose proof (processRow_kinds st row) as Hk.
  unfold isKind. destruct (classify row) eqn:K.
  - (* header *)
    rewrite Hk in Hrow.
    destruct (LocalVariant.finalizeMeeting st) as [st1|] eqn:E; [|discriminate].
    cbn [bindC] in Hrow. injection Hrow as <-.
    destruct (Hfin st1 eq_refl) as (Hp & Hb & Hm).
    cbn [LocalVariant.parsedCourses LocalVariant.baseCourse].
    split; [exact Hp|]. split.
    + right. split; [|reflexivity]. unfold classify in K.
      destruct (LocalVariant.isHeaderRow row); [reflexivity|].
      destruct (JS.isEmpty _); [discriminate|].
      destruct (JS.test _ _); [discriminate|].
      destruct (LocalVariant.isDayRow _); [discriminate|].
      destruct (LocalVariant.isTimeRow _); discriminate.
    + unfold pendingDay at 1. cbn. lia.
  - (* blank *)
    rewrite Hk in Hrow. injection Hrow as <-.
    split; [now left|]. split; [now left|lia].
  - (* date range *)
    rewrite Hk in Hrow.
    destruct (LocalVariant.finalizeMeeting st) as [st1|] eqn:E; [|discriminate].
    cbn [bindC] in Hrow. cbv zeta in Hrow. injection Hrow as <-.
    destruct (Hfin st1 eq_refl) as (Hp & Hb & Hm).
    cbn [LocalVariant.parsedCourses LocalVariant.baseCourse].
    split; [exact Hp|]. split; [now left|].
    rewrite pendingDay_spread. fold (pendingDay st1). lia.
  - (* day *)
    rewrite Hk in Hrow.
    match type of Hrow with
    | bindC ?x _ = _ => destruct x as [st1|] eqn:E; [|discriminate]
    end.
    cbn [bindC] in Hrow. cbv zeta in Hrow. injection Hrow as <-.
    assert (H1 : st1 = st \/ LocalVariant.finalizeMeeting st = Normal st1).
    { destruct (LocalVariant.pendingMeeting st) as [pm|];
        [|injection E as <-; now left].
      destruct (Meeting.day pm); [|injection E as <-; now left].
      destruct (Meeting.timeStrings pm); [now right|injection E as <-; now left]. }
    unfold LocalVariant.setPending.
    cbn [LocalVariant.parsedCourses LocalVariant.baseCourse].
    unfold pendingDay at 1.
    cbn [LocalVariant.pendingMeeting Meeting.day LocalVariant.parsedCourses LocalVariant.baseCourse].
    destruct H1 as [-> | H1].
    + split; [now left|]. split; [now left|lia].
    + destruct (Hfin st1 H1) as (Hp & Hb & Hm).
      split; [exact Hp|]. split; [now left|lia].
  - (* time *)
    rewrite Hk in Hrow. cbv zeta in Hrow. injection Hrow as <-.
    unfold LocalVariant.setPending.
    cbn [LocalVariant.parsedCourses LocalVariant.baseCourse].
    split; [now left|]. split; [now left|].
    rewrite pendingDay_spread. fold (pendingDay st). lia.
  - (* other *)
    destruct Hk as [Hk | Hk]; rewrite Hk in Hrow; injection Hrow as <-.
    + split; [now left|]. split; [now left|lia].
    + unfold LocalVariant.setPending.
    cbn [LocalVariant.parsedCourses LocalVariant.baseCourse].
      split; [now left|]. split; [now left|].
      unfold LocalVariant.locationDraft.
      destruct (split3 _ _) as [[[l m] r]|]; rewrite pendingDay_spread;
        fold (pendingDay st); lia.
Qed.

(** X13.  Every course the classifier-based parse returns carries the
    title, details and crn cells of a course header row of the table
    body: courses come from header rows only. *)
Theorem courses_come_from_headers (validRows : list (list string))
  (cs : list Course) :
  LocalVariant.parseBody validRows = Normal cs ->
  Forall (fun c => exists row,
            In row validRows /\ LocalVariant.isHeaderRow row = true /\
            fromHeader row c) cs.
Proof.
  set (known := fun (R : list (list string)) (c : Course) =>
                  exists row, In row R /\ LocalVariant.isHeaderRow row = true /\
                              fromHeader row c).
  set (inv := fun (R : list (list string)) (st : LocalVariant.ParseState) =>
                (forall base, LocalVariant.baseCourse st = Some base ->
                   exists row, In row R /\ LocalVariant.isHeaderRow row = true /\
                               base = baseOfHeader row) /\
                Forall (known R) (LocalVariant.parsedCourses st)).
  assert (Hemit : forall R st base c,
            inv R st -> LocalVariant.baseCourse st = Some base ->
            carriesBase base c -> known R c).
  { intros R st base c [Hb _] E (H1 & H2 & H3).
    destruct (Hb base E) as (row & Hin & Hh & ->).
    exists row. repeat split; assumption. }
  assert (Hmono : forall R row st, inv R st -> inv (R ++ [row]) st).
  { intros R row st [Hb Hp]. split.
    - intros base E. destruct (Hb base E) as (r & Hin & Hr).
      exists r. split; [apply in_or_app; now left|exact Hr].
    - eapply Forall_impl; [|exact Hp]. intros c (r & Hin & Hr).
      exists r. split; [apply in_or_app; now left|exact Hr]. }
  assert (Hstep : forall R st st' row,
            inv R st -> LocalVariant.processRow st row = Normal st' ->
            inv (R ++ [row]) st').
  { intros R st st' row Hinv Hrow.
    destruct (processRow_effect _ _ _ Hrow) as (Hp & Hb & _).
    pose proof (Hmono R row st Hinv) as [Hb' Hp'].
    split.
    - intros base E. destruct Hb as [Hb | [Hh Hb]].
      + apply Hb'. congruence.
      + exists row. split; [apply in_or_app; right; now left|].
        split; [exact Hh|congruence].
    - destruct Hp as [-> | (base & c & E & Hc & ->)]; [exact Hp'|].
      apply Forall_app. split; [exact Hp'|]. constructor; [|constructor].
      destruct (Hemit R st base c Hinv E Hc) as (r & Hin & Hr).
      exists r. split; [apply in_or_app; now left|exact Hr]. }
  assert (Hloop : forall rows R st st',
            inv R st -> LocalVariant.processRows st rows = Normal st' ->
            inv (R ++ rows) st').
  { induction rows as [|row rows IH]; intros R st st' Hinv H;
      cbn [LocalVariant.processRows] in H.
    - injection H as <-. now rewrite app_nil_r.
    - destruct (LocalVariant.processRow st row) as [st1|] eqn:E; [|discriminate].
      cbn [bindC] in H.
      replace (R ++ row :: rows) with ((R ++ [row]) ++ rows)
        by (now rewrite <- app_assoc).
      eapply IH; [|exact H]. eapply Hstep; eassumption. }
  intros H. unfold LocalVariant.parseBody in H.
  destruct (LocalVariant.processRows _ _) as [st|] eqn:Hrows; [|discriminate].
  cbn [bindC] in H.
  destruct (LocalVariant.finalizeMeeting st) as [st'|] eqn:Hfin; [|discriminate].
  cbn [bindC] in H. injection H as <-.
  assert (Hinv : inv validRows st).
  { apply (Hloop validRows [] LocalVariant.initialState st); [|exact Hrows].
    split; [discriminate|constructor]. }
  destruct (finalizeMeeting_effect _ _ Hfin)
    as [-> | (base & c & Hb & H2 & H3 & H4 & _ & ->)]; [apply Hinv|].
  cbn [LocalVariant.parsedCourses]. apply Forall_app. split; [apply Hinv|].
  constructor; [|constructor].
  apply (Hemit validRows st base c Hinv Hb). repeat split; assumption.
Qed.

Lemma courses_come_from_headers_witness :
  exists cs,
    LocalVariant.parseBody (firstn 3 (skipn 1 exampleRows)) = Normal cs /\
    cs <> [] /\
    Forall (fun c => exists row,
              In row (firstn 3 (skipn 1 exampleRows)) /\
              LocalVariant.isHeaderRow row = true /\ fromHeader row c) cs.
Proof.
  eexists. split; [vm_compute; reflexivity|]. split; [discriminate|].
  apply (courses_come_from_headers (firstn 3 (skipn 1 exampleRows))).
  vm_compute. reflexivity.
Defined.

(** X14.  The classifier-based parse never returns more courses than
    the table body has day rows: a course needs a day-set, only a day
    row provides one, and emitting a course uses it up. *)
Theorem courses_bounded_by_day_rows (validRows : list (list string))
  (cs : list Course) :
  LocalVariant.parseBody validRows = Normal cs ->
  (List.length cs <= List.length (filter (isKind DayRow) validRows))%nat.
Proof.
  assert (Hloop : forall rows st st',
            LocalVariant.processRows st rows = Normal st' ->
            (List.length (LocalVariant.parsedCourses st') + pendingDay st'
             <= List.length (LocalVariant.parsedCourses st) + pendingDay st
                + List.length (filter (isKind DayRow) rows))%nat).
  { induction rows as [|row rows IH]; intros st st' H;
      cbn [LocalVariant.processRows] in H.
    - injection H as <-. cbn. lia.
    - destruct (LocalVariant.processRow st row) as [st1|] eqn:E; [|discriminate].
      cbn [bindC] in H. specialize (IH st1 st' H).
      destruct (processRow_effect _ _ _ E) as (_ & _ & Hm).
      cbn [filter]. destruct (isKind DayRow row); cbn [List.length]; lia. }
  intros H. unfold LocalVariant.parseBody in H.
  destruct (LocalVariant.processRows _ _) as [st|] eqn:Hrows; [|discriminate].
  cbn [bindC] in H.
  destruct (LocalVariant.finalizeMeeting st) as [st'|] eqn:Hfin; [|discriminate].
  cbn [bindC] in H. injection H as <-.
  specialize (Hloop _ _ _ Hrows). cbn in Hloop.
  destruct (finalizeMeeting_effect _ _ Hfin)
    as [-> | (base & c & _ & _ & _ & _ & Hd & ->)]; [lia|].
  cbn [LocalVariant.parsedCourses]. rewrite length_app. cbn [List.length]. lia.
Qed.

Lemma courses_bounded_by_day_rows_witness :
  exists cs,
    LocalVariant.parseBody (firstn 3 (skipn 1 exampleRows)) = Normal cs /\
    cs <> [] /\
    (List.length cs
     <= List.length (filter (isKind DayRow) (firstn 3 (skipn 1 exampleRows))))%nat.
Proof.
  eexists. split; [vm_compute; reflexivity|]. split; [discriminate|].
  apply (courses_bounded_by_day_rows (firstn 3 (skipn 1 exampleRows))).
  vm_compute. reflexivity.
Defined.

(** ** The positional loop, row by row *)

Lemma headerCells_nth (row : list string) (k : nat) :
  (k < 5)%nat ->
  nth k (UtcVariant.headerCells row) EmptyString = nth k row EmptyString.
Proof.
  intros Hk. unfold UtcVariant.headerCells.
  destruct (List.length row =? 6)%nat eqn:E; [|reflexivity].
  apply Nat.eqb_eq in E.
  rewrite app_nth1 by (rewrite length_firstn; lia).
  rewrite nth_firstn.
  destruct (Nat.ltb_spec k 5); [reflexivity|lia].
Qed.

Lemma timeRow_effect (c c' : Course) (current row : list string) :
  UtcVariant.timeRow c current row = Normal c' ->
  baseFields c' = baseFields c /\ day c' = day c /\
  start c' <> None /\ end_ c' <> None /\ until c' <> None.
Proof.
  unfold UtcVariant.timeRow. rewrite recurrenceBoundary_normal. cbn [bindC].
  match goal with
  | |- bindC ?x _ = _ -> _ => destruct x as [r|]; [|discriminate]
  end.
  cbn [bindC]. intros H. injection H as <-. cbn.
  repeat split; discriminate.
Qed.

(** What one row does in the positional loop.  A header row closes the
    course in progress and opens one with the cells of the row and no
    other field; any other row leaves the courses already parsed alone,
    moves the position by one, and fills the course in progress by
    position: the day-set at position 0, the three instants at
    position 1, nothing of these later. *)
Lemma positional_row_effect (st st' : UtcVariant.ParseState) (row : list string) :
  UtcVariant.processRow st row = Normal st' ->
  if UtcVariant.isHeaderRow row then
    UtcVariant.parsedCourses st' = UtcVariant.pushCurrent st /\
    UtcVariant.i st' = O /\
    exists c, UtcVariant.currentCourse st' = Some c /\
              baseFields c = headerFields row /\
              day c = None /\ unresolved c
  else
    UtcVariant.parsedCourses st' = UtcVariant.parsedCourses st /\
    UtcVariant.i st' = S (UtcVariant.i st) /\
    match UtcVariant.currentCourse st with
    | None => UtcVariant.currentCourse st' = None
    | Some c =>
        exists c', UtcVariant.currentCourse st' = Some c' /\
                   baseFields c' = baseFields c /\
                   match UtcVariant.i st with
                   | O => day c' <> None /\ start c' = start c /\
                          end_ c' = end_ c /\ until c' = until c
                   | S O => day c' = day c /\ start c' <> None /\
                            end_ c' <> None /\ until c' <> None
                   | _ => day c' = day c /\ start c' = start c /\
                          end_ c' = end_ c /\ until c' = until c
                   end
    end.
Proof.
  unfold UtcVariant.processRow.
  destruct (UtcVariant.isHeaderRow row) eqn:Hh.
  - intros H. injection H as <-. cbn.
    split; [reflexivity|]. split; [reflexivity|].
    eexists. split; [reflexivity|].
    unfold baseFields, headerFields, unresolved. cbn.
    rewrite !headerCells_nth by lia. repeat split; reflexivity.
  - cbv zeta.
    destruct (UtcVariant.currentCourse st) as [c|] eqn:Hc.
    + destruct (UtcVariant.i st) as [|[|[|n]]].
      * destruct row as [|c0 row]; [discriminate|].
        intros H. injection H as <-. cbn.
        repeat split. eexists. split; [reflexivity|]. cbn.
        repeat split. discriminate.
      * destruct (UtcVariant.timeRow c _ row) as [c'|] eqn:E; [|discriminate].
        cbn [bindC]. intros H. injection H as <-. cbn.
        destruct (timeRow_effect _ _ _ _ E) as (H1 & H2 & H3 & H4 & H5).
        repeat split. exists c'. repeat split; assumption.
      * destruct row as [|c0 row].
        -- intros H. injection H as <-. cbn. try rewrite Hc.
           repeat split. exists c. repeat split.
        -- destruct (split3 c0 ",") as [[[l m] r]|]; intros H; injection H as <-;
             cbn; repeat split.
           ++ eexists. split; [reflexivity|]. repeat split.
           ++ try rewrite Hc. exists c. repeat split.
      * intros H. injection H as <-. cbn. try rewrite Hc.
        repeat split. exists c. repeat split.
    + destruct (UtcVariant.i st) as [|[|[|n]]]; intros H; injection H as <-;
        cbn; try rewrite Hc; repeat split.
Qed.

(** X15.  The positional parse returns exactly one course for each
    header row of the table body, in the order of the rows, whatever
    stands between them; the course carries the crn, title and details
    cells of its header row. *)
Theorem positional_one_course_per_header (validRows : list (list string))
  (cs : list Course) :
  UtcVariant.parseBody validRows = Normal cs ->
  map baseFields cs
  = map headerFields (filter UtcVariant.isHeaderRow validRows).
Proof.
  assert (Hloop : forall rows st st',
            UtcVariant.processRows st rows = Normal st' ->
            map baseFields (UtcVariant.pushCurrent st')
            = map baseFields (UtcVariant.pushCurrent st)
              ++ map headerFields (filter UtcVariant.isHeaderRow rows)).
  { induction rows as [|row rows IH]; intros st st' H;
      cbn [UtcVariant.processRows] in H.
    - injection H as <-. cbn. now rewrite app_nil_r.
    - destruct (UtcVariant.processRow st row) as [st1|] eqn:E; [|discriminate].
      cbn [bindC] in H. rewrite (IH st1 st' H). clear IH H.
      apply positional_row_effect in E. cbn [filter].
      destruct (UtcVariant.isHeaderRow row).
      + destruct E as (Hp & _ & c & Hc & Hb & _).
        unfold UtcVariant.pushCurrent at 1. rewrite Hc, Hp.
        rewrite map_app. cbn [map]. rewrite Hb, <- app_assoc. reflexivity.
      + destruct E as (Hp & _ & Hc). f_equal.
        unfold UtcVariant.pushCurrent. rewrite Hp.
        destruct (UtcVariant.currentCourse st) as [c|].
        * destruct Hc as (c' & -> & Hb & _).
          rewrite !map_app. cbn [map]. now rewrite Hb.
        * now rewrite Hc. }
  intros H. unfold UtcVariant.parseBody in H.
  destruct (UtcVariant.processRows _ _) as [st|] eqn:Hrows; [|discriminate].
  cbn [bindC] in H. injection H as <-.
  apply (Hloop _ _ _ Hrows).
Qed.

Lemma positional_one_course_per_header_witness :
  exists cs,
    UtcVariant.parseBody (firstn 3 (skipn 1 exampleRows)) = Normal cs /\
    cs <> [] /\
    map baseFields cs
    = map headerFields
        (filter UtcVariant.isHeaderRow (firstn 3 (skipn 1 exampleRows))).
Proof.
  eexists. split; [vm_compute; reflexivity|]. split; [discriminate|].
  apply (positional_one_course_per_header (firstn 3 (skipn 1 exampleRows))).
  vm_compute. reflexivity.
Defined.

(** X16.  In the positional parse the three instants of a course are
    set together, and only after its day-set: every course returned has
    either none of start, end and until, or its day-set and all three.
    The table lets a course be selected without looking at its until
    field and the export needs it; for the courses of the positional
    parse the difference never shows: each one that can be selected
    gives an event. *)
Theorem positional_instants_together (validRows : list (list string))
  (cs : list Course) :
  UtcVariant.parseBody validRows = Normal cs ->
  Forall (fun c =>
            (unresolved c \/ resolved c) /\
            (enableRowSelection c = true ->
             exists e, UtcVariant.eventOf c = Some e)) cs.
Proof.
  set (ok := fun c : Course => unresolved c \/ resolved c).
  set (inv := fun st : UtcVariant.ParseState =>
                Forall ok (UtcVariant.parsedCourses st) /\
                match UtcVariant.currentCourse st with
                | None => True
                | Some c =>
                    match UtcVariant.i st with
                    | O => unresolved c
                    | S O => day c <> None /\ unresolved c
                    | _ => resolved c
                    end
                end).
  assert (Hcur : forall st c, inv st -> UtcVariant.currentCourse st = Some c -> ok c).
  { intros st c [_ H] Hc. rewrite Hc in H.
    destruct (UtcVariant.i st) as [|[|n]]; [now left|left; apply H|now right]. }
  assert (Hpush : forall st, inv st -> Forall ok (UtcVariant.pushCurrent st)).
  { intros st Hinv. unfold UtcVariant.pushCurrent.
    destruct (UtcVariant.currentCourse st) as [c|] eqn:Hc; [|apply Hinv].
    apply Forall_app. split; [apply Hinv|].
    constructor; [|constructor]. exact (Hcur st c Hinv Hc). }
  assert (Hstep : forall st st' row,
            inv st -> UtcVariant.processRow st row = Normal st' -> inv st').
  { intros st st' row Hinv Hrow. pose proof (Hpush st Hinv) as Hp.
    apply positional_row_effect in Hrow.
    destruct (UtcVariant.isHeaderRow row).
    - destruct Hrow as (Hparsed & Hi & c & Hc & _ & _ & Hu).
      split; [now rewrite Hparsed|]. now rewrite Hc, Hi.
    - destruct Hrow as (Hparsed & Hi & Hc).
      destruct Hinv as [Hall Hcurrent].
      split; [now rewrite Hparsed|]. rewrite Hi.
      destruct (UtcVariant.currentCourse st) as [c|]; [|now rewrite Hc].
      destruct Hc as (c' & -> & _ & Hf).
      destruct (UtcVariant.i st) as [|[|[|n]]].
      + destruct Hf as (Hd & Hs & He & Hu). split; [exact Hd|].
        destruct Hcurrent as (H1 & H2 & H3). repeat split; congruence.
      + destruct Hf as (Hd & Hs & He & Hu). destruct Hcurrent as [Hday _].
        repeat split; congruence.
      + destruct Hf as (Hd & Hs & He & Hu).
        destruct Hcurrent as (H0 & H1 & H2 & H3). repeat split; congruence.
      + destruct Hf as (Hd & Hs & He & Hu).
        destruct Hcurrent as (H0 & H1 & H2 & H3). repeat split; congruence. }
  assert (Hloop : forall rows st st',
            inv st -> UtcVariant.processRows st rows = Normal st' -> inv st').
  { induction rows as [|row rows IH]; intros st st' Hinv H;
      cbn [UtcVariant.processRows] in H.
    - now injection H as <-.
    - destruct (UtcVariant.processRow st row) as [st1|] eqn:E; [|discriminate].
      cbn [bindC] in H. eapply IH; [|exact H]. eapply Hstep; eassumption. }
  intros H. unfold UtcVariant.parseBody in H.
  destruct (UtcVariant.processRows _ _) as [st|] eqn:Hrows; [|discriminate].
  cbn [bindC] in H. injection H as <-.
  assert (Hinv : inv st).
  { apply (Hloop validRows UtcVariant.initialState st); [|exact Hrows].
    split; [constructor|exact I]. }
  eapply Forall_impl; [|exact (Hpush st Hinv)].
  intros c Hok. split; [exact Hok|].
  unfold enableRowSelection, UtcVariant.eventOf.
  destruct Hok as [(H1 & H2 & H3) | (H0 & H1 & H2 & H3)].
  - rewrite H1. destruct (day c); discriminate.
  - destruct (day c); [|congruence]. destruct (start c); [|congruence].
    destruct (end_ c); [|congruence]. destruct (until c); [|congruence].
    intros _. eexists. reflexivity.
Qed.

Lemma positional_instants_together_witness :
  exists cs,
    UtcVariant.parseBody (firstn 3 (skipn 1 exampleRows)) = Normal cs /\
    cs <> [] /\
    Forall (fun c =>
              (unresolved c \/ resolved c) /\
              (enableRowSelection c = true ->
               exists e, UtcVariant.eventOf c = Some e)) cs.
Proof.
  eexists. split; [vm_compute; reflexivity|]. split; [discriminate|].
  apply (positional_instants_together (firstn 3 (skipn 1 exampleRows))).
  vm_compute. reflexivity.
Defined.

(** ** Course blocks *)

(** The courses already parsed are only ever appended to: the loop runs
    the same way with more courses before them. *)
Lemma finalizeMeeting_earlier (pre : list Course) (st : LocalVariant.ParseState) :
  LocalVariant.finalizeMeeting (withEarlier pre st)
  = (st' <- LocalVariant.finalizeMeeting st ;; Normal (withEarlier pre st')).
Proof.
  destruct st as [cds cs b p].
  unfold LocalVariant.finalizeMeeting, withEarlier.
  cbn [LocalVariant.baseCourse LocalVariant.pendingMeeting
       LocalVariant.currentDateStrings LocalVariant.parsedCourses].
  destruct b as [base|]; [|reflexivity].
  destruct p as [pm|]; [|reflexivity].
  destruct (Meeting.day pm) as [days|]; [|reflexivity].
  destruct (Meeting.timeStrings pm) as [ts|]; [|reflexivity].
  destruct (List.length _ <? 2)%nat; [reflexivity|].
  destruct (LocalVariant.resolveMeeting _ _ _) as [[[s e] u]|]; [|reflexivity].
  cbn. now rewrite app_assoc.
Qed.

Lemma processRow_earlier (pre : list Course) (st : LocalVariant.ParseState)
  (row : list string) :
  LocalVariant.processRow (withEarlier pre st) row
  = (st' <- LocalVariant.processRow st row ;; Normal (withEarlier pre st')).
Proof.
  unfold LocalVariant.processRow.
  destruct (LocalVariant.isHeaderRow row).
  { rewrite finalizeMeeting_earlier.
    destruct (LocalVariant.finalizeMeeting st); reflexivity. }
  cbv zeta.
  destruct (JS.isEmpty _); [reflexivity|].
  destruct (JS.test JS.dateRangeRegex _).
  { rewrite finalizeMeeting_earlier.
    destruct (LocalVariant.finalizeMeeting st); reflexivity. }
  destruct (LocalVariant.isDayRow _).
  { change (LocalVariant.pendingMeeting (withEarlier pre st))
      with (LocalVariant.pendingMeeting st).
    destruct (LocalVariant.pendingMeeting st) as [pm|]; [|reflexivity].
    destruct (Meeting.day pm); [|reflexivity].
    destruct (Meeting.timeStrings pm); [|reflexivity].
    rewrite finalizeMeeting_earlier.
    destruct (LocalVariant.finalizeMeeting st); reflexivity. }
  destruct (LocalVariant.isTimeRow _); [reflexivity|].
  change (LocalVariant.pendingMeeting (withEarlier pre st))
    with (LocalVariant.pendingMeeting st).
  destruct (LocalVariant.locationCandidate _ _ _); [|reflexivity].
  destruct (_ || _); reflexivity.
Qed.

Lemma processRows_earlier (pre : list Course) (rows : list (list string))
  (st : LocalVariant.ParseState) :
  LocalVariant.processRows (withEarlier pre st) rows
  = (st' <- LocalVariant.processRows st rows ;; Normal (withEarlier pre st')).
Proof.
  revert st. induction rows as [|row rows IH]; intros st; [reflexivity|].
  cbn [LocalVariant.processRows]. rewrite processRow_earlier.
  destruct (LocalVariant.processRow st row) as [st1|]; [|reflexivity].
  cbn [bindC]. apply IH.
Qed.

Lemma processRows_app (rows1 rows2 : list (list string))
  (st : LocalVariant.ParseState) :
  LocalVariant.processRows st (rows1 ++ rows2)
  = (st1 <- LocalVariant.processRows st rows1 ;;
     LocalVariant.processRows st1 rows2).
Proof.
  revert st. induction rows1 as [|row rows1 IH]; intros st; [reflexivity|].
  cbn [app LocalVariant.processRows].
  destruct (LocalVariant.processRow st row); [apply IH|reflexivity].
Qed.

Lemma positional_row_earlier (pre : list Course) (st : UtcVariant.ParseState)
  (row : list string) :
  UtcVariant.processRow (withEarlierPositional pre st) row
  = (st' <- UtcVariant.processRow st row ;; Normal (withEarlierPositional pre st')).
Proof.
  unfold UtcVariant.processRow.
  destruct (UtcVariant.isHeaderRow row).
  { cbn. unfold withEarlierPositional, UtcVariant.pushCurrent. cbn.
    destruct (UtcVariant.currentCourse st); [now rewrite app_assoc|reflexivity]. }
  cbv zeta.
  change (UtcVariant.i (withEarlierPositional pre st)) with (UtcVariant.i st).
  change (UtcVariant.currentCourse (withEarlierPositional pre st))
    with (UtcVariant.currentCourse st).
  change (UtcVariant.currentDateStrings (withEarlierPositional pre st))
    with (UtcVariant.currentDateStrings st).
  destruct (UtcVariant.i st) as [|[|[|n]]];
    destruct (UtcVariant.currentCourse st) as [c|]; try reflexivity.
  - destruct row; reflexivity.
  - destruct (UtcVariant.timeRow _ _ _); reflexivity.
  - destruct row as [|c0 row]; [reflexivity|].
    destruct (split3 c0 ",") as [[[l m] r]|]; reflexivity.
Qed.

Lemma positional_rows_earlier (pre : list Course) (rows : list (list string))
  (st : UtcVariant.ParseState) :
  UtcVariant.processRows (withEarlierPositional pre st) rows
  = (st' <- UtcVariant.processRows st rows ;;
     Normal (withEarlierPositional pre st')).
Proof.
  revert st. induction rows as [|row rows IH]; intros st; [reflexivity|].
  cbn [UtcVariant.processRows]. rewrite positional_row_earlier.
  destruct (UtcVariant.processRow st row) as [st1|]; [|reflexivity].
  cbn [bindC]. apply IH.
Qed.

Lemma positional_rows_app (rows1 rows2 : list (list string))
  (st : UtcVariant.ParseState) :
  UtcVariant.processRows st (rows1 ++ rows2)
  = (st1 <- UtcVariant.processRows st rows1 ;;
     UtcVariant.processRows st1 rows2).
Proof.
  revert st. induction rows1 as [|row rows1 IH]; intros st; [reflexivity|].
  cbn [app UtcVariant.processRows].
  destruct (UtcVariant.processRow st row); [apply IH|reflexivity].
Qed.

(** X17.  Course blocks are parsed independently of each other.  A
    header row closes everything before it: in either variant the parse
    of a table body that has a header row in it is the parse of the rows
    before that row followed by the parse of the rows from it on, and it
    fails when one of the two fails. *)
Theorem course_blocks_independent (rows1 rows2 : list (list string))
  (h : list string) :
  LocalVariant.isHeaderRow h = true ->
  LocalVariant.parseBody (rows1 ++ h :: rows2)
  = (cs1 <- LocalVariant.parseBody rows1 ;;
     cs2 <- LocalVariant.parseBody (h :: rows2) ;;
     Normal (cs1 ++ cs2)) /\
  UtcVariant.parseBody (rows1 ++ h :: rows2)
  = (cs1 <- UtcVariant.parseBody rows1 ;;
     cs2 <- UtcVariant.parseBody (h :: rows2) ;;
     Normal (cs1 ++ cs2)).
Proof.
  intros Hh. split.
  - unfold LocalVariant.parseBody. rewrite processRows_app.
    destruct (LocalVariant.processRows LocalVariant.initialState rows1)
      as [st1|]; [|reflexivity].
    cbn [bindC LocalVariant.processRows].
    unfold LocalVariant.processRow. rewrite Hh.
    change (LocalVariant.finalizeMeeting LocalVariant.initialState)
      with (Normal LocalVariant.initialState).
    destruct (LocalVariant.finalizeMeeting st1) as [st1'|]; [|reflexivity].
    cbn [bindC LocalVariant.parsedCourses LocalVariant.initialState].
    match goal with
    | |- context [LocalVariant.processRows ?s0 rows2] =>
        match s0 with
        | LocalVariant.mkState _ [] _ _ => set (fresh := s0)
        end
    end.
    match goal with
    | |- context [LocalVariant.processRows ?s1 rows2] =>
        match s1 with
        | LocalVariant.mkState _ (LocalVariant.parsedCourses st1') _ _ =>
            replace s1 with (withEarlier (LocalVariant.parsedCourses st1') fresh)
              by (unfold withEarlier, fresh; cbn; now rewrite app_nil_r)
        end
    end.
    rewrite processRows_earlier.
    destruct (LocalVariant.processRows fresh rows2) as [st2|]; [|reflexivity].
    cbn [bindC]. rewrite finalizeMeeting_earlier.
    destruct (LocalVariant.finalizeMeeting st2) as [st2'|]; reflexivity.
  - unfold UtcVariant.parseBody. rewrite positional_rows_app.
    destruct (UtcVariant.processRows UtcVariant.initialState rows1)
      as [st1|]; [|reflexivity].
    cbn [bindC UtcVariant.processRows].
    unfold UtcVariant.processRow.
    change (UtcVariant.isHeaderRow h) with (LocalVariant.isHeaderRow h).
    rewrite Hh. cbv zeta. cbn [bindC].
    change (UtcVariant.pushCurrent UtcVariant.initialState) with (@nil Course).
    match goal with
    | |- context [UtcVariant.processRows ?s0 rows2] =>
        match s0 with
        | UtcVariant.mkState _ _ [] _ => set (fresh := s0)
        end
    end.
    match goal with
    | |- context [UtcVariant.processRows ?s1 rows2] =>
        match s1 with
        | UtcVariant.mkState _ _ (UtcVariant.pushCurrent st1) _ =>
            replace s1 with (withEarlierPositional (UtcVariant.pushCurrent st1) fresh)
              by (unfold withEarlierPositional, fresh; cbn; now rewrite app_nil_r)
        end
    end.
    rewrite positional_rows_earlier.
    destruct (UtcVariant.processRows fresh rows2) as [st2|]; [|reflexivity].
    cbn [bindC]. generalize (UtcVariant.pushCurrent st1) as pre. intros pre.
    unfold UtcVariant.pushCurrent, withEarlierPositional.
    cbn [UtcVariant.currentCourse UtcVariant.parsedCourses].
    destruct (UtcVariant.currentCourse st2); [now rewrite app_assoc|reflexivity].
Qed.

Lemma course_blocks_independent_witness :
  LocalVariant.isHeaderRow (nth 1 exampleRows []) = true /\
  LocalVariant.parseBody
    (firstn 3 (skipn 1 exampleRows) ++ nth 1 exampleRows [] :: [["Friday"]])
  = (cs1 <- LocalVariant.parseBody (firstn 3 (skipn 1 exampleRows)) ;;
     cs2 <- LocalVariant.parseBody (nth 1 exampleRows [] :: [["Friday"]]) ;;
     Normal (cs1 ++ cs2)).
Proof.
  split; [reflexivity|].
  apply (course_blocks_independent (firstn 3 (skipn 1 exampleRows)) [["Friday"]]
           (nth 1 exampleRows [])).
  reflexivity.
Defined.

(** X18.  While no day-set is in progress, the classifier-based loop
    takes a day row and a time row in either order: both orders leave
    the same state. *)
Theorem day_and_time_rows_commute (st : LocalVariant.ParseState)
  (d t : list string) :
  classify d = DayRow -> classify t = TimeRow -> pendingDay st = O ->
  LocalVariant.processRows st [d; t] = LocalVariant.processRows st [t; d].
Proof.
  intros Hd Ht Hp. cbn [LocalVariant.processRows].
  pose proof (processRow_kinds st d) as Kd. rewrite Hd in Kd.
  pose proof (processRow_kinds st t) as Kt. rewrite Ht in Kt.
  rewrite Kd, Kt. clear Kd Kt. cbv zeta.
  assert (E : match LocalVariant.pendingMeeting st with
              | Some pm =>
                  match Meeting.day pm, Meeting.timeStrings pm with
                  | Some _, Some _ => LocalVariant.finalizeMeeting st
                  | _, _ => Normal st
                  end
              | None => Normal st
              end = Normal st).
  { unfold pendingDay in Hp.
    destruct (LocalVariant.pendingMeeting st) as [pm|]; [|reflexivity].
    destruct (Meeting.day pm); [discriminate|reflexivity]. }
  rewrite E. cbn [bindC].
  match goal with
  | |- (st1 <- LocalVariant.processRow ?a t ;; _) = (st2 <- LocalVariant.processRow ?b d ;; _) =>
      pose proof (processRow_kinds a t) as Kt; rewrite Ht in Kt;
      pose proof (processRow_kinds b d) as Kd; rewrite Hd in Kd;
      rewrite Kt, Kd
  end.
  cbv zeta. unfold LocalVariant.setPending.
  cbn [LocalVariant.pendingMeeting LocalVariant.spread Meeting.day
       Meeting.timeStrings Meeting.campus Meeting.location Meeting.room
       Meeting.dateStrings LocalVariant.currentDateStrings
       LocalVariant.parsedCourses LocalVariant.baseCourse bindC].
  unfold pendingDay in Hp.
  destruct (LocalVariant.pendingMeeting st) as [pm|]; cbn.
  - destruct (Meeting.day pm); [discriminate|]. reflexivity.
  - reflexivity.
Qed.

Lemma day_and_time_rows_commute_witness :
  pendingDay LocalVariant.initialState = O /\
  LocalVariant.processRows LocalVariant.initialState
    [nth 2 exampleRows []; nth 3 exampleRows []]
  = LocalVariant.processRows LocalVariant.initialState
      [nth 3 exampleRows []; nth 2 exampleRows []].
Proof.
  split; [reflexivity|].
  apply (day_and_time_rows_commute LocalVariant.initialState
           (nth 2 exampleRows []) (nth 3 exampleRows []));
    vm_compute; reflexivity.
Defined.

(** X19.  A course block of the classifier-based variant: a header row,
    a day row and a time row, alone in the table body, give one course
    with the cells of the header row, the day-set of the day row and
    the instants resolved from the time row and the date range of the
    header row, and no location; the parse fails when that resolution
    raises an exception.  When the date-range cell gives fewer than two
    strings the block gives no course and no error. *)
Theorem course_block (h d t : list string) :
  classify h = HeaderRow -> classify d = DayRow -> classify t = TimeRow ->
  LocalVariant.parseBody [h; d; t]
  = if (List.length (datesOfHeader h) <? 2)%nat then Normal []
    else
      r <- LocalVariant.resolveMeeting (daysOfRow d) (timesOfRow t)
                                       (datesOfHeader h) ;;
      Normal [mkCourse (NumberOf (nth 3 h EmptyString))
                       (nth 0 h EmptyString) (nth 1 h EmptyString)
                       (Some (fst (fst r))) (Some (snd (fst r))) (Some (snd r))
                       (Some (daysOfRow d)) None None None].
Proof.
  intros Hh Hd Ht. unfold LocalVariant.parseBody.
  cbn [LocalVariant.processRows].
  pose proof (processRow_kinds LocalVariant.initialState h) as K.
  rewrite Hh in K. rewrite K. clear K.
  change (LocalVariant.finalizeMeeting LocalVariant.initialState)
    with (Normal LocalVariant.initialState).
  cbn [bindC LocalVariant.parsedCourses LocalVariant.initialState].
  match goal with
  | |- context [LocalVariant.processRow ?a d] =>
      pose proof (processRow_kinds a d) as K; rewrite Hd in K; rewrite K; clear K
  end.
  cbn [LocalVariant.pendingMeeting bindC]. cbv zeta.
  match goal with
  | |- context [LocalVariant.processRow ?a t] =>
      pose proof (processRow_kinds a t) as K; rewrite Ht in K; rewrite K; clear K
  end.
  cbv zeta. cbn [bindC]. unfold LocalVariant.setPending.
  cbn [LocalVariant.pendingMeeting LocalVariant.spread Meeting.day
       Meeting.timeStrings Meeting.campus Meeting.location Meeting.room
       Meeting.dateStrings LocalVariant.currentDateStrings
       LocalVariant.parsedCourses LocalVariant.baseCourse Meeting.empty].
  unfold LocalVariant.finalizeMeeting.
  cbn [LocalVariant.pendingMeeting LocalVariant.baseCourse Meeting.day
       Meeting.timeStrings LocalVariant.currentDateStrings].
  unfold LocalVariant.chosenDateStrings. cbv zeta.
  cbn [Meeting.dateStrings]. fold (datesOfHeader h).
  fold (daysOfRow d). fold (timesOfRow t).
  destruct (Nat.leb_spec 2 (List.length (datesOfHeader h))) as [Hlen | Hlen].
  - destruct (Nat.ltb_spec (List.length (datesOfHeader h)) 2); [lia|].
    destruct (LocalVariant.resolveMeeting _ _ _) as [[[s e] u]|]; reflexivity.
  - destruct (Nat.ltb_spec (List.length (datesOfHeader h)) 2); [|lia].
    reflexivity.
Qed.

Lemma course_block_witness :
  exists c,
    LocalVariant.parseBody
      [nth 1 exampleRows []; nth 2 exampleRows []; nth 3 exampleRows []]
    = Normal [c] /\ title c = "Intro to X" /\ location c = None.
Proof.
  eexists. split; [|split].
  - rewrite (course_block (nth 1 exampleRows []) (nth 2 exampleRows [])
               (nth 3 exampleRows [])) by (vm_compute; reflexivity).
    vm_compute. reflexivity.
  - reflexivity.
  - reflexivity.
Defined.

(** X20.  The classifier-based parse does not see blank rows: rows whose
    joined text is empty after trimming can be taken out of the table
    body, or put anywhere into it, without changing the result. *)
Theorem blank_rows_ignored (validRows : list (list string)) :
  LocalVariant.parseBody (filter notBlank validRows)
  = LocalVariant.parseBody validRows.
Proof.
  unfold LocalVariant.parseBody. f_equal.
  generalize LocalVariant.initialState as st.
  induction validRows as [|row rows IH]; intros st; [reflexivity|].
  cbn [filter]. unfold notBlank at 1, isKind.
  pose proof (processRow_kinds st row) as K.
  destruct (classify row) eqn:E; cbn [negb LocalVariant.processRows];
    try (destruct (LocalVariant.processRow st row) as [st1|];
         [cbn [bindC]; apply IH|reflexivity]).
  rewrite K. cbn [bindC]. apply IH.
Qed.

(** X21.  The location of an event is the location and room texts of the
    course that are present and not empty, joined by a comma and a
    space.  It is absent exactly when neither is there, and it is never
    the empty text. *)
Theorem event_location_cases (c : Course) :
  (eventLocation c = None <->
   JS.truthyOpt (location c) = false /\ JS.truthyOpt (room c) = false) /\
  eventLocation c <> Some EmptyString /\
  (forall l r, location c = Some l -> room c = Some r ->
               JS.truthy l = true -> JS.truthy r = true ->
               eventLocation c = Some (l ++ ", " ++ r)%string) /\
  (forall l, location c = Some l -> JS.truthy l = true ->
             JS.truthyOpt (room c) = false -> eventLocation c = Some l) /\
  (forall r, room c = Some r -> JS.truthy r = true ->
             JS.truthyOpt (location c) = false -> eventLocation c = Some r).
Proof.
  unfold eventLocation. cbv zeta.
  destruct (location c) as [[|a l]|], (room c) as [[|b r]|]; cbn;
    repeat split; intros; try discriminate; try congruence;
    try (destruct H; discriminate);
    repeat match goal with
           | H : Some _ = Some _ |- _ => injection H as <-
           end;
    try discriminate; reflexivity.
Qed.

(** ** Failure of the positional loop *)

Lemma timeRow_thrown_iff (c : Course) (current row : list string) :
  UtcVariant.timeRow c current row = Thrown <->
  exists d ds, day c = Some (d :: ds) /\
               resolutionRaises (d :: ds) (positionalTimes row) current.
Proof.
  unfold UtcVariant.timeRow, resolutionRaises. cbv zeta.
  fold (positionalTimes row).
  rewrite recurrenceBoundary_normal. cbn [bindC].
  destruct (day c) as [[|d ds]|].
  - cbn [bindC]. split; [discriminate|intros (? & ? & H & _); discriminate].
  - pose proof (alignBoth_thrown_iff
                  (parseLocal (nth_error current 0)
                              (nth_error (positionalTimes row) 0))
                  (parseLocal (nth_error current 0)
                              (nth_error (positionalTimes row) 1))
                  (d :: ds)) as Hiff.
    destruct (alignBoth _ _ (d :: ds)) as [[s e]|]; cbn [bindC].
    + split; [discriminate|].
      intros (d' & ds' & H & Hr). injection H as <- <-.
      apply Hiff in Hr. discriminate.
    + split; [|reflexivity]. intros _. exists d, ds. split; [reflexivity|].
      now apply Hiff.
  - cbn [bindC]. split; [discriminate|intros (? & ? & H & _); discriminate].
Qed.

(** X22.  Where the positional loop fails.  A header row never fails.
    Another row fails only while a course is in progress, and only in
    two places: at position 0 when the row has no cell, and at position 1
    when the date library raises an exception during the alignment: the
    start parses and the day-set names no weekday, or the start does not
    parse and the end does. *)
Theorem positional_row_fails_iff (st : UtcVariant.ParseState) (row : list string) :
  UtcVariant.processRow st row = Thrown <->
  UtcVariant.isHeaderRow row = false /\
  exists c, UtcVariant.currentCourse st = Some c /\
    ((UtcVariant.i st = O /\ row = []) \/
     (UtcVariant.i st = 1%nat /\
      exists d ds, day c = Some (d :: ds) /\
                   resolutionRaises (d :: ds) (positionalTimes row)
                                    (UtcVariant.currentDateStrings st))).
Proof.
  unfold UtcVariant.processRow.
  destruct (UtcVariant.isHeaderRow row).
  { split; [discriminate|intros [H _]; discriminate]. }
  cbv zeta.
  destruct (UtcVariant.currentCourse st) as [c|].
  - destruct (UtcVariant.i st) as [|[|[|n]]].
    + destruct row as [|c0 row].
      * split; [|reflexivity]. intros _. split; [reflexivity|].
        exists c. split; [reflexivity|]. left. now split.
      * split; [discriminate|].
        intros (_ & c' & _ & [[_ H] | [H _]]); discriminate.
    + pose proof (timeRow_thrown_iff c (UtcVariant.currentDateStrings st) row)
        as Hiff.
      destruct (UtcVariant.timeRow c _ row) as [c'|]; cbn [bindC].
      * split; [discriminate|].
        intros (_ & c0 & Hc & [[H _] | [_ H]]); [discriminate|].
        injection Hc as <-. apply Hiff in H. discriminate.
      * split; [|reflexivity]. intros _. split; [reflexivity|].
        exists c. split; [reflexivity|]. right. split; [reflexivity|].
        now apply Hiff.
    + assert (Hn : forall P : Prop,
                ((2%nat = O /\ row = []) \/ (2%nat = 1%nat /\ P)) -> False)
        by (intros P [[H _] | [H _]]; discriminate).
      destruct row as [|c0 row];
        [|destruct (split3 c0 ",") as [[[l m] r]|]];
        (split; [discriminate|intros (_ & c' & _ & H); now apply Hn in H]).
    + split; [discriminate|].
      intros (_ & c' & _ & [[H _] | [H _]]); discriminate.
  - destruct (UtcVariant.i st) as [|[|[|n]]];
      (split; [discriminate|intros (_ & c' & H & _); discriminate]).
Qed.
